(** * Articademy backend: job lifecycle and daily analytics

    A shallow embedding of the job lifecycle engine (models/Job.js, the
    status route of routes/jobRoutes.js) and of the daily analytics
    aggregator (models/Analytics.js), together with the public request
    handlers that call both, the migration script, and the admin
    accounts with the guards of the admin routes (models/Admin.js,
    middleware/auth.js, the login route of routes/adminRoutes.js).

    Conventions of the embedding:
    - a JavaScript [Date] is its number of milliseconds since the epoch,
      an integer of [Z]; the server is taken to run in UTC, so that
      [setDate(getDate() - n)] subtracts [n] days of 86400000 ms and
      [setHours(0,0,0,0)] truncates to the UTC midnight;
    - counters are JavaScript numbers holding integers; they are modelled
      in [Z] (exact below 2^53); where the code divides two of them, the
      doubles are those of the standard library's [SpecFloat] at
      precision 53 and maximal exponent 1024 (IEEE-754 binary64);
    - a MongoDB collection addressed by [_id] is a [gmap] from ids to
      documents; a collection read in natural order is a list;
    - every [new Date()] evaluated while a function runs is one reading of
      a clock: a function that reads the clock takes [clk : Clock] and its
      k-th reading is [clk k];
    - the timestamps [createdAt]/[updatedAt] kept by Mongoose itself are
      not part of the model. *)

From Stdlib Require Import String ZArith Bool Lia.
From Stdlib Require SpecFloat.
From stdpp Require Import base option list gmap fin_maps pretty.

Local Open Scope Z_scope.

(** ** Dates and the clock *)

Module Clock.

Definition Date := Z.

(** The readings of [new Date()] within one call, in evaluation order. *)
Definition Clock := nat -> Date.

(** A clock frozen at [now]. *)
Definition fixed (now : Date) : Clock := fun _ => now.

Definition msPerDay : Z := 24 * 60 * 60 * 1000.

(** [d.setDate(d.getDate() - n)] *)
Definition subDays (d : Date) (n : Z) : Date := d - n * msPerDay.

(** [d.setHours(0, 0, 0, 0)] *)
Definition startOfDay (d : Date) : Date := d - d mod msPerDay.

(** [d.setHours(23, 59, 59, 999)] *)
Definition endOfDay (d : Date) : Date := startOfDay d + (msPerDay - 1).

(** Index of the calendar day a date falls in. *)
Definition dayOf (d : Date) : Z := d / msPerDay.

End Clock.

Import Clock.

(** ** Outcome of an awaited call *)

Inductive Error : Type :=
  | NotFound
  | StorageFailure.

Inductive Res (A : Type) : Type :=
  | Ok (a : A)
  | Throw (e : Error).

Arguments Ok {A} a.
Arguments Throw {A} e.

#[global] Instance Res_ret : MRet Res := fun _ a => Ok a.

#[global] Instance Res_bind : MBind Res := fun _ _ k r =>
  match r with
  | Ok a => k a
  | Throw e => Throw e
  end.

(** ** models/Job.js *)

Module JobModel.

Inductive Status : Type := active | dump | inactive.

Definition Status_eqb (a b : Status) : bool :=
  match a, b with
  | active, active | dump, dump | inactive, inactive => true
  | _, _ => false
  end.

(** The descriptive fields of the schema; the lifecycle code carries
    them and never reads them. *)
Record Details : Type := mkDetails {
  jobId : string;
  companyName : string;
  role : string;
  location : string;
  experience : string;
  description : string;
  requiredDegree : string;
  employmentType : string;
  hiringLink : string;
  estPackage : string;
  keywords : list string;
  createdBy : nat
}.

(** The [analytics] sub-document of a job. *)
Record Counters : Type := mkCounters {
  views : Z;
  clicks : Z;
  lastViewedAt : option Date;
  lastClickedAt : option Date
}.

Record Job : Type := mkJob {
  details : Details;
  datePosted : Date;
  status : Status;
  movedToDumpAt : option Date;
  lastStatusChange : Date;
  isActive : bool;
  analytics : Counters
}.

(** [new Job(data)] with the schema defaults, as the creation route
    builds it: status 'active', movedToDumpAt null, isActive true,
    datePosted and lastStatusChange [Date.now], counters 0. *)
Definition newJob (clk : Clock) (d : Details) : Job :=
  {| details := d;
     datePosted := clk 0%nat;
     status := active;
     movedToDumpAt := None;
     lastStatusChange := clk 1%nat;
     isActive := true;
     analytics := {| views := 0; clicks := 0;
                     lastViewedAt := None; lastClickedAt := None |} |}.

(** *** Instance methods *)

Definition incrementViews (clk : Clock) (j : Job) : Job :=
  {| details := details j;
     datePosted := datePosted j;
     status := status j;
     movedToDumpAt := movedToDumpAt j;
     lastStatusChange := lastStatusChange j;
     isActive := isActive j;
     analytics := {| views := views (analytics j) + 1;
                     clicks := clicks (analytics j);
                     lastViewedAt := Some (clk 0%nat);
                     lastClickedAt := lastClickedAt (analytics j) |} |}.

Definition incrementClicks (clk : Clock) (j : Job) : Job :=
  {| details := details j;
     datePosted := datePosted j;
     status := status j;
     movedToDumpAt := movedToDumpAt j;
     lastStatusChange := lastStatusChange j;
     isActive := isActive j;
     analytics := {| views := views (analytics j);
                     clicks := clicks (analytics j) + 1;
                     lastViewedAt := lastViewedAt (analytics j);
                     lastClickedAt := Some (clk 0%nat) |} |}.

Definition moveToDump (clk : Clock) (j : Job) : Job :=
  {| details := details j;
     datePosted := datePosted j;
     status := dump;
     movedToDumpAt := Some (clk 0%nat);
     lastStatusChange := clk 1%nat;
     isActive := isActive j;
     analytics := analytics j |}.

Definition moveToInactive (clk : Clock) (j : Job) : Job :=
  {| details := details j;
     datePosted := datePosted j;
     status := inactive;
     movedToDumpAt := movedToDumpAt j;
     lastStatusChange := clk 0%nat;
     isActive := false;
     analytics := analytics j |}.

Definition reactivate (clk : Clock) (j : Job) : Job :=
  {| details := details j;
     datePosted := clk 1%nat;
     status := active;
     movedToDumpAt := None;
     lastStatusChange := clk 0%nat;
     isActive := true;
     analytics := analytics j |}.

(** *** The collection *)

Abbreviation Jobs := (gmap nat Job).

(** [Job.findById(id)] *)
Definition findById (id : nat) (db : Jobs) : option Job := db !! id.

(** [doc.save()] of a document read from the collection. *)
Definition save (id : nat) (j : Job) (db : Jobs) : Jobs := <[id := j]> db.

(** [Job.updateMany(filter, { $set })]: every matching document is
    rewritten; [modifiedCount] is the number of documents changed. The
    two updates of processStatusChanges set a status that no document
    they match has, so that every matched document is a modified one. *)
Definition updateMany (matches : Job -> bool) (set : Job -> Job)
    (db : Jobs) : Jobs * nat :=
  ((fun j => if matches j then set j else j) <$> db,
   size (filter (fun kv => matches kv.2 = true) db)).

(** [{ $lt: bound }] on a date field that may be null: null never
    matches. *)
Definition optLt (d : option Date) (bound : Date) : bool :=
  match d with
  | Some t => t <? bound
  | None => false
  end.

(** *** processStatusChanges *)

Definition dumpFilter (sevenDaysAgo : Date) (j : Job) : bool :=
  Status_eqb (status j) active && (datePosted j <? sevenDaysAgo).

Definition dumpSet (movedAt changedAt : Date) (j : Job) : Job :=
  {| details := details j;
     datePosted := datePosted j;
     status := dump;
     movedToDumpAt := Some movedAt;
     lastStatusChange := changedAt;
     isActive := isActive j;
     analytics := analytics j |}.

Definition inactiveFilter (thirtyDaysAgo : Date) (j : Job) : bool :=
  Status_eqb (status j) dump && optLt (movedToDumpAt j) thirtyDaysAgo.

Definition inactiveSet (changedAt : Date) (j : Job) : Job :=
  {| details := details j;
     datePosted := datePosted j;
     status := inactive;
     movedToDumpAt := movedToDumpAt j;
     lastStatusChange := changedAt;
     isActive := false;
     analytics := analytics j |}.

Record PassResult : Type := mkPassResult {
  movedToDump : nat;
  movedToInactive : nat
}.

(** The clock is read for sevenDaysAgo, for thirtyDaysAgo, twice for the
    first update and once for the second. *)
Definition processStatusChanges (clk : Clock) (db : Jobs)
    : Jobs * PassResult :=
  let sevenDaysAgo := subDays (clk 0%nat) 7 in
  let thirtyDaysAgo := subDays (clk 1%nat) 30 in
  let '(db1, jobsToMoveToDump) :=
    updateMany (dumpFilter sevenDaysAgo)
               (dumpSet (clk 2%nat) (clk 3%nat)) db in
  let '(db2, jobsToMoveToInactive) :=
    updateMany (inactiveFilter thirtyDaysAgo)
               (inactiveSet (clk 4%nat)) db1 in
  (db2, {| movedToDump := jobsToMoveToDump;
           movedToInactive := jobsToMoveToInactive |}).

(** [ProcessTransitions(now)]: one pass under a clock that reads [now]
    throughout. *)
Definition ProcessTransitions (now : Date) (db : Jobs)
    : Jobs * PassResult :=
  processStatusChanges (fixed now) db.

(** What one pass does to a single document: the two updates in turn
    (see [processStatusChanges_lookup]). *)
Definition passJob (clk : Clock) (j : Job) : Job :=
  let j1 := if dumpFilter (subDays (clk 0%nat) 7) j
            then dumpSet (clk 2%nat) (clk 3%nat) j else j in
  if inactiveFilter (subDays (clk 1%nat) 30) j1
  then inactiveSet (clk 4%nat) j1 else j1.

(** *** PUT /:id/status

    The route behind the manual transitions. Authentication and the
    permission check run before the handler and are not modelled. *)

Inductive Reply : Type :=
  | BadRequest
  | JobNotFound
  | StatusUpdated (j : Job).

Definition validStatuses : list string :=
  ["active"; "dump"; "inactive"]%string.

Definition includesString (l : list string) (s : string) : bool :=
  existsb (String.eqb s) l.

Definition putStatus (clk : Clock) (id : nat) (newStatus : string)
    (db : Jobs) : Reply * Jobs :=
  if negb (includesString validStatuses newStatus) then (BadRequest, db)
  else
    match findById id db with
    | None => (JobNotFound, db)
    | Some job =>
        let job' :=
          if String.eqb newStatus "active" then reactivate clk job
          else if String.eqb newStatus "dump" then moveToDump clk job
          else if String.eqb newStatus "inactive" then moveToInactive clk job
          else job in
        (StatusUpdated job', save id job' db)
    end.

Definition ReactivateJob (clk : Clock) (id : nat) (db : Jobs) :=
  putStatus clk id "active" db.

Definition MoveToDump (clk : Clock) (id : nat) (db : Jobs) :=
  putStatus clk id "dump" db.

Definition MoveToInactive (clk : Clock) (id : nat) (db : Jobs) :=
  putStatus clk id "inactive" db.

(** [IncrementView(id)], [IncrementClick(id)]: the method applied to the
    document found by id, then saved. *)
Definition onJob (f : Job -> Job) (id : nat) (db : Jobs) : Res Jobs :=
  match findById id db with
  | None => Throw NotFound
  | Some job => Ok (save id (f job) db)
  end.

Definition IncrementView (clk : Clock) := onJob (incrementViews clk).
Definition IncrementClick (clk : Clock) := onJob (incrementClicks clk).

(** *** Sequences of core operations on the collection *)

Inductive Op : Type :=
  | OpPass (clk : Clock)
  | OpMoveToDump (clk : Clock) (id : nat)
  | OpMoveToInactive (clk : Clock) (id : nat)
  | OpReactivate (clk : Clock) (id : nat)
  | OpIncrementView (clk : Clock) (id : nat)
  | OpIncrementClick (clk : Clock) (id : nat).

Definition orKeep (db : Jobs) (r : Res Jobs) : Jobs :=
  match r with
  | Ok db' => db'
  | Throw _ => db
  end.

Definition applyOp (db : Jobs) (op : Op) : Jobs :=
  match op with
  | OpPass clk => (processStatusChanges clk db).1
  | OpMoveToDump clk id => (MoveToDump clk id db).2
  | OpMoveToInactive clk id => (MoveToInactive clk id db).2
  | OpReactivate clk id => (ReactivateJob clk id db).2
  | OpIncrementView clk id => orKeep db (IncrementView clk id db)
  | OpIncrementClick clk id => orKeep db (IncrementClick clk id db)
  end.

Definition runOps (ops : list Op) (db : Jobs) : Jobs :=
  fold_left applyOp ops db.

(** The invariants the data model states for a job. *)
Definition JobInvariant (j : Job) : Prop :=
  (movedToDumpAt j <> None <-> status j = dump \/ status j = inactive)
  /\ (isActive j = false <-> status j = inactive).

(** The part of the invariants that no manual transition breaks. *)
Definition LifecycleInvariant (j : Job) : Prop :=
  (status j = active -> movedToDumpAt j = None /\ isActive j = true)
  /\ (status j = dump -> movedToDumpAt j <> None)
  /\ (status j = inactive -> isActive j = false).

(** *** The virtuals of the schema *)



(** *** Observations on the collection and on sequences of operations *)

(** Number of jobs with a given status, as the admin listing counts
    them ([$group] by status). *)
Definition countStatus (s : Status) (db : Jobs) : nat :=
  size (filter (fun kv => Status_eqb (status kv.2) s = true) db).

(** The string a status is written as. *)
Definition statusName (s : Status) : string :=
  match s with
  | active => "active"
  | dump => "dump"
  | inactive => "inactive"
  end.

(** Number of view (click) increments a sequence of operations applies
    to one job. *)
Fixpoint countViewOps (id : nat) (ops : list Op) : nat :=
  match ops with
  | [] => 0
  | OpIncrementView _ id' :: rest =>
      ((if decide (id' = id) then 1 else 0) + countViewOps id rest)%nat
  | _ :: rest => countViewOps id rest
  end.

Fixpoint countClickOps (id : nat) (ops : list Op) : nat :=
  match ops with
  | [] => 0
  | OpIncrementClick _ id' :: rest =>
      ((if decide (id' = id) then 1 else 0) + countClickOps id rest)%nat
  | _ :: rest => countClickOps id rest
  end.

(** *** migrateJobs (the migration script)

    What the script computes for one job that has no status, and the
    [$set] it sends for it. The status the document may hold is not
    read. [Math.floor] of the quotient of two integers is the floor
    division of [Z]; [setDate(getDate() + 7)] adds 7 days. *)

Definition addDays (d : Date) (n : Z) : Date := d + n * msPerDay.

Definition migrateJob (clk : Clock) (j : Job) : Job :=
  let jobAge := (clk 0%nat - datePosted j) / (1000 * 60 * 60 * 24) in
  let '(status', movedToDumpAt') :=
    if 37 <? jobAge then (inactive, Some (addDays (datePosted j) 7))
    else if 7 <? jobAge then (dump, Some (addDays (datePosted j) 7))
    else (active, None) in
  {| details := details j;
     datePosted := datePosted j;
     status := status';
     movedToDumpAt := movedToDumpAt';
     lastStatusChange := clk 1%nat;
     isActive := if Status_eqb status' inactive then false else true;
     analytics := analytics j |}.

End JobModel.

(** ** models/Analytics.js *)

Module AnalyticsModel.

(** [s.includes(sub)] on strings *)
Fixpoint includes (s sub : string) : bool :=
  String.prefix sub s
  || match s with
     | EmptyString => false
     | String _ rest => includes rest sub
     end.

(** What [recordWebsiteVisit] reads of the request. *)
Record Request : Type := mkRequest {
  reqIp : option string;
  remoteAddress : option string;
  userAgentHeader : option string
}.

(** [a || b] where [a] is a string or undefined: the empty string is
    falsy. *)
Definition truthy (a : option string) : bool :=
  match a with
  | Some s => negb (String.eqb s "")
  | None => false
  end.

Definition orElse (a b : option string) : option string :=
  if truthy a then a else b.

Record Visitor : Type := mkVisitor {
  ip : option string;
  userAgent : string;
  timestamp : Date
}.

Record JobCount : Type := mkJobCount {
  jobId : nat;
  count : Z
}.

Record DeviceInfo : Type := mkDeviceInfo {
  desktop : Z;
  mobile : Z;
  tablet : Z
}.

Record BrowserInfo : Type := mkBrowserInfo {
  chrome : Z;
  firefox : Z;
  safari : Z;
  edge : Z;
  others : Z
}.

(** One document per day. [topSearchKeywords] and [topCompanies] are
    declared by the schema and never written; they stay empty. *)
Record Analytics : Type := mkAnalytics {
  date : Date;
  websiteVisits : Z;
  uniqueVisitors : list Visitor;
  jobViews : list JobCount;
  jobClicks : list JobCount;
  deviceInfo : DeviceInfo;
  browserInfo : BrowserInfo
}.

(** [new this({ date: today })] with the schema defaults *)
Definition newAnalytics (today : Date) : Analytics :=
  {| date := today;
     websiteVisits := 0;
     uniqueVisitors := [];
     jobViews := [];
     jobClicks := [];
     deviceInfo := {| desktop := 0; mobile := 0; tablet := 0 |};
     browserInfo := {| chrome := 0; firefox := 0; safari := 0;
                       edge := 0; others := 0 |} |}.

(** *** The collection and its failures

    The collection is the list of its documents in natural order. A
    read or a write of the store may be rejected; [Faults] says which
    ones are, for the duration of one call. *)

Record Faults : Type := mkFaults {
  findFails : bool;
  saveFails : bool
}.

Definition healthy : Faults := {| findFails := false; saveFails := false |}.

(** [this.findOne({ date: today })]: the first match and its position,
    or null. *)
Definition findOne (flt : Faults) (today : Date) (coll : list Analytics)
    : Res (option (nat * Analytics)) :=
  if findFails flt then Throw StorageFailure
  else Ok (list_find (fun a => date a = today) coll).

(** The document the call works on: the one found, kept with its
    position, or a new one. *)
Definition orNew (today : Date) (found : option (nat * Analytics))
    : option nat * Analytics :=
  match found with
  | Some (i, a) => (Some i, a)
  | None => (None, newAnalytics today)
  end.

(** [analytics.save()]: a document that was read is written back in
    place, a new one is inserted at the end. *)
Definition save (flt : Faults) (slot : option nat) (a : Analytics)
    (coll : list Analytics) : Res (list Analytics) :=
  if saveFails flt then Throw StorageFailure
  else match slot with
       | Some i => Ok (<[i := a]> coll)
       | None => Ok (coll ++ [a])
       end.

(** *** recordWebsiteVisit *)

Definition sameVisitor (ip0 : option string) (ua : string) (v : Visitor)
    : bool :=
  bool_decide (ip v = ip0) && String.eqb (userAgent v) ua.

Definition bumpDevice (ua : string) (d : DeviceInfo) : DeviceInfo :=
  if includes ua "Mobile" then
    {| desktop := desktop d; mobile := mobile d + 1; tablet := tablet d |}
  else if includes ua "Tablet" then
    {| desktop := desktop d; mobile := mobile d; tablet := tablet d + 1 |}
  else
    {| desktop := desktop d + 1; mobile := mobile d; tablet := tablet d |}.

Definition bumpBrowser (ua : string) (b : BrowserInfo) : BrowserInfo :=
  if includes ua "Chrome" then
    {| chrome := chrome b + 1; firefox := firefox b; safari := safari b;
       edge := edge b; others := others b |}
  else if includes ua "Firefox" then
    {| chrome := chrome b; firefox := firefox b + 1; safari := safari b;
       edge := edge b; others := others b |}
  else if includes ua "Safari" then
    {| chrome := chrome b; firefox := firefox b; safari := safari b + 1;
       edge := edge b; others := others b |}
  else if includes ua "Edge" then
    {| chrome := chrome b; firefox := firefox b; safari := safari b;
       edge := edge b + 1; others := others b |}
  else
    {| chrome := chrome b; firefox := firefox b; safari := safari b;
       edge := edge b; others := others b + 1 |}.

(** The body of [recordWebsiteVisit] between the read and the save. *)
Definition visit (clk : Clock) (ip0 : option string) (ua : string)
    (a : Analytics) : Analytics :=
  let existingVisitor := List.find (sameVisitor ip0 ua) (uniqueVisitors a) in
  let visitors :=
    match existingVisitor with
    | Some _ => uniqueVisitors a
    | None => uniqueVisitors a
              ++ [{| ip := ip0; userAgent := ua; timestamp := clk 1%nat |}]
    end in
  {| date := date a;
     websiteVisits := websiteVisits a + 1;
     uniqueVisitors := visitors;
     jobViews := jobViews a;
     jobClicks := jobClicks a;
     deviceInfo := bumpDevice ua (deviceInfo a);
     browserInfo := bumpBrowser ua (browserInfo a) |}.

Definition recordWebsiteVisit (flt : Faults) (clk : Clock) (req : Request)
    (coll : list Analytics) : Res (list Analytics) :=
  let today := startOfDay (clk 0%nat) in
  let ip0 := orElse (reqIp req) (remoteAddress req) in
  let ua := default ""%string (orElse (userAgentHeader req) (Some ""%string)) in
  found ← findOne flt today coll;
  let '(slot, analytics) := orNew today found in
  save flt slot (visit clk ip0 ua analytics) coll.

(** *** recordJobView, recordJobClick *)

(** [find] an entry of the job, then [count += 1] on it, else [push]. *)
Definition bump (id : nat) (entries : list JobCount) : list JobCount :=
  match list_find (fun e => jobId e = id) entries with
  | Some (i, e) => <[i := {| jobId := jobId e; count := count e + 1 |}]> entries
  | None => entries ++ [{| jobId := id; count := 1 |}]
  end.

Definition view (id : nat) (a : Analytics) : Analytics :=
  {| date := date a;
     websiteVisits := websiteVisits a;
     uniqueVisitors := uniqueVisitors a;
     jobViews := bump id (jobViews a);
     jobClicks := jobClicks a;
     deviceInfo := deviceInfo a;
     browserInfo := browserInfo a |}.

Definition click (id : nat) (a : Analytics) : Analytics :=
  {| date := date a;
     websiteVisits := websiteVisits a;
     uniqueVisitors := uniqueVisitors a;
     jobViews := jobViews a;
     jobClicks := bump id (jobClicks a);
     deviceInfo := deviceInfo a;
     browserInfo := browserInfo a |}.

Definition recordJobView (flt : Faults) (clk : Clock) (id : nat)
    (coll : list Analytics) : Res (list Analytics) :=
  let today := startOfDay (clk 0%nat) in
  found ← findOne flt today coll;
  let '(slot, analytics) := orNew today found in
  save flt slot (view id analytics) coll.

Definition recordJobClick (flt : Faults) (clk : Clock) (id : nat)
    (coll : list Analytics) : Res (list Analytics) :=
  let today := startOfDay (clk 0%nat) in
  found ← findOne flt today coll;
  let '(slot, analytics) := orNew today found in
  save flt slot (click id analytics) coll.

(** *** Sequences of recording calls

    A call that is rejected by the store has written nothing. *)

Inductive Event : Type :=
  | RecordVisit (flt : Faults) (clk : Clock) (req : Request)
  | RecordJobView (flt : Faults) (clk : Clock) (id : nat)
  | RecordJobClick (flt : Faults) (clk : Clock) (id : nat).

Definition orKeep (coll : list Analytics) (r : Res (list Analytics))
    : list Analytics :=
  match r with
  | Ok coll' => coll'
  | Throw _ => coll
  end.

Definition applyEvent (coll : list Analytics) (ev : Event)
    : list Analytics :=
  match ev with
  | RecordVisit flt clk req => orKeep coll (recordWebsiteVisit flt clk req coll)
  | RecordJobView flt clk id => orKeep coll (recordJobView flt clk id coll)
  | RecordJobClick flt clk id => orKeep coll (recordJobClick flt clk id coll)
  end.

Definition runEvents (evs : list Event) (coll : list Analytics)
    : list Analytics :=
  fold_left applyEvent evs coll.

(** The device counters and the browser counters both add up to the
    visits. *)
Definition balanced (a : Analytics) : Prop :=
  desktop (deviceInfo a) + mobile (deviceInfo a) + tablet (deviceInfo a)
    = websiteVisits a
  /\ chrome (browserInfo a) + firefox (browserInfo a) + safari (browserInfo a)
     + edge (browserInfo a) + others (browserInfo a)
    = websiteVisits a.

(** One device counter is one higher and the other two are as they
    were; the same for the five browser counters. *)
Definition oneDeviceMore (d d' : DeviceInfo) : Prop :=
  (desktop d' = desktop d + 1 /\ mobile d' = mobile d /\ tablet d' = tablet d)
  \/ (desktop d' = desktop d /\ mobile d' = mobile d + 1
      /\ tablet d' = tablet d)
  \/ (desktop d' = desktop d /\ mobile d' = mobile d
      /\ tablet d' = tablet d + 1).

Definition oneBrowserMore (b b' : BrowserInfo) : Prop :=
  (chrome b' = chrome b + 1 /\ firefox b' = firefox b /\ safari b' = safari b
   /\ edge b' = edge b /\ others b' = others b)
  \/ (chrome b' = chrome b /\ firefox b' = firefox b + 1
      /\ safari b' = safari b /\ edge b' = edge b /\ others b' = others b)
  \/ (chrome b' = chrome b /\ firefox b' = firefox b
      /\ safari b' = safari b + 1 /\ edge b' = edge b /\ others b' = others b)
  \/ (chrome b' = chrome b /\ firefox b' = firefox b /\ safari b' = safari b
      /\ edge b' = edge b + 1 /\ others b' = others b)
  \/ (chrome b' = chrome b /\ firefox b' = firefox b /\ safari b' = safari b
      /\ edge b' = edge b /\ others b' = others b + 1).

(** *** getAnalyticsForDateRange

    The documents a range query returns are plain objects ([lean]) in
    which the [jobId] of every per-job entry has been populated: it
    holds the selected fields of the job it referred to, or null when
    no job with that id satisfies the [match]. The entry itself, with
    its count, stays in the array; the routes that consume the result
    test [entry.jobId] for null before they read the job. *)

(** What the query reads of a job document in the store: the selected
    paths. The schema gives [status] a default and does not require it,
    so the store may hold a job without one: a document written before
    the path existed, which the migration script selects with
    [{ status: { $exists: false } }] and [{ status: null }]. *)
Record StoredJob : Type := mkStoredJob {
  storedDetails : JobModel.Details;
  storedDatePosted : Date;
  storedStatus : option JobModel.Status
}.

(** A job the model has written: its status is stored. *)
Definition stored (j : JobModel.Job) : StoredJob :=
  {| storedDetails := JobModel.details j;
     storedDatePosted := JobModel.datePosted j;
     storedStatus := Some (JobModel.status j) |}.

Record JobSummary : Type := mkJobSummary {
  _id : nat;
  companyName : string;
  role : string;
  location : string;
  datePosted : Date;
  status : option JobModel.Status
}.

Module Lean.

Record Entry : Type := mkEntry {
  jobId : option JobSummary;
  count : Z
}.

Record Day : Type := mkDay {
  date : Date;
  websiteVisits : Z;
  uniqueVisitors : list Visitor;
  jobViews : list Entry;
  jobClicks : list Entry;
  deviceInfo : DeviceInfo;
  browserInfo : BrowserInfo
}.

End Lean.

(** [match: { status: { $ne: null } }]: the stored job has a status
    and it is not null. *)
Definition statusNotNull (j : StoredJob) : bool :=
  match storedStatus j with
  | Some _ => true
  | None => false
  end.

(** The reference of an entry after [populate]: the selected paths of
    the job with that id when one is stored and passes the [match],
    null otherwise. *)
Definition populateRef (jobs : gmap nat StoredJob) (id : nat)
    : option JobSummary :=
  match jobs !! id with
  | Some j =>
      if statusNotNull j then
        Some {| _id := id;
                companyName := JobModel.companyName (storedDetails j);
                role := JobModel.role (storedDetails j);
                location := JobModel.location (storedDetails j);
                datePosted := storedDatePosted j;
                status := storedStatus j |}
      else None
  | None => None
  end.

Definition populateEntry (jobs : gmap nat StoredJob) (e : JobCount)
    : Lean.Entry :=
  {| Lean.jobId := populateRef jobs (jobId e); Lean.count := count e |}.

Definition populateDay (jobs : gmap nat StoredJob) (a : Analytics)
    : Lean.Day :=
  {| Lean.date := date a;
     Lean.websiteVisits := websiteVisits a;
     Lean.uniqueVisitors := uniqueVisitors a;
     Lean.jobViews := populateEntry jobs <$> jobViews a;
     Lean.jobClicks := populateEntry jobs <$> jobClicks a;
     Lean.deviceInfo := deviceInfo a;
     Lean.browserInfo := browserInfo a |}.

(** [{ date: { $gte: startDate, $lte: endDate } }] *)
Definition inRange (startDate endDate : Date) (a : Analytics) : Prop :=
  startDate <= date a /\ date a <= endDate.

#[global] Instance inRange_dec startDate endDate a
  : Decision (inRange startDate endDate a).
Proof. unfold inRange. apply _. Defined.

Definition getAnalyticsForDateRange (flt : Faults)
    (jobs : gmap nat StoredJob) (startDate endDate : Date)
    (coll : list Analytics) : Res (list Lean.Day) :=
  if findFails flt then Throw StorageFailure
  else Ok (populateDay jobs <$> filter (inRange startDate endDate) coll).

(** How a returned entry relates to the stored one: same count, and a
    job reference that is null when no job has the id, null when the job
    with the id is stored without a status, and otherwise holds the
    selected paths of that job. *)
Definition resolved (jobs : gmap nat StoredJob) (e : JobCount)
    (r : Lean.Entry) : Prop :=
  Lean.count r = count e
  /\ (jobs !! jobId e = None -> Lean.jobId r = None)
  /\ (forall j, jobs !! jobId e = Some j -> storedStatus j = None ->
        Lean.jobId r = None)
  /\ (forall j st, jobs !! jobId e = Some j -> storedStatus j = Some st ->
        exists s, Lean.jobId r = Some s
                  /\ _id s = jobId e
                  /\ companyName s = JobModel.companyName (storedDetails j)
                  /\ role s = JobModel.role (storedDetails j)
                  /\ location s = JobModel.location (storedDetails j)
                  /\ datePosted s = storedDatePosted j
                  /\ status s = Some st).

(** How a returned day relates to the stored bucket: same date and
    counters, and its per-job entries are those of the bucket, one for
    one and in order. *)
Definition reported (jobs : gmap nat StoredJob) (a : Analytics)
    (d : Lean.Day) : Prop :=
  Lean.date d = date a
  /\ Lean.websiteVisits d = websiteVisits a
  /\ Lean.uniqueVisitors d = uniqueVisitors a
  /\ Forall2 (resolved jobs) (jobViews a) (Lean.jobViews d)
  /\ Forall2 (resolved jobs) (jobClicks a) (Lean.jobClicks d).

(** *** getDashboardAnalytics *)

Inductive JsValue : Type :=
  | JsNumber (n : Z)
  | JsString (s : string).

Record Dashboard : Type := mkDashboard {
  totalVisits : Z;
  totalUniqueVisitors : Z;
  totalJobViews : Z;
  totalJobClicks : Z;
  dailyAnalytics : list Lean.Day;
  conversionRate : JsValue
}.

Definition sumCounts (entries : list Lean.Entry) : Z :=
  fold_left (fun acc e => acc + Lean.count e) entries 0.

Section Dashboard.

(** [(clicks / views * 100).toFixed(2)]: a division and a product of
    IEEE doubles, printed with two decimals. The totals do not depend on
    it and are stated for any such function; [Double.percentToFixed2]
    below is the expression itself. *)
Variable percentToFixed2 : Z -> Z -> string.

Definition getDashboardAnalytics (flt : Faults) (clk : Clock) (days : Z)
    (jobs : gmap nat StoredJob) (coll : list Analytics)
    : Res Dashboard :=
  let endDate := endOfDay (clk 0%nat) in
  let startDate := startOfDay (subDays (clk 1%nat) days) in
  analytics ← getAnalyticsForDateRange flt jobs startDate endDate coll;
  let totalVisits :=
    fold_left (fun sum day => sum + Lean.websiteVisits day) analytics 0 in
  let totalUniqueVisitors :=
    fold_left (fun sum day =>
                 sum + Z.of_nat (length (Lean.uniqueVisitors day)))
              analytics 0 in
  let totalJobViews :=
    fold_left (fun sum day => sum + sumCounts (Lean.jobViews day))
              analytics 0 in
  let totalJobClicks :=
    fold_left (fun sum day => sum + sumCounts (Lean.jobClicks day))
              analytics 0 in
  Ok {| totalVisits := totalVisits;
        totalUniqueVisitors := totalUniqueVisitors;
        totalJobViews := totalJobViews;
        totalJobClicks := totalJobClicks;
        dailyAnalytics := analytics;
        conversionRate :=
          if 0 <? totalJobViews
          then JsString (percentToFixed2 totalJobClicks totalJobViews)
          else JsNumber 0 |}.

End Dashboard.

(** *** The conversion rate: doubles and [toFixed(2)]

    [totalJobClicks / totalJobViews * 100] is evaluated on doubles: the
    two counts are doubles holding integers, the quotient is rounded to
    the nearest double (ties to even), and so is the product with 100.
    [toFixed(2)] then prints the result with two decimals. *)

Module Double.

Definition prec : Z := 53.
Definition emax : Z := 1024.

(** The double holding an integer (the integer itself below 2^53). *)
Definition ofZ (z : Z) : SpecFloat.spec_float :=
  SpecFloat.binary_normalize prec emax z 0 false.

(** [x / y] and [x * y] on doubles. *)
Definition div : SpecFloat.spec_float -> SpecFloat.spec_float
    -> SpecFloat.spec_float :=
  SpecFloat.SFdiv prec emax.

Definition mul : SpecFloat.spec_float -> SpecFloat.spec_float
    -> SpecFloat.spec_float :=
  SpecFloat.SFmul prec emax.

Section ToFixed.

(** [Number::toString], which [toFixed] hands over to from 10^21 on and
    which prints in exponent notation there. *)
Variable numberToString : SpecFloat.spec_float -> string.

(** [x >= 10^21] for [x = m * 2^e] *)
Definition atLeast1e21 (m : positive) (e : Z) : bool :=
  if 0 <=? e then 10 ^ 21 <=? Z.pos m * 2 ^ e
  else 10 ^ 21 * 2 ^ (- e) <=? Z.pos m.

(** 'Let n be an integer for which n / 10^2 - x is as close to zero as
    possible. If there are two such n, pick the larger n', for
    [x = m * 2^e]: the floor of [100 * x + 1/2]. *)
Definition hundredths (m : positive) (e : Z) : Z :=
  if 0 <=? e then 100 * Z.pos m * 2 ^ e
  else (200 * Z.pos m + 2 ^ (- e)) / 2 ^ (1 - e).

Fixpoint zeros (k : nat) : string :=
  match k with
  | O => ""
  | S k => String (Ascii.ascii_of_nat 48) (zeros k)
  end.

(** The decimal digits of [n], padded with zeros on the left to three
    digits, with a point before the last two. *)
Definition point2 (n : Z) : string :=
  let m := pretty (Z.to_N n) in
  let m := if (String.length m <=? 2)%nat
           then (zeros (3 - String.length m) ++ m)%string else m in
  let k := String.length m in
  (String.substring 0 (k - 2) m ++ "." ++ String.substring (k - 2) 2 m)%string.

(** [x.toFixed(2)] *)
Definition toFixed2 (x : SpecFloat.spec_float) : string :=
  match x with
  | SpecFloat.S754_nan => "NaN"
  | SpecFloat.S754_infinity false => "Infinity"
  | SpecFloat.S754_infinity true => "-Infinity"
  | SpecFloat.S754_zero _ => point2 0
  | SpecFloat.S754_finite s m e =>
      ((if s then "-" else "")
       ++ (if atLeast1e21 m e
           then numberToString (SpecFloat.S754_finite false m e)
           else point2 (hundredths m e)))%string
  end.

(** [(clicks / views * 100).toFixed(2)] *)
Definition percentToFixed2 (clicks views : Z) : string :=
  toFixed2 (mul (div (ofZ clicks) (ofZ views)) (ofZ 100)).

End ToFixed.

(** Where a quotient [A / B] lies between the integers [m] and [m + 1]:
    what a location of [SpecFloat] says. *)
Definition located (m : Z) (l : SpecFloat.location) (A B : Z) : Prop :=
  match l with
  | SpecFloat.loc_Exact => A = m * B
  | SpecFloat.loc_Inexact Lt => 2 * m * B < 2 * A < (2 * m + 1) * B
  | SpecFloat.loc_Inexact Eq => 2 * A = (2 * m + 1) * B
  | SpecFloat.loc_Inexact Gt => (2 * m + 1) * B < 2 * A < (2 * m + 2) * B
  end.

(** The same for a mantissa with its round and sticky bits. *)
Definition recorded (r : SpecFloat.shr_record) (A B : Z) : Prop :=
  0 <= SpecFloat.shr_m r
  /\ located (SpecFloat.shr_m r) (SpecFloat.loc_of_shr_record r) A B.

End Double.

(** [100 * clicks / views] rounded to 2 decimal places, as the
    specification words the conversion rate: the number of hundredths,
    a half going up. *)
Definition roundedPercent (clicks views : Z) : Z :=
  (20000 * clicks + views) / (2 * views).

(** [100 * clicks / views] lies halfway between two values of 2
    decimals. *)
Definition tie (clicks views : Z) : Prop :=
  (20000 * clicks + views) mod (2 * views) = 0.

(** *** Observations on the collection and on sequences of events *)

(** The bucket [findOne({ date: d })] returns, or null. *)
Definition bucketOn (d : Date) (coll : list Analytics) : option Analytics :=
  snd <$> list_find (fun a => date a = d) coll.

(** The count recorded for a job in a list of per-job entries. *)
Definition countFor (id : nat) (entries : list JobCount) : Z :=
  fold_right (fun e acc => (if decide (jobId e = id) then count e else 0) + acc)
             0 entries.

(** The day an event is recorded on, and the faults it meets. *)
Definition eventDay (ev : Event) : Date :=
  match ev with
  | RecordVisit _ clk _ | RecordJobView _ clk _ | RecordJobClick _ clk _ =>
      startOfDay (clk 0%nat)
  end.

Definition eventFaults (ev : Event) : Faults :=
  match ev with
  | RecordVisit flt _ _ | RecordJobView flt _ _ | RecordJobClick flt _ _ => flt
  end.

(** What [recordWebsiteVisit] makes of the request: [ip] and
    [userAgent]. *)
Definition clientIp (req : Request) : option string :=
  orElse (reqIp req) (remoteAddress req).

Definition clientAgent (req : Request) : string :=
  default ""%string (orElse (userAgentHeader req) (Some ""%string)).

(** What identifies a visitor within a day. *)
Definition visitorKey (v : Visitor) : option string * string :=
  (ip v, userAgent v).

Definition sumOver {A : Type} (g : A -> Z) (l : list A) : Z :=
  fold_right (fun a acc => g a + acc) 0 l.

Definition tidyVisitors (a : Analytics) : Prop :=
  NoDup (visitorKey <$> uniqueVisitors a)
  /\ Z.of_nat (length (uniqueVisitors a)) <= websiteVisits a.

Definition tidyEntries (entries : list JobCount) : Prop :=
  NoDup (jobId <$> entries) /\ Forall (fun e => 1 <= count e) entries.

(** Number of visit, view and click events in a sequence. *)
Definition recordedVisits (evs : list Event) : Z :=
  sumOver (fun ev => match ev with RecordVisit _ _ _ => 1 | _ => 0 end) evs.

Definition recordedViews (evs : list Event) : Z :=
  sumOver (fun ev => match ev with RecordJobView _ _ _ => 1 | _ => 0 end) evs.

Definition recordedClicks (evs : list Event) : Z :=
  sumOver (fun ev => match ev with RecordJobClick _ _ _ => 1 | _ => 0 end) evs.

End AnalyticsModel.

(** ** routes/jobRoutes.js: the public handlers *)

Module Routes.

Import JobModel.

Record State : Type := mkState {
  jobs : gmap nat Job;
  analyticsDb : list AnalyticsModel.Analytics
}.

Inductive Body : Type :=
  | JobJson (j : Job)
  | ClickJson (message : string) (link : string)
  | MessageJson (message : string).

Record Response : Type := mkResponse {
  statusCode : nat;
  body : Body
}.

(** The readings of the clock left after the first one. *)
Definition later (clk : Clock) : Clock := fun k => clk (S k).

(** The middleware of the public routes: [next()] runs whether the
    visit was recorded or not. *)
Definition trackAnalytics (flt : AnalyticsModel.Faults) (clk : Clock)
    (req : AnalyticsModel.Request) (next : State -> Response * State)
    (st : State) : Response * State :=
  match AnalyticsModel.recordWebsiteVisit flt clk req (analyticsDb st) with
  | Ok coll => next {| jobs := jobs st; analyticsDb := coll |}
  | Throw _ => next st
  end.

Definition shown (j : Job) : bool :=
  Status_eqb (status j) active && isActive j.

(** The handler of GET /:id, after the middleware. *)
Definition getJobHandler (flt : AnalyticsModel.Faults) (clk : Clock)
    (id : nat) (st : State) : Response * State :=
  match findById id (jobs st) with
  | None => ({| statusCode := 404; body := MessageJson "Job not found" |}, st)
  | Some job =>
      if negb (shown job)
      then ({| statusCode := 404; body := MessageJson "Job not found" |}, st)
      else
        let job' := incrementViews clk job in
        let jobs' := save id job' (jobs st) in
        match AnalyticsModel.recordJobView flt (later clk) id (analyticsDb st) with
        | Ok coll =>
            ({| statusCode := 200; body := JobJson job' |},
             {| jobs := jobs'; analyticsDb := coll |})
        | Throw _ =>
            ({| statusCode := 500; body := MessageJson "Error fetching job" |},
             {| jobs := jobs'; analyticsDb := analyticsDb st |})
        end
  end.

(** GET /:id *)
Definition getJob (flt : AnalyticsModel.Faults) (clkVisit clk : Clock)
    (req : AnalyticsModel.Request) (id : nat) (st : State)
    : Response * State :=
  trackAnalytics flt clkVisit req (getJobHandler flt clk id) st.

(** POST /:id/click *)
Definition postClick (flt : AnalyticsModel.Faults) (clk : Clock)
    (id : nat) (st : State) : Response * State :=
  match findById id (jobs st) with
  | None => ({| statusCode := 404; body := MessageJson "Job not found" |}, st)
  | Some job =>
      if negb (shown job)
      then ({| statusCode := 404; body := MessageJson "Job not found" |}, st)
      else
        let job' := incrementClicks clk job in
        let jobs' := save id job' (jobs st) in
        match AnalyticsModel.recordJobClick flt (later clk) id (analyticsDb st) with
        | Ok coll =>
            ({| statusCode := 200;
                body := ClickJson "Click recorded" (hiringLink (details job')) |},
             {| jobs := jobs'; analyticsDb := coll |})
        | Throw _ =>
            ({| statusCode := 500; body := MessageJson "Error recording click" |},
             {| jobs := jobs'; analyticsDb := analyticsDb st |})
        end
  end.

End Routes.

(** ** models/Admin.js, middleware/auth.js and the login route *)

Module AdminModel.

Inductive Role : Type := main_admin | admin.

Record Permissions : Type := mkPermissions {
  canCreateJobs : bool;
  canDeleteJobs : bool;
  canViewAnalytics : bool;
  canManageAdmins : bool
}.

Record Admin : Type := mkAdmin {
  username : string;
  email : string;
  password : string;
  role : Role;
  isActive : bool;
  createdBy : option nat;
  lastLogin : option Date;
  loginAttempts : Z;
  lockUntil : option Date;
  permissions : Permissions
}.

(** The virtual [isLocked]: [!!(this.lockUntil && this.lockUntil > Date.now())] *)
Definition isLocked (clk : Clock) (a : Admin) : bool :=
  match lockUntil a with
  | Some t => clk 0%nat <? t
  | None => false
  end.

Definition lockTime : Z := 30 * 60 * 1000.

(** What a call of [comparePassword] comes to: it throws 'Account is
    temporarily locked', or resolves to true or false, the document
    being as the call saved it. *)
Inductive Compared : Type :=
  | Locked
  | Matched (a : Admin)
  | Mismatched (a : Admin).

Section Password.

(** [bcrypt.compare(candidate, hash)] *)
Variable bcryptCompare : string -> string -> bool.

Definition comparePassword (clk : Clock) (candidatePassword : string)
    (a : Admin) : Compared :=
  if isLocked clk a then Locked
  else if bcryptCompare candidatePassword (password a) then
    if 0 <? loginAttempts a then
      Matched {| username := username a; email := email a;
                 password := password a; role := role a;
                 isActive := isActive a; createdBy := createdBy a;
                 lastLogin := lastLogin a;
                 loginAttempts := 0;
                 lockUntil := None;
                 permissions := permissions a |}
    else Matched a
  else
    let attempts := loginAttempts a + 1 in
    Mismatched {| username := username a; email := email a;
                  password := password a; role := role a;
                  isActive := isActive a; createdBy := createdBy a;
                  lastLogin := lastLogin a;
                  loginAttempts := attempts;
                  lockUntil := if 5 <=? attempts
                               then Some (clk 1%nat + lockTime)
                               else lockUntil a;
                  permissions := permissions a |}.

(** The document after a call, whatever it came to. *)
Definition afterCompare (a : Admin) (r : Compared) : Admin :=
  match r with
  | Locked => a
  | Matched a' | Mismatched a' => a'
  end.

(** A sequence of password checks on one account, each with its clock
    and its candidate. *)
Definition runChecks (tries : list (Clock * string)) (a : Admin) : Admin :=
  fold_left (fun a t => afterCompare a (comparePassword t.1 t.2 a)) tries a.

End Password.

(** Failure count and lock agree. *)
Definition lockConsistent (a : Admin) : Prop :=
  0 <= loginAttempts a /\ (lockUntil a <> None <-> 5 <= loginAttempts a).

(** [updateLastLogin] *)
Definition updateLastLogin (clk : Clock) (a : Admin) : Admin :=
  {| username := username a; email := email a;
     password := password a; role := role a;
     isActive := isActive a; createdBy := createdBy a;
     lastLogin := Some (clk 0%nat);
     loginAttempts := loginAttempts a;
     lockUntil := lockUntil a;
     permissions := permissions a |}.

(** *** middleware/auth.js *)

(** The keys the routes pass to [requirePermission]. *)
Inductive PermissionKey : Type :=
  | CanCreateJobs
  | CanDeleteJobs
  | CanViewAnalytics
  | CanManageAdmins.

(** [permissions[permission]] *)
Definition granted (p : Permissions) (k : PermissionKey) : bool :=
  match k with
  | CanCreateJobs => canCreateJobs p
  | CanDeleteJobs => canDeleteJobs p
  | CanViewAnalytics => canViewAnalytics p
  | CanManageAdmins => canManageAdmins p
  end.

(** What a middleware does: it answers itself, or calls [next()]. *)
Inductive Gate (A : Type) : Type :=
  | Answer (code : nat) (message : string)
  | Next (a : A).

Arguments Answer {A} code message.
Arguments Next {A} a.

Definition requireMainAdmin (a : Admin) : Gate Admin :=
  match role a with
  | main_admin => Next a
  | admin =>
      Answer 403 "Access denied. Main admin privileges required."
  end.

Definition permissionName (k : PermissionKey) : string :=
  match k with
  | CanCreateJobs => "canCreateJobs"
  | CanDeleteJobs => "canDeleteJobs"
  | CanViewAnalytics => "canViewAnalytics"
  | CanManageAdmins => "canManageAdmins"
  end.

Definition requirePermission (k : PermissionKey) (a : Admin) : Gate Admin :=
  match role a with
  | main_admin => Next a
  | admin =>
      if negb (granted (permissions a) k)
      then Answer 403 ("Access denied. " ++ permissionName k
                       ++ " permission required.")
      else Next a
  end.

(** [s.replace(pat, rep)] with a string pattern: the first occurrence. *)
Fixpoint replaceFirst (pat rep s : string) : string :=
  if String.prefix pat s
  then rep ++ String.substring (String.length pat)
                               (String.length s - String.length pat) s
  else match s with
       | EmptyString => EmptyString
       | String c rest => String c (replaceFirst pat rep rest)
       end.

(** What [jwt.verify(token, JWT_SECRET)] comes to. *)
Inductive Verified : Type :=
  | Decoded (adminId : nat)
  | JsonWebTokenError
  | TokenExpiredError
  | OtherError.

Section Authenticate.

Variable jwtVerify : string -> Verified.

(** [req.header('Authorization')?.replace('Bearer ', '')] *)
Definition bearerToken (header : option string) : option string :=
  replaceFirst "Bearer " "" <$> header.

Definition authenticateAdmin (clk : Clock) (header : option string)
    (admins : gmap nat Admin) : Gate (nat * Admin) :=
  match bearerToken header with
  | None => Answer 401 "Access denied. No token provided."
  | Some token =>
      if String.eqb token ""
      then Answer 401 "Access denied. No token provided."
      else
        match jwtVerify token with
        | Decoded adminId =>
            match admins !! adminId with
            | None => Answer 401 "Invalid token. Admin not found."
            | Some a =>
                if negb (isActive a)
                then Answer 401 "Account is deactivated."
                else if isLocked clk a
                then Answer 401 "Account is temporarily locked."
                else Next (adminId, a)
            end
        | JsonWebTokenError => Answer 401 "Invalid token."
        | TokenExpiredError => Answer 401 "Token expired."
        | OtherError => Answer 500 "Server error during authentication."
        end
  end.

(** PUT /api/jobs/:id/status with its middlewares:
    [authenticateAdmin, requirePermission('canCreateJobs'), handler]. *)
Definition putStatusRoute (clkAuth clk : Clock) (header : option string)
    (id : nat) (newStatus : string) (admins : gmap nat Admin)
    (db : gmap nat JobModel.Job)
    : Gate JobModel.Reply * gmap nat JobModel.Job :=
  match authenticateAdmin clkAuth header admins with
  | Answer code message => (Answer code message, db)
  | Next (_, a) =>
      match requirePermission CanCreateJobs a with
      | Answer code message => (Answer code message, db)
      | Next _ =>
          let '(reply, db') := JobModel.putStatus clk id newStatus db in
          (Next reply, db')
      end
  end.

End Authenticate.

(** *** routes/adminRoutes.js: POST /login *)

Inductive LoginReply : Type :=
  | LoginRefused (code : nat) (message : string)
  | LoggedIn (token : string) (id : nat) (a : Admin).

(** [Admin.findOne({ email })]: a document with that email (the schema
    makes emails unique), with its id. *)
Definition findOneByEmail (e : string) (admins : gmap nat Admin)
    : option (nat * Admin) :=
  snd <$> list_find (fun kv => email kv.2 = e) (map_to_list admins).

Section Login.

Variable bcryptCompare : string -> string -> bool.

(** [s.toLowerCase()] *)
Variable toLowerCase : string -> string.

(** [generateToken(adminId)] of middleware/auth.js: [jwt.sign] *)
Variable generateToken : nat -> string.

(** A body field that is missing or the empty string is falsy. *)
Definition present (field : option string) : option string :=
  match field with
  | Some s => if String.eqb s "" then None else Some s
  | None => None
  end.

Definition login (clk : Clock) (emailField passwordField : option string)
    (admins : gmap nat Admin) : LoginReply * gmap nat Admin :=
  match present emailField, present passwordField with
  | Some email0, Some password0 =>
      match findOneByEmail (toLowerCase email0) admins with
      | None => (LoginRefused 401 "Invalid credentials", admins)
      | Some (id, a) =>
          if negb (isActive a)
          then (LoginRefused 401 "Account is deactivated", admins)
          else
            match comparePassword bcryptCompare clk password0 a with
            | Locked =>
                (LoginRefused 423
                   "Account is temporarily locked due to multiple failed login attempts",
                 admins)
            | Mismatched a' =>
                (LoginRefused 401 "Invalid credentials", <[id := a']> admins)
            | Matched a' =>
                let a'' := updateLastLogin (fun k => clk (S k)) a' in
                (LoggedIn (generateToken id) id a'', <[id := a'']> admins)
            end
      end
  | _, _ => (LoginRefused 400 "Email and password are required", admins)
  end.

End Login.

End AdminModel.

(** ** Sample data for the concrete cases *)

Module Sample.

Import JobModel.

Definition acme : Details :=
  {| jobId := "job-0001";
     companyName := "Acme";
     role := "Backend Engineer";
     location := "Pune";
     experience := "1-2";
     description := "Builds the listing service";
     requiredDegree := "BTech";
     employmentType := "Full-Time";
     hiringLink := "https://acme.example/apply";
     estPackage := "";
     keywords := ["node"; "mongodb"]%string;
     createdBy := 1%nat |}.

(** A job posted at time 0. *)
Definition posted : Job := newJob (fixed 0) acme.

Definition oneJob : gmap nat Job := {[ 1%nat := posted ]}.

(** Requests of two visitors. *)
Definition phone : AnalyticsModel.Request :=
  {| AnalyticsModel.reqIp := Some "10.0.0.1"%string;
     AnalyticsModel.remoteAddress := None;
     AnalyticsModel.userAgentHeader :=
       Some "Mozilla/5.0 (Linux; Android 13) Chrome/120.0 Mobile Safari/537.36"%string |}.

Definition laptop : AnalyticsModel.Request :=
  {| AnalyticsModel.reqIp := Some "10.0.0.2"%string;
     AnalyticsModel.remoteAddress := None;
     AnalyticsModel.userAgentHeader :=
       Some "Mozilla/5.0 (X11; Linux x86_64; rv:121.0) Gecko/20100101 Firefox/121.0"%string |}.

(** Noon of day 9 and noon of day 10. *)
Definition day9 : Date := 9 * msPerDay + 12 * 3600000.
Definition day10 : Date := 10 * msPerDay + 12 * 3600000.

(** The analytics collection after two visits on day 9, a view of job 1
    and a view and a click of job 7 on day 9, and one visit on day 10. *)
Definition twoDays : list AnalyticsModel.Analytics :=
  AnalyticsModel.runEvents
    [ AnalyticsModel.RecordVisit AnalyticsModel.healthy (fixed day9) phone;
      AnalyticsModel.RecordVisit AnalyticsModel.healthy (fixed day9) laptop;
      AnalyticsModel.RecordJobView AnalyticsModel.healthy (fixed day9) 1%nat;
      AnalyticsModel.RecordJobView AnalyticsModel.healthy (fixed day9) 7%nat;
      AnalyticsModel.RecordJobClick AnalyticsModel.healthy (fixed day9) 7%nat;
      AnalyticsModel.RecordVisit AnalyticsModel.healthy (fixed day10) phone ]
    [].

(** The job collection as the range query reads it: job 1 as the model
    wrote it; and the same collection with job 7 in it, a document
    written before jobs had a status. *)
Definition storedJobs : gmap nat AnalyticsModel.StoredJob :=
  AnalyticsModel.stored <$> oneJob.

Definition legacyJobs : gmap nat AnalyticsModel.StoredJob :=
  <[7%nat := {| AnalyticsModel.storedDetails := acme;
                AnalyticsModel.storedDatePosted := 0;
                AnalyticsModel.storedStatus := None |}]> storedJobs.

(** The analytics collection after 160 views and 23 clicks of job 1 on
    day 10. *)
Definition popular : list AnalyticsModel.Analytics :=
  AnalyticsModel.runEvents
    (replicate 160
       (AnalyticsModel.RecordJobView AnalyticsModel.healthy (fixed day10) 1%nat)
     ++ replicate 23
          (AnalyticsModel.RecordJobClick AnalyticsModel.healthy (fixed day10)
             1%nat))
    [].

(** A stand-in for [Number::toString]; a percentage of counts stays
    below 10^21 and never reaches it. *)
Definition noExponent (x : SpecFloat.spec_float) : string := "1e+21".

(** The store is reachable for reads and rejects writes. *)
Definition readOnly : AnalyticsModel.Faults :=
  {| AnalyticsModel.findFails := false; AnalyticsModel.saveFails := true |}.

Definition site : Routes.State :=
  {| Routes.jobs := oneJob; Routes.analyticsDb := [] |}.

(** A job that the pass of day 8 moved to dump, and the collection
    holding it. *)
Definition dumped : Job := dumpSet (8 * msPerDay) (8 * msPerDay) posted.

Definition dumpedJobs : gmap nat Job :=
  (ProcessTransitions (8 * msPerDay) oneJob).1.

(** Views, a pass and a click on job 1, and a view of a job that does not
    exist. *)
Definition busyWeek : list Op :=
  [ OpIncrementView (fixed 1000) 1%nat;
    OpPass (fixed (2 * msPerDay));
    OpIncrementClick (fixed (3 * msPerDay)) 1%nat;
    OpIncrementView (fixed (4 * msPerDay)) 1%nat;
    OpIncrementView (fixed (4 * msPerDay)) 2%nat ].

(** The events behind [twoDays]. *)
Definition twoDaysEvents : list AnalyticsModel.Event :=
  [ AnalyticsModel.RecordVisit AnalyticsModel.healthy (fixed day9) phone;
    AnalyticsModel.RecordVisit AnalyticsModel.healthy (fixed day9) laptop;
    AnalyticsModel.RecordJobView AnalyticsModel.healthy (fixed day9) 1%nat;
    AnalyticsModel.RecordJobView AnalyticsModel.healthy (fixed day9) 7%nat;
    AnalyticsModel.RecordJobClick AnalyticsModel.healthy (fixed day9) 7%nat;
    AnalyticsModel.RecordVisit AnalyticsModel.healthy (fixed day10) phone ].

(** A site whose only job is in dump. *)
Definition shelved : Routes.State :=
  {| Routes.jobs := dumpedJobs; Routes.analyticsDb := [] |}.

(** Two admins. Passwords are compared as plain text, emails are taken
    as they come and a token is the admin's number behind a prefix: stand
    ins for bcrypt, toLowerCase and jwt in the concrete cases. *)
Definition plainCompare (candidate hash : string) : bool :=
  String.eqb candidate hash.

Definition asIs (s : string) : string := s.

Definition token (id : nat) : string :=
  match id with
  | 1%nat => "tok-root"
  | 2%nat => "tok-editor"
  | _ => "tok"
  end.

Definition verify (t : string) : AdminModel.Verified :=
  if String.eqb t "tok-root" then AdminModel.Decoded 1
  else if String.eqb t "tok-editor" then AdminModel.Decoded 2
  else AdminModel.JsonWebTokenError.

Definition root : AdminModel.Admin :=
  {| AdminModel.username := "root";
     AdminModel.email := "root@acme.example";
     AdminModel.password := "hunter2";
     AdminModel.role := AdminModel.main_admin;
     AdminModel.isActive := true;
     AdminModel.createdBy := None;
     AdminModel.lastLogin := None;
     AdminModel.loginAttempts := 0;
     AdminModel.lockUntil := None;
     AdminModel.permissions :=
       {| AdminModel.canCreateJobs := true;
          AdminModel.canDeleteJobs := true;
          AdminModel.canViewAnalytics := true;
          AdminModel.canManageAdmins := true |} |}.

Definition editor : AdminModel.Admin :=
  {| AdminModel.username := "editor";
     AdminModel.email := "ed@acme.example";
     AdminModel.password := "secret";
     AdminModel.role := AdminModel.admin;
     AdminModel.isActive := true;
     AdminModel.createdBy := Some 1%nat;
     AdminModel.lastLogin := None;
     AdminModel.loginAttempts := 0;
     AdminModel.lockUntil := None;
     AdminModel.permissions :=
       {| AdminModel.canCreateJobs := true;
          AdminModel.canDeleteJobs := true;
          AdminModel.canViewAnalytics := true;
          AdminModel.canManageAdmins := false |} |}.

Definition staff : gmap nat AdminModel.Admin :=
  {[ 1%nat := root; 2%nat := editor ]}.

(** Wrong passwords, one a second. *)
Definition fourWrong : list (Clock * string) :=
  [ (fixed 1000, "a"); (fixed 2000, "b"); (fixed 3000, "c");
    (fixed 4000, "d") ]%string.

Definition sixWrong : list (Clock * string) :=
  fourWrong ++ [ (fixed 5000, "e"); (fixed 6000, "f") ]%string.

(** The editor after four wrong passwords. *)
Definition shaky : AdminModel.Admin :=
  AdminModel.runChecks plainCompare fourWrong editor.

End Sample.

(** * Properties *)

(** ** The lifecycle engine *)

Module LifecycleFacts.

Import JobModel.

Lemma Status_eqb_eq (a b : Status) : Status_eqb a b = true <-> a = b.
Proof. destruct a, b; simpl; split; congruence. Qed.

(** *** Facts about one pass *)

Lemma updateMany_lookup matches set (db : Jobs) id :
  (updateMany matches set db).1 !! id
  = (fun j => if matches j then set j else j) <$> db !! id.
Proof. unfold updateMany; simpl. apply lookup_fmap. Qed.

Lemma updateMany_no_match matches set (db : Jobs) :
  map_Forall (fun _ j => matches j = false) db ->
  updateMany matches set db = (db, 0%nat).
Proof.
  intros Hno. unfold updateMany. f_equal.
  - apply map_eq. intros id. rewrite lookup_fmap.
    destruct (db !! id) as [j|] eqn:Hj; simpl; [|done].
    by rewrite (Hno id j Hj).
  - apply map_size_empty_iff, map_empty_filter.
    intros id j Hj. simpl. rewrite (Hno id j Hj). discriminate.
Qed.

Lemma processStatusChanges_lookup clk (db : Jobs) id :
  (processStatusChanges clk db).1 !! id = passJob clk <$> db !! id.
Proof.
  unfold processStatusChanges, updateMany, passJob; simpl.
  rewrite !lookup_fmap. by destruct (db !! id).
Qed.

Lemma passJob_settled now j :
  dumpFilter (subDays now 7) (passJob (fixed now) j) = false
  /\ inactiveFilter (subDays now 30) (passJob (fixed now) j) = false.
Proof.
  unfold passJob, fixed.
  destruct (dumpFilter (subDays now 7) j) eqn:Hd.
  - assert (Hb : inactiveFilter (subDays now 30) (dumpSet now now j) = false).
    { unfold inactiveFilter, dumpSet, optLt, subDays, msPerDay; simpl.
      apply Z.ltb_ge. lia. }
    rewrite Hb. split; [reflexivity | exact Hb].
  - destruct (inactiveFilter (subDays now 30) j) eqn:Hi.
    + split; reflexivity.
    + split; assumption.
Qed.


Lemma dumpFilter_true bound j :
  dumpFilter bound j = true <-> status j = active /\ datePosted j < bound.
Proof.
  unfold dumpFilter. rewrite andb_true_iff, Status_eqb_eq, Z.ltb_lt. tauto.
Qed.

Lemma inactiveFilter_true bound j :
  inactiveFilter bound j = true
  <-> status j = dump /\ exists t, movedToDumpAt j = Some t /\ t < bound.
Proof.
  unfold inactiveFilter, optLt. rewrite andb_true_iff, Status_eqb_eq.
  destruct (movedToDumpAt j) as [t|].
  - rewrite Z.ltb_lt. split.
    + intros [Hs Ht]. split; [exact Hs | exists t; auto].
    + intros [Hs (t' & Ht' & Hlt)]. inversion Ht'; subst. auto.
  - split.
    + intros [_ Hf]. discriminate.
    + intros [_ (t' & Ht' & _)]. discriminate.
Qed.

(** *** Automatic transitions *)

(** C1, as the claim states it, fails: a job posted exactly 7 days
    before [now] is at least 7 days old and stays active. *)
Lemma seven_days_old_job_stays_active :
  status Sample.posted = active
  /\ 7 * msPerDay - datePosted Sample.posted >= 7 * msPerDay
  /\ (ProcessTransitions (7 * msPerDay) Sample.oneJob).1 !! 1%nat
     = Some Sample.posted.
Proof.
  split; [reflexivity|]. split; [vm_compute; discriminate | reflexivity].
Qed.

(** C1, amended: for a job with status active, [ProcessTransitions now]
    changes its status to dump, stamping movedToDumpAt and
    lastStatusChange with [now], if and only if [now - datePosted] is
    strictly more than 7 days; a job that is 7 days old or younger is
    left as it was. *)
Theorem pass_dumps_active_job_iff_older_than_7_days
    (now : Date) (db : Jobs) (id : nat) (j : Job) :
  db !! id = Some j ->
  status j = active ->
  exists j',
    (ProcessTransitions now db).1 !! id = Some j'
    /\ (status j' = dump <-> 7 * msPerDay < now - datePosted j)
    /\ (status j' = dump ->
        movedToDumpAt j' = Some now /\ lastStatusChange j' = now)
    /\ (status j' <> dump -> j' = j).
Proof.
  intros Hj Hact. unfold ProcessTransitions.
  rewrite processStatusChanges_lookup, Hj. simpl.
  eexists; split; [reflexivity|].
  unfold passJob, fixed.
  destruct (dumpFilter (subDays now 7) j) eqn:Hd.
  - apply dumpFilter_true in Hd as [_ Hlt].
    assert (Hb : inactiveFilter (subDays now 30) (dumpSet now now j) = false).
    { unfold inactiveFilter, dumpSet, optLt, subDays, msPerDay; simpl.
      apply Z.ltb_ge. lia. }
    rewrite Hb. simpl. unfold subDays in Hlt.
    repeat split; auto; try lia. congruence.
  - assert (Hge : ~ datePosted j < subDays now 7).
    { intros Hlt. rewrite (proj2 (dumpFilter_true _ _)) in Hd; [discriminate|].
      auto. }
    assert (Hb : inactiveFilter (subDays now 30) j = false).
    { unfold inactiveFilter. rewrite Hact. reflexivity. }
    rewrite Hb. unfold subDays in Hge.
    repeat split; try congruence; try lia.
Qed.

Lemma pass_dumps_active_job_witness :
  exists j',
    (ProcessTransitions (8 * msPerDay) Sample.oneJob).1 !! 1%nat = Some j'
    /\ (status j' = dump
        <-> 7 * msPerDay < 8 * msPerDay - datePosted Sample.posted)
    /\ (status j' = dump ->
        movedToDumpAt j' = Some (8 * msPerDay)
        /\ lastStatusChange j' = 8 * msPerDay)
    /\ (status j' <> dump -> j' = Sample.posted).
Proof.
  apply (pass_dumps_active_job_iff_older_than_7_days
           (8 * msPerDay) Sample.oneJob 1%nat Sample.posted);
    reflexivity.
Defined.

(** C4: within one [ProcessTransitions now], a job that was active
    before the pass is not inactive after it: when step (a) moves it to
    dump it stamps movedToDumpAt = [now], and step (b) only takes dump
    jobs whose movedToDumpAt lies at least 30 days before [now]. *)
Theorem pass_never_takes_both_steps
    (now : Date) (db : Jobs) (id : nat) (j : Job) :
  db !! id = Some j ->
  status j = active ->
  (exists j',
     (ProcessTransitions now db).1 !! id = Some j'
     /\ status j' <> inactive
     /\ (status j' = dump -> movedToDumpAt j' = Some now))
  /\ (forall k, inactiveFilter (subDays now 30) k = true ->
        exists t, movedToDumpAt k = Some t /\ 30 * msPerDay <= now - t)
  /\ (forall k, movedToDumpAt (dumpSet now now k) = Some now).
Proof.
  intros Hj Hact. split; [|split].
  - destruct (pass_dumps_active_job_iff_older_than_7_days now db id j Hj Hact)
      as (j' & Hl & _ & Hstamp & Hsame).
    exists j'. split; [exact Hl|]. split.
    + intros Hin. assert (Hnd : status j' <> dump) by congruence.
      rewrite (Hsame Hnd) in Hin. congruence.
    + intros Hd. apply (Hstamp Hd).
  - intros k Hk. apply inactiveFilter_true in Hk as [_ (t & Ht & Hlt)].
    exists t. split; [exact Ht|]. unfold subDays in Hlt. lia.
  - reflexivity.
Qed.

Lemma pass_never_takes_both_steps_witness :
  (exists j',
     (ProcessTransitions (40 * msPerDay) Sample.oneJob).1 !! 1%nat = Some j'
     /\ status j' <> inactive
     /\ (status j' = dump -> movedToDumpAt j' = Some (40 * msPerDay)))
  /\ (forall k, inactiveFilter (subDays (40 * msPerDay) 30) k = true ->
        exists t, movedToDumpAt k = Some t
                  /\ 30 * msPerDay <= 40 * msPerDay - t)
  /\ (forall k, movedToDumpAt (dumpSet (40 * msPerDay) (40 * msPerDay) k)
                = Some (40 * msPerDay)).
Proof.
  apply (pass_never_takes_both_steps
           (40 * msPerDay) Sample.oneJob 1%nat Sample.posted);
    reflexivity.
Defined.

(** C5: a second [ProcessTransitions now] right after a first one with
    the same [now] reports movedToDump = 0 and movedToInactive = 0 and
    leaves every job as the first pass left it. *)
Theorem second_pass_changes_nothing (now : Date) (db : Jobs) :
  ProcessTransitions now (ProcessTransitions now db).1
  = ((ProcessTransitions now db).1,
     {| movedToDump := 0; movedToInactive := 0 |}).
Proof.
  set (db1 := (ProcessTransitions now db).1).
  assert (Hsettled : forall id j, db1 !! id = Some j ->
            dumpFilter (subDays now 7) j = false
            /\ inactiveFilter (subDays now 30) j = false).
  { intros id j. unfold db1, ProcessTransitions.
    rewrite processStatusChanges_lookup.
    destruct (db !! id) as [j0|]; simpl; [|discriminate].
    intros [= <-]. apply passJob_settled. }
  unfold ProcessTransitions at 1. unfold processStatusChanges, fixed.
  rewrite updateMany_no_match by (intros id j Hj; apply (Hsettled id j Hj)).
  rewrite updateMany_no_match by (intros id j Hj; apply (Hsettled id j Hj)).
  reflexivity.
Qed.

(** *** Manual transitions *)

Lemma putStatus_active clk id (db : Jobs) :
  ReactivateJob clk id db
  = match db !! id with
    | None => (JobNotFound, db)
    | Some j => (StatusUpdated (reactivate clk j), <[id := reactivate clk j]> db)
    end.
Proof. unfold ReactivateJob, putStatus, findById, save. simpl. reflexivity. Qed.

Lemma putStatus_dump clk id (db : Jobs) :
  MoveToDump clk id db
  = match db !! id with
    | None => (JobNotFound, db)
    | Some j => (StatusUpdated (moveToDump clk j), <[id := moveToDump clk j]> db)
    end.
Proof. unfold MoveToDump, putStatus, findById, save. simpl. reflexivity. Qed.

Lemma putStatus_inactive clk id (db : Jobs) :
  MoveToInactive clk id db
  = match db !! id with
    | None => (JobNotFound, db)
    | Some j =>
        (StatusUpdated (moveToInactive clk j), <[id := moveToInactive clk j]> db)
    end.
Proof. unfold MoveToInactive, putStatus, findById, save. simpl. reflexivity. Qed.

(** C6: for a job that exists, whatever its status, [ReactivateJob]
    succeeds and stores the job with status active, isActive true,
    movedToDumpAt null and datePosted set to the time read at the
    reactivation; its view and click counters and its descriptive
    fields are those it had. *)
Theorem reactivate_resets_lifecycle_and_keeps_counters
    (clk : Clock) (db : Jobs) (id : nat) (j : Job) :
  db !! id = Some j ->
  exists j',
    ReactivateJob clk id db = (StatusUpdated j', <[id := j']> db)
    /\ status j' = active
    /\ isActive j' = true
    /\ movedToDumpAt j' = None
    /\ datePosted j' = clk 1%nat
    /\ lastStatusChange j' = clk 0%nat
    /\ analytics j' = analytics j
    /\ details j' = details j.
Proof.
  intros Hj. exists (reactivate clk j).
  rewrite putStatus_active, Hj. repeat split.
Qed.

Lemma reactivate_witness :
  exists j',
    ReactivateJob (fixed 5000) 1%nat
      (MoveToInactive (fixed 4000) 1%nat Sample.oneJob).2
    = (StatusUpdated j',
       <[1%nat := j']> (MoveToInactive (fixed 4000) 1%nat Sample.oneJob).2)
    /\ status j' = active
    /\ isActive j' = true
    /\ movedToDumpAt j' = None
    /\ datePosted j' = 5000
    /\ lastStatusChange j' = 5000
    /\ analytics j' = analytics (moveToInactive (fixed 4000) Sample.posted)
    /\ details j' = details (moveToInactive (fixed 4000) Sample.posted).
Proof.
  apply (reactivate_resets_lifecycle_and_keeps_counters
           (fixed 5000)
           (MoveToInactive (fixed 4000) 1%nat Sample.oneJob).2
           1%nat (moveToInactive (fixed 4000) Sample.posted)).
  reflexivity.
Defined.

(** *** Invariants *)

Ltac lifecycle_cases :=
  unfold LifecycleInvariant; simpl; repeat split; congruence.

Lemma newJob_invariant clk d : LifecycleInvariant (newJob clk d).
Proof. lifecycle_cases. Qed.

Lemma passJob_invariant clk j :
  LifecycleInvariant j -> LifecycleInvariant (passJob clk j).
Proof.
  intros Hinv. unfold passJob.
  destruct (dumpFilter _ j);
    match goal with |- context [inactiveFilter ?b ?k] =>
      destruct (inactiveFilter b k) end;
    try exact Hinv; lifecycle_cases.
Qed.

Lemma moveToDump_invariant clk j : LifecycleInvariant (moveToDump clk j).
Proof. lifecycle_cases. Qed.

Lemma moveToInactive_invariant clk j : LifecycleInvariant (moveToInactive clk j).
Proof. lifecycle_cases. Qed.

Lemma reactivate_invariant clk j : LifecycleInvariant (reactivate clk j).
Proof. lifecycle_cases. Qed.

Lemma onJob_invariant (f : Job -> Job) id (db : Jobs) :
  (forall j, LifecycleInvariant j -> LifecycleInvariant (f j)) ->
  map_Forall (fun _ j => LifecycleInvariant j) db ->
  map_Forall (fun _ j => LifecycleInvariant j) (orKeep db (onJob f id db)).
Proof.
  intros Hf Hdb. unfold onJob, findById, save.
  destruct (db !! id) as [j|] eqn:Hj; simpl; [|exact Hdb].
  apply map_Forall_insert_2; [|exact Hdb]. apply Hf, (Hdb id j Hj).
Qed.

Lemma applyOp_invariant (db : Jobs) op :
  map_Forall (fun _ j => LifecycleInvariant j) db ->
  map_Forall (fun _ j => LifecycleInvariant j) (applyOp db op).
Proof.
  intros Hdb.
  destruct op as [clk|clk id|clk id|clk id|clk id|clk id]; cbn [applyOp].
  - intros id j. rewrite processStatusChanges_lookup.
    destruct (db !! id) as [j0|] eqn:Hj0; simpl; [|discriminate].
    intros [= <-]. apply passJob_invariant, (Hdb id j0 Hj0).
  - rewrite putStatus_dump. destruct (db !! id); simpl; [|exact Hdb].
    apply map_Forall_insert_2; [apply moveToDump_invariant | exact Hdb].
  - rewrite putStatus_inactive. destruct (db !! id); simpl; [|exact Hdb].
    apply map_Forall_insert_2; [apply moveToInactive_invariant | exact Hdb].
  - rewrite putStatus_active. destruct (db !! id); simpl; [|exact Hdb].
    apply map_Forall_insert_2; [apply reactivate_invariant | exact Hdb].
  - apply onJob_invariant; [|exact Hdb]. intros j Hj. exact Hj.
  - apply onJob_invariant; [|exact Hdb]. intros j Hj. exact Hj.
Qed.

Lemma runOps_invariant ops (db : Jobs) :
  map_Forall (fun _ j => LifecycleInvariant j) db ->
  map_Forall (fun _ j => LifecycleInvariant j) (runOps ops db).
Proof.
  unfold runOps. revert db.
  induction ops as [|op ops IH]; intros db Hdb; simpl; [exact Hdb|].
  apply IH, applyOp_invariant, Hdb.
Qed.

(** C2, as the claim states it, fails: a manual MoveToInactive on a
    freshly created job gives status inactive with movedToDumpAt still
    null. *)
Lemma manual_inactive_leaves_dump_stamp_null :
  exists j,
    runOps [OpMoveToInactive (fixed 1000) 1%nat] Sample.oneJob !! 1%nat = Some j
    /\ status j = inactive
    /\ movedToDumpAt j = None
    /\ ~ JobInvariant j.
Proof.
  exists (moveToInactive (fixed 1000) Sample.posted).
  split; [reflexivity|]. split; [reflexivity|]. split; [reflexivity|].
  intros [Hstamp _]. apply Hstamp; [right|]; reflexivity.
Qed.

(** C2, amended: after any sequence of core operations (automatic pass,
    manual MoveToDump, MoveToInactive, ReactivateJob, the two
    increments) on a freshly created job, the job satisfies: status
    active implies movedToDumpAt null and isActive true; status dump
    implies movedToDumpAt non-null; status inactive implies isActive
    false. *)
Theorem core_operations_keep_lifecycle_invariant
    (ops : list Op) (clk0 : Clock) (d : Details) (id : nat) :
  map_Forall (fun _ j => LifecycleInvariant j)
             (runOps ops {[ id := newJob clk0 d ]}).
Proof.
  apply runOps_invariant. apply map_Forall_singleton, newJob_invariant.
Qed.

(** *** More on the automatic pass *)

#[local] Instance Status_eq_dec : EqDecision Status.
Proof. solve_decision. Defined.

Lemma size_filter_insert {A} (P : nat * A -> Prop) `{!forall x, Decision (P x)}
    (m : gmap nat A) i x :
  m !! i = None ->
  size (filter P (<[i := x]> m))
  = ((if decide (P (i, x)) then 1 else 0) + size (filter P m))%nat.
Proof.
  intros Hi. rewrite map_filter_insert. destruct (decide (P (i, x))).
  - rewrite map_size_insert_None; [lia|].
    apply map_lookup_filter_None. left. exact Hi.
  - rewrite delete_id by exact Hi. lia.
Qed.





Lemma passJob_of_active now j :
  status j = active ->
  passJob (fixed now) j
  = if datePosted j <? subDays now 7 then dumpSet now now j else j.
Proof.
  intros Hact. unfold passJob, fixed, dumpFilter. rewrite Hact. simpl.
  destruct (datePosted j <? subDays now 7).
  - unfold inactiveFilter, optLt, subDays, msPerDay; simpl.
    rewrite (proj2 (Z.ltb_ge _ _)) by lia. reflexivity.
  - unfold inactiveFilter. rewrite Hact. reflexivity.
Qed.

Lemma passJob_of_dump now j :
  status j = dump ->
  passJob (fixed now) j
  = if optLt (movedToDumpAt j) (subDays now 30) then inactiveSet now j else j.
Proof.
  intros Hd. unfold passJob, fixed, dumpFilter, inactiveFilter.
  rewrite Hd. simpl. rewrite Hd. reflexivity.
Qed.



(** X2: for a job with status dump, [ProcessTransitions now] changes its
    status to inactive (isActive false, lastStatusChange [now],
    movedToDumpAt kept) if and only if movedToDumpAt is set and lies
    strictly more than 30 days before [now]; otherwise the job is left
    as it was. In particular a dump job without movedToDumpAt is never
    taken. *)
Theorem pass_inactivates_dump_job_iff_older_than_30_days
    (now : Date) (db : Jobs) (id : nat) (j : Job) :
  db !! id = Some j ->
  status j = dump ->
  exists j',
    (ProcessTransitions now db).1 !! id = Some j'
    /\ (status j' = inactive
        <-> exists t, movedToDumpAt j = Some t /\ 30 * msPerDay < now - t)
    /\ (status j' = inactive ->
        isActive j' = false /\ lastStatusChange j' = now
        /\ movedToDumpAt j' = movedToDumpAt j)
    /\ (status j' <> inactive -> j' = j).
Proof.
  intros Hj Hdump. unfold ProcessTransitions.
  rewrite processStatusChanges_lookup, Hj; simpl.
  eexists; split; [reflexivity|].
  unfold passJob, fixed.
  assert (Hd : dumpFilter (subDays now 7) j = false).
  { unfold dumpFilter. rewrite Hdump. reflexivity. }
  rewrite Hd.
  destruct (inactiveFilter (subDays now 30) j) eqn:Hi.
  - apply inactiveFilter_true in Hi as [_ (t & Ht & Hlt)].
    unfold subDays in Hlt. simpl.
    split; [|split].
    + split; [|reflexivity]. intros _. exists t. split; [exact Ht | lia].
    + auto.
    + congruence.
  - split; [|split].
    + split.
      * congruence.
      * intros (t & Ht & Hlt).
        rewrite (proj2 (inactiveFilter_true _ _)) in Hi; [discriminate|].
        split; [exact Hdump|]. exists t. split; [exact Ht|].
        unfold subDays. lia.
    + congruence.
    + reflexivity.
Qed.

Lemma pass_inactivates_dump_job_witness :
  exists j',
    (ProcessTransitions (39 * msPerDay) Sample.dumpedJobs).1 !! 1%nat = Some j'
    /\ (status j' = inactive
        <-> exists t, movedToDumpAt Sample.dumped = Some t
                      /\ 30 * msPerDay < 39 * msPerDay - t)
    /\ (status j' = inactive ->
        isActive j' = false /\ lastStatusChange j' = 39 * msPerDay
        /\ movedToDumpAt j' = movedToDumpAt Sample.dumped)
    /\ (status j' <> inactive -> j' = Sample.dumped).
Proof.
  apply (pass_inactivates_dump_job_iff_older_than_30_days
           (39 * msPerDay) Sample.dumpedJobs 1%nat Sample.dumped);
    reflexivity.
Defined.

Lemma passJob_frame clk j :
  details (passJob clk j) = details j
  /\ datePosted (passJob clk j) = datePosted j
  /\ analytics (passJob clk j) = analytics j.
Proof.
  unfold passJob.
  destruct (dumpFilter _ j);
    match goal with |- context [inactiveFilter ?b ?k] =>
      destruct (inactiveFilter b k) end; repeat split.
Qed.

(** X3: whatever the clock reads, a pass neither adds nor removes a job,
    and leaves the descriptive fields, the posting date and the counters
    of every job as they were; a job that is inactive is not touched, and
    no job is moved to active. *)
Theorem pass_keeps_jobs_and_their_content (clk : Clock) (db : Jobs) :
  dom (processStatusChanges clk db).1 = dom db
  /\ forall id j, db !! id = Some j ->
       exists j', (processStatusChanges clk db).1 !! id = Some j'
         /\ details j' = details j
         /\ datePosted j' = datePosted j
         /\ analytics j' = analytics j
         /\ (status j = inactive -> j' = j)
         /\ (status j' = active -> j' = j).
Proof.
  split.
  - apply set_eq. intros id. rewrite !elem_of_dom, processStatusChanges_lookup.
    destruct (db !! id); simpl; split; intros [x Hx]; eauto; discriminate.
  - intros id j Hj. rewrite processStatusChanges_lookup, Hj; simpl.
    eexists; split; [reflexivity|].
    destruct (passJob_frame clk j) as (Hd & Hp & Ha).
    repeat (split; [assumption|]). unfold passJob. split.
    + intros Hin. unfold dumpFilter, inactiveFilter. rewrite Hin. simpl.
      rewrite Hin. reflexivity.
    + destruct (dumpFilter _ j);
        match goal with |- context [inactiveFilter ?b ?k] =>
          destruct (inactiveFilter b k) end; simpl; congruence.
Qed.

Lemma updateMany_counts (matches : Job -> bool) (set : Job -> Job)
    (s1 s2 : Status) (db : Jobs) :
  s1 <> s2 ->
  (forall j, matches j = true -> status j = s1) ->
  (forall j, status (set j) = s2) ->
  countStatus s1 db
    = (countStatus s1 (updateMany matches set db).1
       + (updateMany matches set db).2)%nat
  /\ countStatus s2 (updateMany matches set db).1
     = (countStatus s2 db + (updateMany matches set db).2)%nat
  /\ forall s3, s3 <> s1 -> s3 <> s2 ->
       countStatus s3 (updateMany matches set db).1 = countStatus s3 db.
Proof.
  intros Hne Hmatch Hset. unfold updateMany, countStatus; simpl.
  induction db as [|i x m Hi IH] using map_ind.
  - rewrite fmap_empty, !map_filter_empty, !map_size_empty. auto.
  - destruct IH as (IH1 & IH2 & IH3).
    rewrite fmap_insert.
    assert (Hfi : ((fun j => if matches j then set j else j) <$> m) !! i = None)
      by (rewrite lookup_fmap, Hi; reflexivity).
    rewrite !size_filter_insert by assumption.
    split; [|split].
    + rewrite IH1. simpl.
      destruct (matches x) eqn:Hm.
      * rewrite (Hset x), (Hmatch x Hm).
        repeat case_decide; try lia;
          match goal with H : _ |- _ => apply Status_eqb_eq in H; congruence
          | H : ~ _ |- _ => exfalso; apply H; apply Status_eqb_eq; reflexivity end.
      * repeat case_decide; try lia; congruence.
    + rewrite IH2. simpl.
      destruct (matches x) eqn:Hm.
      * rewrite (Hset x), (Hmatch x Hm).
        repeat case_decide; try lia;
          match goal with H : _ |- _ => apply Status_eqb_eq in H; congruence
          | H : ~ _ |- _ => exfalso; apply H; apply Status_eqb_eq; reflexivity end.
      * repeat case_decide; try lia; congruence.
    + intros s3 H31 H32. rewrite !size_filter_insert by assumption.
      rewrite (IH3 s3 H31 H32). simpl.
      destruct (matches x) eqn:Hm.
      * rewrite (Hset x), (Hmatch x Hm).
        repeat case_decide; try lia;
          match goal with H : Status_eqb _ _ = true |- _ =>
            apply Status_eqb_eq in H; congruence end.
      * reflexivity.
Qed.

Lemma processStatusChanges_steps clk (db : Jobs) :
  processStatusChanges clk db
  = let u1 := updateMany (dumpFilter (subDays (clk 0%nat) 7))
                         (dumpSet (clk 2%nat) (clk 3%nat)) db in
    let u2 := updateMany (inactiveFilter (subDays (clk 1%nat) 30))
                         (inactiveSet (clk 4%nat)) u1.1 in
    (u2.1, {| movedToDump := u1.2; movedToInactive := u2.2 |}).
Proof. reflexivity. Qed.

(** X4: the two counts a pass returns account for the status counts of
    the collection: active jobs decrease by movedToDump, inactive jobs
    increase by movedToInactive, dump jobs change by the difference, and
    the number of jobs is the same. *)
Theorem pass_counts_match_status_changes (clk : Clock) (db : Jobs) :
  let r := processStatusChanges clk db in
  countStatus active db = (countStatus active r.1 + movedToDump r.2)%nat
  /\ (countStatus dump r.1 + movedToInactive r.2
      = countStatus dump db + movedToDump r.2)%nat
  /\ countStatus inactive r.1
     = (countStatus inactive db + movedToInactive r.2)%nat
  /\ size r.1 = size db.
Proof.
  rewrite processStatusChanges_steps.
  set (u1 := updateMany (dumpFilter (subDays (clk 0%nat) 7))
                        (dumpSet (clk 2%nat) (clk 3%nat)) db).
  set (u2 := updateMany (inactiveFilter (subDays (clk 1%nat) 30))
                        (inactiveSet (clk 4%nat)) u1.1).
  destruct (updateMany_counts (dumpFilter (subDays (clk 0%nat) 7))
              (dumpSet (clk 2%nat) (clk 3%nat)) active dump db)
    as (Ha1 & Hd1 & Ho1);
    [discriminate | intros j Hj; apply dumpFilter_true in Hj; tauto
     | reflexivity |].
  destruct (updateMany_counts (inactiveFilter (subDays (clk 1%nat) 30))
              (inactiveSet (clk 4%nat)) dump inactive u1.1)
    as (Hd2 & Hi2 & Ho2);
    [discriminate | intros j Hj; apply inactiveFilter_true in Hj; tauto
     | reflexivity |].
  fold u1 in Ha1, Hd1, Ho1. fold u2 in Hd2, Hi2, Ho2.
  pose proof (Ho1 inactive ltac:(discriminate) ltac:(discriminate)) as Hi1.
  pose proof (Ho2 active ltac:(discriminate) ltac:(discriminate)) as Ha2.
  cbn zeta. cbn [fst snd movedToDump movedToInactive]. fold u2.
  split; [lia|]. split; [lia|]. split; [lia|].
  unfold u2, u1, updateMany; simpl. rewrite !map_size_fmap. reflexivity.
Qed.

(** X5: when a job that is active before a first pass at [now1] is
    inactive after a second pass at [now2], the first pass found it more
    than 7 days old and moved it to dump at [now1], and the second pass
    ran more than 30 days after the first. *)
Theorem automatic_lifecycle_spends_30_days_in_dump
    (now1 now2 : Date) (db : Jobs) (id : nat) (j j2 : Job) :
  db !! id = Some j ->
  status j = active ->
  (ProcessTransitions now2 (ProcessTransitions now1 db).1).1 !! id = Some j2 ->
  status j2 = inactive ->
  7 * msPerDay < now1 - datePosted j
  /\ 30 * msPerDay < now2 - now1
  /\ movedToDumpAt j2 = Some now1.
Proof.
  intros Hj Hact Hj2 Hin. unfold ProcessTransitions in Hj2.
  rewrite !processStatusChanges_lookup, Hj in Hj2. simpl in Hj2.
  injection Hj2 as <-.
  rewrite (passJob_of_active now1 j Hact) in Hin |- *.
  destruct (datePosted j <? subDays now1 7) eqn:Hold.
  - rewrite passJob_of_dump in Hin |- * by reflexivity. simpl in Hin |- *.
    destruct (now1 <? subDays now2 30) eqn:Hlong; simpl in Hin; [|discriminate].
    apply Z.ltb_lt in Hold, Hlong. unfold subDays in Hold, Hlong.
    repeat split; [lia | lia].
  - rewrite (passJob_of_active now2 j Hact) in Hin.
    destruct (datePosted j <? subDays now2 7); simpl in Hin; congruence.
Qed.

Lemma automatic_lifecycle_witness :
  7 * msPerDay < 8 * msPerDay - datePosted Sample.posted
  /\ 30 * msPerDay < 39 * msPerDay - 8 * msPerDay
  /\ movedToDumpAt (inactiveSet (39 * msPerDay) Sample.dumped)
     = Some (8 * msPerDay).
Proof.
  apply (automatic_lifecycle_spends_30_days_in_dump
           (8 * msPerDay) (39 * msPerDay) Sample.oneJob 1%nat Sample.posted
           (inactiveSet (39 * msPerDay) Sample.dumped));
    reflexivity.
Defined.

(** X6: after a reactivation at time [t], a pass at [now] leaves the job
    active, exactly as the reactivation stored it, if and only if
    [now - t] is at most 7 days; otherwise the pass moves it to dump,
    stamped [now]. *)
Theorem reactivation_restarts_the_7_day_clock
    (t now : Date) (db : Jobs) (id : nat) (j : Job) :
  db !! id = Some j ->
  exists j',
    (ProcessTransitions now (ReactivateJob (fixed t) id db).2).1 !! id = Some j'
    /\ (status j' = active <-> now - t <= 7 * msPerDay)
    /\ (status j' = active -> j' = reactivate (fixed t) j)
    /\ (status j' <> active -> status j' = dump /\ movedToDumpAt j' = Some now).
Proof.
  intros Hj. rewrite putStatus_active, Hj. cbn [snd].
  unfold ProcessTransitions.
  rewrite processStatusChanges_lookup, lookup_insert_eq. simpl.
  eexists; split; [reflexivity|].
  rewrite passJob_of_active by reflexivity.
  change (datePosted (reactivate (fixed t) j)) with t.
  destruct (t <? subDays now 7) eqn:Hold.
  - apply Z.ltb_lt in Hold. unfold subDays in Hold. simpl.
    split; [split; [discriminate | intros Hle; exfalso; lia]|].
    split; [discriminate|]. intros _. split; reflexivity.
  - apply Z.ltb_ge in Hold. unfold subDays in Hold. simpl.
    split; [split; [intros _; lia | reflexivity]|].
    split; [reflexivity|]. congruence.
Qed.

Lemma reactivation_restarts_witness :
  exists j',
    (ProcessTransitions (45 * msPerDay)
       (ReactivateJob (fixed (40 * msPerDay)) 1%nat Sample.dumpedJobs).2).1
      !! 1%nat = Some j'
    /\ (status j' = active <-> 45 * msPerDay - 40 * msPerDay <= 7 * msPerDay)
    /\ (status j' = active ->
        j' = reactivate (fixed (40 * msPerDay)) Sample.dumped)
    /\ (status j' <> active ->
        status j' = dump /\ movedToDumpAt j' = Some (45 * msPerDay)).
Proof.
  apply (reactivation_restarts_the_7_day_clock
           (40 * msPerDay) (45 * msPerDay) Sample.dumpedJobs 1%nat Sample.dumped).
  reflexivity.
Defined.

(** *** More on the status route and the counters *)

(** X7: the status route answers a status other than 'active', 'dump'
    and 'inactive' with a bad request, whether or not a job has the id;
    it answers one of these three statuses for an id that no job has
    with not found. In both cases the reply carries no job and the
    collection is returned as it was. *)
Theorem putStatus_rejects_without_writing
    (clk : Clock) (id : nat) (newStatus : string) (db : Jobs) :
  (newStatus <> "active" /\ newStatus <> "dump" /\ newStatus <> "inactive" ->
   putStatus clk id newStatus db = (BadRequest, db))%string
  /\ ((newStatus = "active" \/ newStatus = "dump" \/ newStatus = "inactive")%string ->
      db !! id = None ->
      putStatus clk id newStatus db = (JobNotFound, db)).
Proof.
  split.
  - intros (Ha & Hd & Hi). unfold putStatus, includesString, validStatuses; simpl.
    apply String.eqb_neq in Ha, Hd, Hi. rewrite Ha, Hd, Hi. reflexivity.
  - intros Hvalid Hnone. unfold putStatus, findById. rewrite Hnone.
    destruct Hvalid as [-> | [-> | ->]]; reflexivity.
Qed.

Lemma putStatus_rejects_witness :
  putStatus (fixed 9000) 1%nat "archived" Sample.oneJob
  = (BadRequest, Sample.oneJob)
  /\ putStatus (fixed 9000) 2%nat "dump" Sample.oneJob
     = (JobNotFound, Sample.oneJob).
Proof.
  split.
  - apply (putStatus_rejects_without_writing
             (fixed 9000) 1%nat "archived" Sample.oneJob).
    repeat split; discriminate.
  - apply (putStatus_rejects_without_writing
             (fixed 9000) 2%nat "dump" Sample.oneJob).
    + right; left; reflexivity.
    + reflexivity.
Defined.

(** X8: for a job that exists, the status route stores the job with
    exactly the status requested, whatever status it had; the descriptive
    fields and the counters are kept, every other job is untouched;
    'active' also gives isActive true and movedToDumpAt null, 'dump'
    gives a movedToDumpAt, 'inactive' gives isActive false. *)
Theorem putStatus_writes_the_requested_status
    (clk : Clock) (id : nat) (s : Status) (db : Jobs) (j : Job) :
  db !! id = Some j ->
  exists j',
    putStatus clk id (statusName s) db = (StatusUpdated j', <[id := j']> db)
    /\ status j' = s
    /\ details j' = details j
    /\ analytics j' = analytics j
    /\ (s = active -> isActive j' = true /\ movedToDumpAt j' = None)
    /\ (s = dump -> movedToDumpAt j' = Some (clk 0%nat))
    /\ (s = inactive -> isActive j' = false)
    /\ (forall id', id' <> id ->
          (putStatus clk id (statusName s) db).2 !! id' = db !! id').
Proof.
  intros Hj. unfold putStatus, findById, save. rewrite Hj.
  destruct s; simpl; eexists; (split; [reflexivity|]); simpl;
    repeat (split; [reflexivity|]);
    (split; [try discriminate; auto|]);
    (split; [try discriminate; auto|]);
    (split; [try discriminate; auto|]);
    intros id' Hne; apply lookup_insert_ne; congruence.
Qed.

Lemma putStatus_writes_witness :
  exists j',
    putStatus (fixed 9000) 1%nat (statusName inactive) Sample.oneJob
    = (StatusUpdated j', <[1%nat := j']> Sample.oneJob)
    /\ status j' = inactive
    /\ details j' = details Sample.posted
    /\ analytics j' = analytics Sample.posted
    /\ (inactive = active -> isActive j' = true /\ movedToDumpAt j' = None)
    /\ (inactive = dump -> movedToDumpAt j' = Some (fixed 9000 0%nat))
    /\ (inactive = inactive -> isActive j' = false)
    /\ (forall id', id' <> 1%nat ->
          (putStatus (fixed 9000) 1%nat (statusName inactive) Sample.oneJob).2
            !! id' = Sample.oneJob !! id').
Proof.
  apply (putStatus_writes_the_requested_status
           (fixed 9000) 1%nat inactive Sample.oneJob Sample.posted).
  reflexivity.
Defined.

Lemma applyOp_counters (db : Jobs) op id j :
  db !! id = Some j ->
  exists j', applyOp db op !! id = Some j'
    /\ details j' = details j
    /\ views (analytics j')
       = views (analytics j) + Z.of_nat (countViewOps id [op])
    /\ clicks (analytics j')
       = clicks (analytics j) + Z.of_nat (countClickOps id [op]).
Proof.
  intros Hj.
  destruct op as [clk|clk i|clk i|clk i|clk i|clk i]; cbn [applyOp].
  - rewrite processStatusChanges_lookup, Hj; simpl.
    destruct (passJob_frame clk j) as (Hd & _ & Ha).
    eexists; split; [reflexivity|]. rewrite Ha. repeat split; [exact Hd|lia|lia].
  - rewrite putStatus_dump. destruct (decide (i = id)) as [->|Hne].
    + rewrite Hj; simpl. rewrite lookup_insert_eq.
      eexists; split; [reflexivity|]. simpl. repeat split; lia.
    + destruct (db !! i); simpl; [rewrite lookup_insert_ne by exact Hne|];
        rewrite Hj; eexists; (split; [reflexivity|]); repeat split; lia.
  - rewrite putStatus_inactive. destruct (decide (i = id)) as [->|Hne].
    + rewrite Hj; simpl. rewrite lookup_insert_eq.
      eexists; split; [reflexivity|]. simpl. repeat split; lia.
    + destruct (db !! i); simpl; [rewrite lookup_insert_ne by exact Hne|];
        rewrite Hj; eexists; (split; [reflexivity|]); repeat split; lia.
  - rewrite putStatus_active. destruct (decide (i = id)) as [->|Hne].
    + rewrite Hj; simpl. rewrite lookup_insert_eq.
      eexists; split; [reflexivity|]. simpl. repeat split; lia.
    + destruct (db !! i); simpl; [rewrite lookup_insert_ne by exact Hne|];
        rewrite Hj; eexists; (split; [reflexivity|]); repeat split; lia.
  - unfold IncrementView, onJob, findById, save. simpl.
    destruct (decide (i = id)) as [->|Hne].
    + rewrite Hj; simpl. rewrite lookup_insert_eq.
      eexists; split; [reflexivity|]. simpl. repeat split; lia.
    + destruct (db !! i); simpl; [rewrite lookup_insert_ne by exact Hne|];
        rewrite Hj; eexists; (split; [reflexivity|]); repeat split; lia.
  - unfold IncrementClick, onJob, findById, save. simpl.
    destruct (decide (i = id)) as [->|Hne].
    + rewrite Hj; simpl. rewrite lookup_insert_eq.
      eexists; split; [reflexivity|]. simpl. repeat split; lia.
    + destruct (db !! i); simpl; [rewrite lookup_insert_ne by exact Hne|];
        rewrite Hj; eexists; (split; [reflexivity|]); repeat split; lia.
Qed.

Lemma countViewOps_cons id op ops :
  countViewOps id (op :: ops)
  = (countViewOps id [op] + countViewOps id ops)%nat.
Proof. destruct op; simpl; lia. Qed.

Lemma countClickOps_cons id op ops :
  countClickOps id (op :: ops)
  = (countClickOps id [op] + countClickOps id ops)%nat.
Proof. destruct op; simpl; lia. Qed.

(** X9: after any sequence of core operations, the views and the clicks
    of a job are those it had plus the number of view increments and of
    click increments the sequence applies to it: passes and manual
    transitions never touch the counters, nor the descriptive fields. *)
Theorem counters_count_exactly_the_increments
    (ops : list Op) (db : Jobs) (id : nat) (j : Job) :
  db !! id = Some j ->
  exists j',
    runOps ops db !! id = Some j'
    /\ details j' = details j
    /\ views (analytics j')
       = views (analytics j) + Z.of_nat (countViewOps id ops)
    /\ clicks (analytics j')
       = clicks (analytics j) + Z.of_nat (countClickOps id ops).
Proof.
  unfold runOps. revert db j.
  induction ops as [|op ops IH]; intros db j Hj.
  - exists j. simpl. repeat split; [exact Hj|lia|lia].
  - destruct (applyOp_counters db op id j Hj) as (j1 & Hj1 & Hd1 & Hv1 & Hc1).
    destruct (IH _ _ Hj1) as (j' & Hj' & Hd & Hv & Hc).
    exists j'. cbn [fold_left]. split; [exact Hj'|].
    rewrite countViewOps_cons, countClickOps_cons.
    split; [congruence|]. split; lia.
Qed.

Lemma counters_count_witness :
  exists j',
    runOps Sample.busyWeek Sample.oneJob !! 1%nat = Some j'
    /\ details j' = details Sample.posted
    /\ views (analytics j')
       = views (analytics Sample.posted)
         + Z.of_nat (countViewOps 1%nat Sample.busyWeek)
    /\ clicks (analytics j')
       = clicks (analytics Sample.posted)
         + Z.of_nat (countClickOps 1%nat Sample.busyWeek).
Proof.
  apply (counters_count_exactly_the_increments
           Sample.busyWeek Sample.oneJob 1%nat Sample.posted).
  reflexivity.
Defined.

(** *** The migration *)

(** X10: the fields the migration script writes satisfy the invariants of
    the data model (movedToDumpAt set iff status is dump or inactive,
    isActive false iff status is inactive); the job is written active
    when it is less than 8 whole days old, inactive when it is at least
    38 whole days old and dump in between, and movedToDumpAt, when set,
    is datePosted plus 7 days. *)
Theorem migration_establishes_job_invariants (clk : Clock) (j : Job) :
  JobInvariant (migrateJob clk j)
  /\ (status (migrateJob clk j) = active
      <-> clk 0%nat - datePosted j < 8 * msPerDay)
  /\ (status (migrateJob clk j) = inactive
      <-> 38 * msPerDay <= clk 0%nat - datePosted j)
  /\ (status (migrateJob clk j) <> active ->
      movedToDumpAt (migrateJob clk j) = Some (datePosted j + 7 * msPerDay)).
Proof.
  unfold migrateJob, JobInvariant, addDays.
  change (1000 * 60 * 60 * 24) with msPerDay.
  set (age := clk 0%nat - datePosted j).
  assert (Hpos : 0 < msPerDay) by reflexivity.
  pose proof (Z.div_mod age msPerDay ltac:(lia)) as Hdm.
  pose proof (Z.mod_pos_bound age msPerDay Hpos) as Hmod.
  destruct (37 <? age / msPerDay) eqn:H37;
    [apply Z.ltb_lt in H37 | apply Z.ltb_ge in H37;
       destruct (7 <? age / msPerDay) eqn:H7;
       [apply Z.ltb_lt in H7 | apply Z.ltb_ge in H7]];
    simpl; repeat split; intros; try congruence; try discriminate;
    try (left; reflexivity); try (right; reflexivity); try nia;
    try (exfalso; nia);
    try match goal with H : _ \/ _ |- _ => destruct H; discriminate end.
Qed.

End LifecycleFacts.

(** ** The analytics aggregator *)

Module AnalyticsFacts.

Import AnalyticsModel.

(** *** Counter balance *)

Lemma newAnalytics_balanced today : balanced (newAnalytics today).
Proof. split; reflexivity. Qed.

Lemma visit_balanced clk ip0 ua a : balanced a -> balanced (visit clk ip0 ua a).
Proof.
  intros [Hdev Hbrw]. unfold balanced, visit, bumpDevice, bumpBrowser; simpl.
  split.
  - destruct (includes ua "Mobile"); [|destruct (includes ua "Tablet")];
      simpl; lia.
  - destruct (includes ua "Chrome");
      [|destruct (includes ua "Firefox");
        [|destruct (includes ua "Safari");
          [|destruct (includes ua "Edge")]]];
      simpl; lia.
Qed.

Lemma view_balanced id a : balanced a -> balanced (view id a).
Proof. intros H. exact H. Qed.

Lemma click_balanced id a : balanced a -> balanced (click id a).
Proof. intros H. exact H. Qed.

(** The shape shared by the three recording calls: read today's
    document or make a new one, change it, save it. *)
Lemma record_Forall (P : Analytics -> Prop) flt today
    (f : Analytics -> Analytics) (coll : list Analytics) :
  Forall P coll ->
  P (newAnalytics today) ->
  (forall a, P a -> P (f a)) ->
  Forall P
    (orKeep coll
       (found ← findOne flt today coll;
        let '(slot, analytics) := orNew today found in
        save flt slot (f analytics) coll)).
Proof.
  intros Hcoll Hnew Hf. unfold findOne, save.
  destruct (findFails flt); simpl; [exact Hcoll|].
  destruct (list_find (fun a => date a = today) coll) as [[i a]|] eqn:Hfind;
    simpl; destruct (saveFails flt); simpl; try exact Hcoll.
  - apply list_find_Some in Hfind as (Hi & _ & _).
    apply Forall_insert; [exact Hcoll|].
    apply Hf. rewrite Forall_lookup in Hcoll. exact (Hcoll i a Hi).
  - apply Forall_app. split; [exact Hcoll|].
    apply Forall_singleton, Hf, Hnew.
Qed.

Lemma applyEvent_balanced coll ev :
  Forall balanced coll -> Forall balanced (applyEvent coll ev).
Proof.
  intros Hcoll. destruct ev as [flt clk req|flt clk id|flt clk id];
    cbn [applyEvent].
  - unfold recordWebsiteVisit.
    apply record_Forall;
      auto using newAnalytics_balanced, visit_balanced.
  - unfold recordJobView.
    apply record_Forall;
      auto using newAnalytics_balanced, view_balanced.
  - unfold recordJobClick.
    apply record_Forall;
      auto using newAnalytics_balanced, click_balanced.
Qed.

Lemma runEvents_balanced (evs : list Event) (coll : list Analytics) :
  Forall balanced coll -> Forall balanced (runEvents evs coll).
Proof.
  unfold runEvents. revert coll.
  induction evs as [|ev evs IH]; intros coll Hcoll; simpl; [exact Hcoll|].
  apply IH, applyEvent_balanced, Hcoll.
Qed.

Lemma bumpDevice_one ua d : oneDeviceMore d (bumpDevice ua d).
Proof.
  unfold oneDeviceMore, bumpDevice.
  destruct (includes ua "Mobile"); [|destruct (includes ua "Tablet")]; simpl;
    auto 10.
Qed.

Lemma bumpBrowser_one ua b : oneBrowserMore b (bumpBrowser ua b).
Proof.
  unfold oneBrowserMore, bumpBrowser.
  destruct (includes ua "Chrome");
    [|destruct (includes ua "Firefox");
      [|destruct (includes ua "Safari");
        [|destruct (includes ua "Edge")]]];
    simpl; auto 20.
Qed.

(** *** Range query *)

Lemma populateEntry_resolved jobs e : resolved jobs e (populateEntry jobs e).
Proof.
  unfold resolved, populateEntry, populateRef, statusNotNull; simpl.
  split; [reflexivity|]. split; [|split].
  - intros Hgone. rewrite Hgone. reflexivity.
  - intros j Hj Hnull. rewrite Hj, Hnull. reflexivity.
  - intros j st Hj Hst. rewrite Hj, Hst. eexists. repeat split.
Qed.

Lemma populateDay_reported jobs a : reported jobs a (populateDay jobs a).
Proof.
  unfold reported, populateDay; simpl. repeat split.
  - apply Forall2_fmap_r, Forall_Forall2_diag, Forall_forall.
    intros e _. apply populateEntry_resolved.
  - apply Forall2_fmap_r, Forall_Forall2_diag, Forall_forall.
    intros e _. apply populateEntry_resolved.
Qed.

(** C8, as the claim states it, fails: job 7 is viewed and clicked on
    day 9 and is not in the job collection; the range query still
    returns its view entry and its click entry, each with its count and
    a null job. *)
Lemma entries_of_missing_job_are_returned :
  Sample.storedJobs !! 7%nat = None
  /\ exists d,
       getAnalyticsForDateRange healthy Sample.storedJobs
         (startOfDay Sample.day9) (endOfDay Sample.day9) Sample.twoDays
       = Ok [d]
       /\ Lean.jobViews d =
            [ {| Lean.jobId :=
                   Some {| _id := 1%nat; companyName := "Acme";
                           role := "Backend Engineer"; location := "Pune";
                           datePosted := 0;
                           status := Some JobModel.active |};
                 Lean.count := 1 |};
              {| Lean.jobId := None; Lean.count := 1 |} ]
       /\ Lean.jobClicks d = [ {| Lean.jobId := None; Lean.count := 1 |} ].
Proof.
  split; [reflexivity|]. eexists. split; [vm_compute; reflexivity|].
  split; reflexivity.
Qed.

(** The same query when job 7 is in the job collection, stored without
    a status: its entries come back with a null job all the same. *)
Lemma entries_of_job_without_status_have_null_job :
  (exists j, Sample.legacyJobs !! 7%nat = Some j /\ storedStatus j = None)
  /\ exists d,
       getAnalyticsForDateRange healthy Sample.legacyJobs
         (startOfDay Sample.day9) (endOfDay Sample.day9) Sample.twoDays
       = Ok [d]
       /\ Lean.jobId <$> Lean.jobViews d
          = [ populateRef Sample.storedJobs 1%nat; None ]
       /\ Lean.jobClicks d = [ {| Lean.jobId := None; Lean.count := 1 |} ].
Proof.
  split; [eexists; split; reflexivity|].
  eexists. split; [vm_compute; reflexivity|].
  split; reflexivity.
Qed.

(** C8, amended: [RangeQuery(startDate, endDate)] returns, in stored
    order, one day for every stored bucket whose date lies in
    [startDate, endDate] inclusive and for no other; each returned day
    has every per-job entry of its bucket, one for one, with the stored
    count; the entry's job holds the stored fields of the job when a job
    with that id is stored with a status that is not null, and is null
    otherwise: when no job has the id any more, and when the job with
    the id is stored without a status. The query writes nothing: the
    stored buckets are as they were. *)
Theorem range_query_reports_buckets_in_range
    (jobs : gmap nat StoredJob) (startDate endDate : Date)
    (coll : list Analytics) :
  exists days,
    getAnalyticsForDateRange healthy jobs startDate endDate coll = Ok days
    /\ Forall2 (reported jobs)
               (filter (fun a => startDate <= date a <= endDate) coll) days
    /\ (forall a, a ∈ coll -> startDate <= date a <= endDate ->
          exists d, d ∈ days /\ reported jobs a d)
    /\ (forall d, d ∈ days ->
          exists a, a ∈ coll /\ startDate <= date a <= endDate
                    /\ reported jobs a d).
Proof.
  eexists. split; [reflexivity|].
  change (fun a => startDate <= date a <= endDate)
    with (inRange startDate endDate).
  split; [|split].
  - apply Forall2_fmap_r, Forall_Forall2_diag, Forall_forall.
    intros a _. apply populateDay_reported.
  - intros a Ha Hrange. exists (populateDay jobs a). split.
    + apply list_elem_of_fmap. exists a. split; [reflexivity|].
      apply list_elem_of_filter. split; [exact Hrange | exact Ha].
    + apply populateDay_reported.
  - intros d Hd. apply list_elem_of_fmap in Hd as (a & -> & Ha).
    apply list_elem_of_filter in Ha as [Hrange Ha].
    exists a. split; [exact Ha|]. split; [exact Hrange|].
    apply populateDay_reported.
Qed.

(** *** Dashboard *)

Lemma msPerDay_pos : 0 < msPerDay.
Proof. reflexivity. Qed.

Lemma startOfDay_spec d : startOfDay d = msPerDay * dayOf d.
Proof.
  unfold startOfDay, dayOf.
  pose proof (Z.div_mod d msPerDay) as H. pose proof msPerDay_pos. lia.
Qed.

Lemma dayOf_subDays d n : dayOf (subDays d n) = dayOf d - n.
Proof.
  unfold dayOf, subDays.
  replace (d - n * msPerDay) with (d + (- n) * msPerDay) by lia.
  rewrite Z.div_add by (pose proof msPerDay_pos; lia). lia.
Qed.

(** The window of the dashboard, in calendar days: from the day [days]
    days before today to today, both included. *)
Lemma dashboard_window now days d :
  startOfDay (subDays now days) <= d <= endOfDay now
  <-> dayOf now - days <= dayOf d <= dayOf now.
Proof.
  unfold endOfDay. rewrite !startOfDay_spec, dayOf_subDays.
  pose proof msPerDay_pos as Hpos.
  pose proof (Z.div_mod d msPerDay ltac:(lia)) as Hd.
  pose proof (Z.mod_pos_bound d msPerDay Hpos) as Hm.
  fold (dayOf d) in Hd. split; intros [H1 H2]; split; nia.
Qed.

(** The days a dashboard call reports are the stored buckets of that
    window, which spans [days + 1] calendar days. *)
Lemma dashboard_days_of_window percentToFixed2 now days jobs coll dash :
  getDashboardAnalytics percentToFixed2 healthy (fixed now) days jobs coll
  = Ok dash ->
  dailyAnalytics dash
  = populateDay jobs
      <$> filter (fun a => dayOf now - days <= dayOf (date a) <= dayOf now) coll.
Proof.
  unfold getDashboardAnalytics, getAnalyticsForDateRange, fixed; simpl.
  intros [= <-]; simpl. f_equal.
  apply list_filter_iff. intros a. unfold inRange. apply dashboard_window.
Qed.

(** C7, at days = 1 on day 10: the collection holds a bucket of day 9
    (2 visits, 2 visitors, 2 views, 1 click) and a bucket of day 10
    (1 visit, 1 visitor). The last 1 calendar day including today is
    day 10 alone, and the dashboard totals count the bucket of day 9
    too. *)
Theorem dashboard_one_day_counts_the_day_before
    (percentToFixed2 : Z -> Z -> string) :
  exists yesterday today dash,
    Sample.twoDays = [yesterday; today]
    /\ dayOf (date yesterday) = dayOf Sample.day10 - 1
    /\ dayOf (date today) = dayOf Sample.day10
    /\ websiteVisits today = 1
    /\ length (uniqueVisitors today) = 1%nat
    /\ jobViews today = [] /\ jobClicks today = []
    /\ getDashboardAnalytics percentToFixed2 healthy (fixed Sample.day10) 1
         Sample.storedJobs Sample.twoDays = Ok dash
    /\ totalVisits dash = 3
    /\ totalUniqueVisitors dash = 3
    /\ totalJobViews dash = 2
    /\ totalJobClicks dash = 1.
Proof.
  do 3 eexists. split; [vm_compute; reflexivity|].
  do 6 (split; [reflexivity|]).
  split; [vm_compute; reflexivity|].
  repeat split.
Qed.

(** The first branch of conversionRate: the number 0 when no view was
    counted. *)
Lemma dashboard_conversionRate_without_views percentToFixed2 flt clk days
    jobs coll dash :
  getDashboardAnalytics percentToFixed2 flt clk days jobs coll = Ok dash ->
  totalJobViews dash = 0 ->
  conversionRate dash = JsNumber 0.
Proof.
  unfold getDashboardAnalytics.
  destruct (getAnalyticsForDateRange _ _ _ _ _) as [analytics|e]; simpl;
    [|discriminate].
  intros [= <-]; simpl. intros ->. reflexivity.
Qed.

(** *** The bucket of the day *)

Section find_update.
Context {A : Type} (P : A -> Prop) `{!forall x, Decision (P x)}.

Lemma list_find_insert_same (l : list A) i a a' :
  list_find P l = Some (i, a) -> P a' ->
  list_find P (<[i := a']> l) = Some (i, a').
Proof.
  intros Hf Ha'. apply list_find_Some in Hf as (Hi & _ & Hleast).
  apply list_find_insert_Some. right; left.
  split; [reflexivity|]. split; [reflexivity|].
  split; [eapply lookup_lt_Some; exact Hi|]. split; [exact Ha'|exact Hleast].
Qed.

Lemma list_find_insert_other (l : list A) i a a' :
  l !! i = Some a -> ~ P a -> ~ P a' ->
  list_find P (<[i := a']> l) = list_find P l.
Proof.
  revert i. induction l as [|x l IH]; intros i Hi Ha Ha'; [discriminate|].
  destruct i as [|i]; simpl in *.
  - injection Hi as ->. rewrite !decide_False by assumption. reflexivity.
  - destruct (decide (P x)); [reflexivity|].
    rewrite (IH i Hi Ha Ha'). reflexivity.
Qed.

Lemma list_find_snoc_new (l : list A) a' :
  list_find P l = None -> P a' ->
  list_find P (l ++ [a']) = Some (length l, a').
Proof.
  intros Hn Ha'. rewrite list_find_app_r by exact Hn. simpl.
  rewrite decide_True by exact Ha'. reflexivity.
Qed.

Lemma list_find_snoc_other (l : list A) a' :
  ~ P a' -> snd <$> list_find P (l ++ [a']) = snd <$> list_find P l.
Proof.
  intros Ha'. destruct (list_find P l) as [[i a]|] eqn:Hf.
  - rewrite (list_find_app_l P l [a'] i a Hf). reflexivity.
  - rewrite list_find_app_r by exact Hf. simpl.
    rewrite decide_False by exact Ha'. reflexivity.
Qed.
End find_update.

(** The effect of the shape shared by the recording calls on the buckets
    of a healthy store. *)
Lemma record_bucketOn today (f : Analytics -> Analytics) (coll : list Analytics) :
  (forall a, date (f a) = date a) ->
  exists coll',
    (found ← findOne healthy today coll;
     let '(slot, analytics) := orNew today found in
     save healthy slot (f analytics) coll) = Ok coll'
    /\ bucketOn today coll'
       = Some (f (default (newAnalytics today) (bucketOn today coll)))
    /\ (forall d, d <> today -> bucketOn d coll' = bucketOn d coll)
    /\ (length coll <= length coll')%nat.
Proof.
  intros Hdate. unfold findOne, save, bucketOn; simpl.
  destruct (list_find (fun a => date a = today) coll) as [[i a]|] eqn:Hf; simpl.
  - eexists; split; [reflexivity|].
    pose proof Hf as Hf'. apply list_find_Some in Hf' as (Hi & Ha & _).
    split; [|split].
    + rewrite (list_find_insert_same _ coll i a (f a) Hf); [reflexivity|].
      rewrite Hdate. exact Ha.
    + intros d Hd. rewrite (list_find_insert_other _ coll i a (f a) Hi);
        [reflexivity|congruence|rewrite Hdate; congruence].
    + rewrite length_insert. lia.
  - eexists; split; [reflexivity|]. split; [|split].
    + rewrite (list_find_snoc_new _ coll _ Hf); [reflexivity|].
      rewrite Hdate. reflexivity.
    + intros d Hd. apply list_find_snoc_other. rewrite Hdate. simpl. congruence.
    + rewrite length_app. lia.
Qed.

Lemma record_rejected flt today (f : Analytics -> Analytics) coll :
  findFails flt || saveFails flt = true ->
  (found ← findOne flt today coll;
   let '(slot, analytics) := orNew today found in
   save flt slot (f analytics) coll) = Throw StorageFailure.
Proof.
  unfold findOne, save. destruct (findFails flt); simpl; [reflexivity|].
  intros ->. destruct (list_find _ coll) as [[i a]|]; reflexivity.
Qed.

Lemma faults_cases flt :
  flt = healthy \/ findFails flt || saveFails flt = true.
Proof. destruct flt as [[] []]; simpl; auto. Qed.

(** X11: a recording call, failed or not, leaves the bucket of every
    other day as it was and removes no bucket; when the store rejects
    the read or the write, the collection is unchanged. *)
Theorem recording_touches_only_the_bucket_of_the_day
    (coll : list Analytics) (ev : Event) :
  (forall d, d <> eventDay ev ->
     bucketOn d (applyEvent coll ev) = bucketOn d coll)
  /\ (length coll <= length (applyEvent coll ev))%nat
  /\ (findFails (eventFaults ev) || saveFails (eventFaults ev) = true ->
      applyEvent coll ev = coll).
Proof.
  destruct ev as [flt clk req|flt clk id|flt clk id];
    cbn [applyEvent eventDay eventFaults];
    [unfold recordWebsiteVisit | unfold recordJobView | unfold recordJobClick];
    cbn zeta;
    (destruct (faults_cases flt) as [->|Hbad];
     [ match goal with
       |- context [save healthy _ (?f _) _] =>
         destruct (record_bucketOn (startOfDay (clk 0%nat)) f coll)
           as (coll' & -> & _ & Hother & Hlen); [reflexivity|]
       end;
       simpl; split; [exact Hother|]; split; [exact Hlen|]; discriminate
     | rewrite record_rejected by exact Hbad; simpl;
       split; [reflexivity|]; split; [lia|reflexivity] ]).
Qed.

Lemma countFor_app id l1 l2 :
  countFor id (l1 ++ l2) = countFor id l1 + countFor id l2.
Proof. induction l1 as [|e l1 IH]; simpl; [reflexivity|]. rewrite IH. lia. Qed.

Lemma countFor_insert id (l : list JobCount) i e e' :
  l !! i = Some e ->
  countFor id (<[i := e']> l)
  = countFor id l
    - (if decide (jobId e = id) then count e else 0)
    + (if decide (jobId e' = id) then count e' else 0).
Proof.
  revert i. induction l as [|x l IH]; intros i Hi; [discriminate|].
  destruct i as [|i]; simpl in *.
  - injection Hi as ->. lia.
  - rewrite (IH i Hi). lia.
Qed.

Lemma bump_counts id (entries : list JobCount) :
  countFor id (bump id entries) = countFor id entries + 1
  /\ (forall id', id' <> id ->
        countFor id' (bump id entries) = countFor id' entries)
  /\ (length entries <= length (bump id entries) <= S (length entries))%nat.
Proof.
  unfold bump.
  destruct (list_find (fun e => jobId e = id) entries) as [[i e]|] eqn:Hf.
  - apply list_find_Some in Hf as (Hi & He & _). split; [|split].
    + rewrite (countFor_insert id entries i e _ Hi). simpl.
      rewrite !decide_True by exact He. lia.
    + intros id' Hne. rewrite (countFor_insert id' entries i e _ Hi). simpl.
      rewrite !decide_False by congruence. lia.
    + rewrite length_insert. lia.
  - split; [|split].
    + rewrite countFor_app. simpl. rewrite decide_True by reflexivity. lia.
    + intros id' Hne. rewrite countFor_app. simpl.
      rewrite decide_False by congruence. lia.
    + rewrite length_app. simpl. lia.
Qed.

(** X12: on a healthy store, recordJobView adds exactly one to the count
    of the job in the bucket of the day (a bucket made new when the day
    had none), and leaves the counts of the other jobs, the clicks, the
    visits and the visitors as they were. *)
Theorem recordJobView_adds_one_view
    (clk : Clock) (id : nat) (coll : list Analytics) :
  let today := startOfDay (clk 0%nat) in
  let before := default (newAnalytics today) (bucketOn today coll) in
  exists coll' after,
    recordJobView healthy clk id coll = Ok coll'
    /\ bucketOn today coll' = Some after
    /\ countFor id (jobViews after) = countFor id (jobViews before) + 1
    /\ (forall id', id' <> id ->
          countFor id' (jobViews after) = countFor id' (jobViews before))
    /\ jobClicks after = jobClicks before
    /\ websiteVisits after = websiteVisits before
    /\ uniqueVisitors after = uniqueVisitors before.
Proof.
  intros today before. unfold recordJobView. cbn zeta. fold today.
  destruct (record_bucketOn today (view id) coll) as (coll' & -> & Hb & _);
    [reflexivity|].
  exists coll', (view id before). split; [reflexivity|]. split; [exact Hb|].
  destruct (bump_counts id (jobViews before)) as (H1 & H2 & _).
  simpl. repeat split; assumption.
Qed.

(** X13: on a healthy store, recordJobClick adds exactly one to the click
    count of the job in the bucket of the day, and leaves the click
    counts of the other jobs, the views, the visits and the visitors as
    they were. *)
Theorem recordJobClick_adds_one_click
    (clk : Clock) (id : nat) (coll : list Analytics) :
  let today := startOfDay (clk 0%nat) in
  let before := default (newAnalytics today) (bucketOn today coll) in
  exists coll' after,
    recordJobClick healthy clk id coll = Ok coll'
    /\ bucketOn today coll' = Some after
    /\ countFor id (jobClicks after) = countFor id (jobClicks before) + 1
    /\ (forall id', id' <> id ->
          countFor id' (jobClicks after) = countFor id' (jobClicks before))
    /\ jobViews after = jobViews before
    /\ websiteVisits after = websiteVisits before
    /\ uniqueVisitors after = uniqueVisitors before.
Proof.
  intros today before. unfold recordJobClick. cbn zeta. fold today.
  destruct (record_bucketOn today (click id) coll) as (coll' & -> & Hb & _);
    [reflexivity|].
  exists coll', (click id before). split; [reflexivity|]. split; [exact Hb|].
  destruct (bump_counts id (jobClicks before)) as (H1 & H2 & _).
  simpl. repeat split; assumption.
Qed.

Lemma sameVisitor_key ip0 ua v :
  sameVisitor ip0 ua v = true <-> visitorKey v = (ip0, ua).
Proof.
  unfold sameVisitor, visitorKey.
  rewrite andb_true_iff, bool_decide_eq_true, String.eqb_eq.
  split; [intros [-> ->]; reflexivity | intros [= -> ->]; auto].
Qed.

Lemma visit_visitors clk ip0 ua a :
  ((exists v, v ∈ uniqueVisitors a /\ visitorKey v = (ip0, ua)) ->
   uniqueVisitors (visit clk ip0 ua a) = uniqueVisitors a)
  /\ ((forall v, v ∈ uniqueVisitors a -> visitorKey v <> (ip0, ua)) ->
      uniqueVisitors (visit clk ip0 ua a)
      = uniqueVisitors a
        ++ [{| ip := ip0; userAgent := ua; timestamp := clk 1%nat |}]).
Proof.
  unfold visit; simpl.
  destruct (List.find (sameVisitor ip0 ua) (uniqueVisitors a)) as [w|] eqn:Hf.
  - split; [reflexivity|]. intros Hnone. exfalso.
    apply List.find_some in Hf as [Hin Hw].
    apply (Hnone w); [apply list_elem_of_In, Hin | apply sameVisitor_key, Hw].
  - split; [|reflexivity]. intros (v & Hv & Hk). exfalso.
    pose proof (List.find_none _ _ Hf v (proj1 (list_elem_of_In _ _) Hv)) as Hno.
    apply sameVisitor_key in Hk. congruence.
Qed.

Lemma recordWebsiteVisit_bucket clk req coll :
  exists coll',
    recordWebsiteVisit healthy clk req coll = Ok coll'
    /\ bucketOn (startOfDay (clk 0%nat)) coll'
       = Some (visit clk (clientIp req) (clientAgent req)
                 (default (newAnalytics (startOfDay (clk 0%nat)))
                          (bucketOn (startOfDay (clk 0%nat)) coll))).
Proof.
  unfold recordWebsiteVisit. cbn zeta.
  fold (clientIp req). fold (clientAgent req).
  destruct (record_bucketOn (startOfDay (clk 0%nat))
              (visit clk (clientIp req) (clientAgent req)) coll)
    as (coll' & -> & Hb & _); [reflexivity|].
  exists coll'. split; [reflexivity | exact Hb].
Qed.

(** C10: in every bucket of a collection reached from the empty one by
    any sequence of RecordVisit, RecordJobView and RecordJobClick calls,
    failed ones included, desktop + mobile + tablet = websiteVisits and
    chrome + firefox + safari + edge + others = websiteVisits; and this
    is so because, on any collection, a RecordVisit adds exactly one to
    websiteVisits of the bucket of the day, exactly one to exactly one
    device counter and exactly one to exactly one browser counter, the
    other counters being as they were, while a RecordJobView and a
    RecordJobClick leave websiteVisits, the device counters and the
    browser counters of that bucket as they were; a call changes no
    bucket of another day, and a call the store rejects changes
    nothing. *)
Theorem device_and_browser_counters_sum_to_visits
    (evs : list Event) (coll : list Analytics) (clk : Clock) (req : Request)
    (id : nat) :
  let today := startOfDay (clk 0%nat) in
  let before := default (newAnalytics today) (bucketOn today coll) in
  Forall balanced (runEvents evs [])
  /\ (exists coll' after,
        recordWebsiteVisit healthy clk req coll = Ok coll'
        /\ bucketOn today coll' = Some after
        /\ websiteVisits after = websiteVisits before + 1
        /\ oneDeviceMore (deviceInfo before) (deviceInfo after)
        /\ oneBrowserMore (browserInfo before) (browserInfo after))
  /\ (exists coll' after,
        recordJobView healthy clk id coll = Ok coll'
        /\ bucketOn today coll' = Some after
        /\ websiteVisits after = websiteVisits before
        /\ deviceInfo after = deviceInfo before
        /\ browserInfo after = browserInfo before)
  /\ (exists coll' after,
        recordJobClick healthy clk id coll = Ok coll'
        /\ bucketOn today coll' = Some after
        /\ websiteVisits after = websiteVisits before
        /\ deviceInfo after = deviceInfo before
        /\ browserInfo after = browserInfo before)
  /\ (forall ev d, d <> eventDay ev ->
        bucketOn d (applyEvent coll ev) = bucketOn d coll)
  /\ (forall ev,
        findFails (eventFaults ev) || saveFails (eventFaults ev) = true ->
        applyEvent coll ev = coll).
Proof.
  intros today before.
  split; [apply runEvents_balanced; constructor|].
  split; [|split; [|split; [|split]]].
  - destruct (recordWebsiteVisit_bucket clk req coll) as (coll' & Hr & Hb).
    eexists coll', _. split; [exact Hr|]. split; [exact Hb|].
    fold today before. simpl.
    split; [reflexivity|].
    split; [apply bumpDevice_one | apply bumpBrowser_one].
  - unfold recordJobView. cbn zeta. fold today.
    destruct (record_bucketOn today (view id) coll) as (coll' & -> & Hb & _);
      [reflexivity|].
    exists coll', (view id before). repeat split. exact Hb.
  - unfold recordJobClick. cbn zeta. fold today.
    destruct (record_bucketOn today (click id) coll) as (coll' & -> & Hb & _);
      [reflexivity|].
    exists coll', (click id before). repeat split. exact Hb.
  - intros ev d Hd.
    destruct ev as [flt c r|flt c i|flt c i];
      cbn [applyEvent eventDay] in *;
      [unfold recordWebsiteVisit | unfold recordJobView | unfold recordJobClick];
      cbn zeta;
      (destruct (faults_cases flt) as [->|Hbad];
       [ match goal with
         |- context [save healthy _ (?f _) _] =>
           destruct (record_bucketOn (startOfDay (c 0%nat)) f coll)
             as (coll' & -> & _ & Hother & _); [reflexivity|]
         end; simpl; apply Hother, Hd
       | rewrite record_rejected by exact Hbad; reflexivity ]).
  - intros ev Hbad.
    destruct ev as [flt c r|flt c i|flt c i];
      cbn [applyEvent eventFaults] in *;
      [unfold recordWebsiteVisit | unfold recordJobView | unfold recordJobClick];
      cbn zeta; rewrite record_rejected by exact Hbad; reflexivity.
Qed.

(** X14: on a healthy store, recordWebsiteVisit adds one to websiteVisits
    of the bucket of the day; it appends the visitor (ip, user agent,
    time) when no visitor of that day has the same ip and user agent and
    leaves the visitors as they were when one has; job views and job
    clicks are untouched. *)
Theorem recordWebsiteVisit_counts_the_visit_and_a_new_visitor
    (clk : Clock) (req : Request) (coll : list Analytics) :
  let today := startOfDay (clk 0%nat) in
  let before := default (newAnalytics today) (bucketOn today coll) in
  let key := (clientIp req, clientAgent req) in
  exists coll' after,
    recordWebsiteVisit healthy clk req coll = Ok coll'
    /\ bucketOn today coll' = Some after
    /\ websiteVisits after = websiteVisits before + 1
    /\ ((exists v, v ∈ uniqueVisitors before /\ visitorKey v = key) ->
        uniqueVisitors after = uniqueVisitors before)
    /\ ((forall v, v ∈ uniqueVisitors before -> visitorKey v <> key) ->
        uniqueVisitors after
        = uniqueVisitors before
          ++ [{| ip := clientIp req; userAgent := clientAgent req;
                 timestamp := clk 1%nat |}])
    /\ jobViews after = jobViews before
    /\ jobClicks after = jobClicks before.
Proof.
  intros today before key.
  destruct (recordWebsiteVisit_bucket clk req coll) as (coll' & Hr & Hb).
  eexists coll', _. split; [exact Hr|]. split; [exact Hb|]. fold today before.
  destruct (visit_visitors clk (clientIp req) (clientAgent req) before)
    as [Hold Hnew].
  split; [reflexivity|]. split; [exact Hold|]. split; [exact Hnew|].
  split; reflexivity.
Qed.

(** X15: two visits with the same request on the same day, on a healthy
    store: the second one adds one to websiteVisits and leaves the
    visitors of the day as the first one left them. *)
Theorem repeated_visit_adds_a_visit_and_no_visitor
    (clk1 clk2 : Clock) (req : Request) (coll : list Analytics) :
  startOfDay (clk2 0%nat) = startOfDay (clk1 0%nat) ->
  exists coll1 coll2 first second,
    recordWebsiteVisit healthy clk1 req coll = Ok coll1
    /\ recordWebsiteVisit healthy clk2 req coll1 = Ok coll2
    /\ bucketOn (startOfDay (clk1 0%nat)) coll1 = Some first
    /\ bucketOn (startOfDay (clk1 0%nat)) coll2 = Some second
    /\ websiteVisits second = websiteVisits first + 1
    /\ uniqueVisitors second = uniqueVisitors first.
Proof.
  intros Hday.
  destruct (recordWebsiteVisit_bucket clk1 req coll) as (coll1 & H1 & Hb1).
  destruct (recordWebsiteVisit_bucket clk2 req coll1) as (coll2 & H2 & Hb2).
  rewrite Hday, Hb1 in Hb2. simpl in Hb2.
  set (before := default (newAnalytics (startOfDay (clk1 0%nat)))
                         (bucketOn (startOfDay (clk1 0%nat)) coll)) in *.
  set (first := visit clk1 (clientIp req) (clientAgent req) before) in *.
  exists coll1, coll2, first, (visit clk2 (clientIp req) (clientAgent req) first).
  repeat (split; [assumption|]). split; [reflexivity|].
  apply (visit_visitors clk2 (clientIp req) (clientAgent req) first).
  destruct (visit_visitors clk1 (clientIp req) (clientAgent req) before)
    as [Hold Hnew]. fold first in Hold, Hnew.
  destruct (List.find (sameVisitor (clientIp req) (clientAgent req))
                      (uniqueVisitors before)) as [w|] eqn:Hf.
  - apply List.find_some in Hf as [Hin Hw].
    exists w. split; [|apply sameVisitor_key, Hw].
    rewrite Hold; [apply list_elem_of_In, Hin|].
    exists w. split; [apply list_elem_of_In, Hin | apply sameVisitor_key, Hw].
  - eexists. split.
    + rewrite Hnew.
      * apply elem_of_app. right. apply list_elem_of_singleton. reflexivity.
      * intros v Hv Hk. apply sameVisitor_key in Hk.
        pose proof (List.find_none _ _ Hf v (proj1 (list_elem_of_In _ _) Hv)).
        congruence.
    + reflexivity.
Qed.

Lemma repeated_visit_witness :
  exists coll1 coll2 first second,
    recordWebsiteVisit healthy (fixed Sample.day9) Sample.phone [] = Ok coll1
    /\ recordWebsiteVisit healthy (fixed (Sample.day9 + 60000)) Sample.phone coll1
       = Ok coll2
    /\ bucketOn (startOfDay (fixed Sample.day9 0%nat)) coll1 = Some first
    /\ bucketOn (startOfDay (fixed Sample.day9 0%nat)) coll2 = Some second
    /\ websiteVisits second = websiteVisits first + 1
    /\ uniqueVisitors second = uniqueVisitors first.
Proof.
  apply (repeated_visit_adds_a_visit_and_no_visitor
           (fixed Sample.day9) (fixed (Sample.day9 + 60000)) Sample.phone []).
  reflexivity.
Defined.

(** *** Invariants of the collection *)

Lemma startOfDay_idem d : startOfDay (startOfDay d) = startOfDay d.
Proof.
  rewrite (startOfDay_spec d). unfold startOfDay.
  rewrite Z.mul_comm, Z_mod_mult. lia.
Qed.

Lemma record_dates flt today (f : Analytics -> Analytics) (coll : list Analytics) :
  (forall a, date (f a) = date a) ->
  let coll' :=
    orKeep coll
      (found ← findOne flt today coll;
       let '(slot, analytics) := orNew today found in
       save flt slot (f analytics) coll) in
  date <$> coll' = date <$> coll
  \/ (date <$> coll' = (date <$> coll) ++ [today] /\ today ∉ date <$> coll).
Proof.
  intros Hdate. unfold findOne, save.
  destruct (findFails flt); simpl; [left; reflexivity|].
  destruct (list_find (fun a => date a = today) coll) as [[i a]|] eqn:Hf;
    simpl; (destruct (saveFails flt); simpl; [left; reflexivity|]).
  - left. apply list_find_Some in Hf as (Hi & _ & _).
    rewrite list_fmap_insert, Hdate. apply list_insert_id.
    rewrite list_lookup_fmap, Hi. reflexivity.
  - right. rewrite fmap_app. simpl. rewrite Hdate. simpl. split; [reflexivity|].
    apply list_find_None in Hf. rewrite Forall_forall in Hf.
    intros Hin. apply list_elem_of_fmap in Hin as (a & Ha & Hin).
    apply (Hf a Hin). symmetry. exact Ha.
Qed.

Lemma applyEvent_dates coll ev :
  date <$> applyEvent coll ev = date <$> coll
  \/ (date <$> applyEvent coll ev = (date <$> coll) ++ [eventDay ev]
      /\ eventDay ev ∉ date <$> coll).
Proof.
  destruct ev as [flt clk req|flt clk id|flt clk id];
    cbn [applyEvent eventDay];
    [unfold recordWebsiteVisit | unfold recordJobView | unfold recordJobClick];
    cbn zeta; apply record_dates; reflexivity.
Qed.

(** X16: in a collection reached from the empty one by any sequence of
    recording calls, no two buckets have the same date and every date is
    the midnight that starts its day. *)
Theorem one_bucket_per_day (evs : list Event) :
  NoDup (date <$> runEvents evs [])
  /\ Forall (fun a => date a = startOfDay (date a)) (runEvents evs []).
Proof.
  unfold runEvents.
  assert (Hgen : forall coll,
            NoDup (date <$> coll) /\ Forall (fun d => d = startOfDay d) (date <$> coll) ->
            NoDup (date <$> fold_left applyEvent evs coll)
            /\ Forall (fun d => d = startOfDay d)
                      (date <$> fold_left applyEvent evs coll)).
  { induction evs as [|ev evs IH]; intros coll [Hnd Hmid]; simpl; [auto|].
    apply IH. destruct (applyEvent_dates coll ev) as [->|[-> Hnew]]; [auto|].
    split.
    - apply NoDup_app. split; [exact Hnd|]. split; [|apply NoDup_singleton].
      intros d Hd Hd'. apply list_elem_of_singleton in Hd'. congruence.
    - apply Forall_app. split; [exact Hmid|]. apply Forall_singleton.
      destruct ev; simpl; symmetry; apply startOfDay_idem. }
  destruct (Hgen []) as [Hnd Hmid]; [split; constructor|].
  split; [exact Hnd|]. rewrite Forall_fmap in Hmid. exact Hmid.
Qed.

Lemma applyEvent_Forall (P : Analytics -> Prop) coll ev :
  (forall today, P (newAnalytics today)) ->
  (forall clk ip0 ua a, P a -> P (visit clk ip0 ua a)) ->
  (forall id a, P a -> P (view id a)) ->
  (forall id a, P a -> P (click id a)) ->
  Forall P coll -> Forall P (applyEvent coll ev).
Proof.
  intros Hnew Hvisit Hview Hclick Hcoll.
  destruct ev as [flt clk req|flt clk id|flt clk id]; cbn [applyEvent];
    [unfold recordWebsiteVisit | unfold recordJobView | unfold recordJobClick];
    apply record_Forall; auto.
Qed.

Lemma runEvents_Forall (P : Analytics -> Prop) evs :
  (forall today, P (newAnalytics today)) ->
  (forall clk ip0 ua a, P a -> P (visit clk ip0 ua a)) ->
  (forall id a, P a -> P (view id a)) ->
  (forall id a, P a -> P (click id a)) ->
  Forall P (runEvents evs []).
Proof.
  intros Hnew Hvisit Hview Hclick. unfold runEvents.
  assert (Hgen : forall coll, Forall P coll ->
                   Forall P (fold_left applyEvent evs coll)).
  { induction evs as [|ev evs IH]; intros coll Hcoll; simpl; [exact Hcoll|].
    apply IH, applyEvent_Forall; assumption. }
  apply Hgen. constructor.
Qed.

Lemma visit_tidy clk ip0 ua a : tidyVisitors a -> tidyVisitors (visit clk ip0 ua a).
Proof.
  intros [Hnd Hlen]. unfold tidyVisitors.
  destruct (List.find (sameVisitor ip0 ua) (uniqueVisitors a)) as [w|] eqn:Hf.
  - assert (Heq : uniqueVisitors (visit clk ip0 ua a) = uniqueVisitors a).
    { unfold visit; simpl. rewrite Hf. reflexivity. }
    rewrite Heq. split; [exact Hnd|]. simpl. lia.
  - assert (Heq : uniqueVisitors (visit clk ip0 ua a)
                  = uniqueVisitors a
                    ++ [{| ip := ip0; userAgent := ua; timestamp := clk 1%nat |}]).
    { unfold visit; simpl. rewrite Hf. reflexivity. }
    rewrite Heq. split.
    + rewrite fmap_app. apply NoDup_app. split; [exact Hnd|].
      split; [|apply NoDup_singleton].
      intros k Hk Hk'. apply list_elem_of_singleton in Hk'. subst k.
      apply list_elem_of_fmap in Hk as (v & Hv & Hin).
      pose proof (List.find_none _ _ Hf v (proj1 (list_elem_of_In _ _) Hin)) as Hno.
      assert (Hkey : visitorKey v = (ip0, ua)) by (rewrite <- Hv; reflexivity).
      apply sameVisitor_key in Hkey. congruence.
    + rewrite length_app. simpl. lia.
Qed.

Lemma bump_tidy id entries : tidyEntries entries -> tidyEntries (bump id entries).
Proof.
  intros [Hnd Hpos]. unfold tidyEntries, bump.
  destruct (list_find (fun e => jobId e = id) entries) as [[i e]|] eqn:Hf.
  - apply list_find_Some in Hf as (Hi & He & _). split.
    + rewrite list_fmap_insert. simpl.
      rewrite list_insert_id; [exact Hnd|].
      rewrite list_lookup_fmap, Hi. reflexivity.
    + apply Forall_insert; [exact Hpos|]. simpl.
      rewrite Forall_lookup in Hpos. specialize (Hpos i e Hi). simpl in Hpos. lia.
  - apply list_find_None in Hf. rewrite Forall_forall in Hf. split.
    + rewrite fmap_app. apply NoDup_app. split; [exact Hnd|].
      split; [|apply NoDup_singleton].
      intros k Hk Hk'. apply list_elem_of_singleton in Hk'. simpl in Hk'. subst k.
      apply list_elem_of_fmap in Hk as (e & He & Hin).
      apply (Hf e Hin). symmetry. exact He.
    + apply Forall_app. split; [exact Hpos|]. apply Forall_singleton. simpl. lia.
Qed.

Lemma runEvents_tidyVisitors (evs : list Event) :
  Forall tidyVisitors (runEvents evs []).
Proof.
  apply runEvents_Forall.
  - intros today. split; [constructor | simpl; lia].
  - intros. apply visit_tidy. assumption.
  - intros id a H. exact H.
  - intros id a H. exact H.
Qed.

(** X17: in every bucket of a reached collection, no two visitors have
    the same ip and user agent, and the visitors are at most as many as
    the visits. *)
Theorem visitors_are_distinct_and_at_most_the_visits (evs : list Event) :
  Forall (fun a =>
            NoDup (visitorKey <$> uniqueVisitors a)
            /\ Z.of_nat (length (uniqueVisitors a)) <= websiteVisits a)
         (runEvents evs []).
Proof. exact (runEvents_tidyVisitors evs). Qed.

(** X18: in every bucket of a reached collection, the job views hold at
    most one entry per job and the job clicks hold at most one entry per
    job, and every entry counts at least 1. *)
Theorem one_entry_per_job_and_day (evs : list Event) :
  Forall (fun a => tidyEntries (jobViews a) /\ tidyEntries (jobClicks a))
         (runEvents evs []).
Proof.
  apply runEvents_Forall.
  - intros today. split; split; constructor.
  - intros clk ip0 ua a H. exact H.
  - intros id a [Hv Hc]. split; [apply bump_tidy, Hv | exact Hc].
  - intros id a [Hv Hc]. split; [exact Hv | apply bump_tidy, Hc].
Qed.

(** *** From the events to the dashboard *)

Lemma fold_left_sumOver {A} (g : A -> Z) (l : list A) z :
  fold_left (fun acc a => acc + g a) l z = z + sumOver g l.
Proof.
  revert z. induction l as [|a l IH]; intros z; simpl; [lia|].
  rewrite IH. lia.
Qed.

Lemma sumOver_app {A} (g : A -> Z) l1 l2 :
  sumOver g (l1 ++ l2) = sumOver g l1 + sumOver g l2.
Proof. induction l1 as [|a l1 IH]; simpl; [reflexivity|]. rewrite IH. lia. Qed.

Lemma sumOver_insert {A} (g : A -> Z) (l : list A) i a a' :
  l !! i = Some a -> sumOver g (<[i := a']> l) = sumOver g l - g a + g a'.
Proof.
  revert i. induction l as [|x l IH]; intros i Hi; [discriminate|].
  destruct i as [|i]; simpl in *.
  - injection Hi as ->. lia.
  - rewrite (IH i Hi). lia.
Qed.

Lemma sumOver_fmap {A B} (h : A -> B) (g : B -> Z) (l : list A) :
  sumOver g (h <$> l) = sumOver (fun a => g (h a)) l.
Proof.
  induction l as [|a l IH]; [reflexivity|].
  rewrite fmap_cons. unfold sumOver in *. cbn [fold_right]. rewrite IH.
  reflexivity.
Qed.

Lemma sumOver_le {A} (g h : A -> Z) (l : list A) :
  Forall (fun a => g a <= h a) l -> sumOver g l <= sumOver h l.
Proof. induction 1; simpl; lia. Qed.

Lemma sumOver_nonneg {A} (g : A -> Z) (l : list A) :
  (forall a, 0 <= g a) -> 0 <= sumOver g l.
Proof. intros Hg. induction l as [|a l IH]; simpl; [lia|]. specialize (Hg a). lia. Qed.

Lemma record_sumOver (g : Analytics -> Z) delta today
    (f : Analytics -> Analytics) (coll : list Analytics) :
  (forall a, g (f a) = g a + delta) ->
  g (newAnalytics today) = 0 ->
  sumOver g
    (orKeep coll
       (found ← findOne healthy today coll;
        let '(slot, analytics) := orNew today found in
        save healthy slot (f analytics) coll))
  = sumOver g coll + delta.
Proof.
  intros Hf Hnew. unfold findOne, save; simpl.
  destruct (list_find (fun a => date a = today) coll) as [[i a]|] eqn:Hfind;
    simpl.
  - apply list_find_Some in Hfind as (Hi & _ & _).
    rewrite (sumOver_insert g coll i a _ Hi), Hf. lia.
  - rewrite sumOver_app. simpl. rewrite Hf, Hnew. lia.
Qed.

Lemma bump_total id entries :
  sumOver count (bump id entries) = sumOver count entries + 1.
Proof.
  unfold bump.
  destruct (list_find (fun e => jobId e = id) entries) as [[i e]|] eqn:Hf.
  - apply list_find_Some in Hf as (Hi & _ & _).
    rewrite (sumOver_insert count entries i e _ Hi). simpl. lia.
  - rewrite sumOver_app. simpl. lia.
Qed.

Lemma applyEvent_sums coll ev :
  eventFaults ev = healthy ->
  sumOver websiteVisits (applyEvent coll ev)
    = sumOver websiteVisits coll + recordedVisits [ev]
  /\ sumOver (fun a => sumOver count (jobViews a)) (applyEvent coll ev)
     = sumOver (fun a => sumOver count (jobViews a)) coll + recordedViews [ev]
  /\ sumOver (fun a => sumOver count (jobClicks a)) (applyEvent coll ev)
     = sumOver (fun a => sumOver count (jobClicks a)) coll + recordedClicks [ev].
Proof.
  destruct ev as [flt clk req|flt clk id|flt clk id];
    cbn [applyEvent eventFaults]; intros ->;
    [unfold recordWebsiteVisit | unfold recordJobView | unfold recordJobClick];
    cbn zeta; unfold recordedVisits, recordedViews, recordedClicks; simpl sumOver at 2 4 6;
    (split; [|split]); apply record_sumOver; intros; simpl;
    try reflexivity; try lia; try apply bump_total.
Qed.

Lemma recorded_cons ev evs :
  recordedVisits (ev :: evs) = recordedVisits [ev] + recordedVisits evs
  /\ recordedViews (ev :: evs) = recordedViews [ev] + recordedViews evs
  /\ recordedClicks (ev :: evs) = recordedClicks [ev] + recordedClicks evs.
Proof. unfold recordedVisits, recordedViews, recordedClicks; simpl. lia. Qed.

Lemma dayOf_startOfDay d : dayOf (startOfDay d) = dayOf d.
Proof.
  rewrite startOfDay_spec. unfold dayOf at 1.
  rewrite Z.mul_comm, Z_div_mult_full; [reflexivity|].
  pose proof msPerDay_pos. lia.
Qed.

Lemma filter_all {A} (P : A -> Prop) `{!forall x, Decision (P x)} (l : list A) :
  Forall P l -> filter P l = l.
Proof.
  induction 1 as [|x l Hx _ IH]; [reflexivity|].
  rewrite filter_cons_True by exact Hx. rewrite IH. reflexivity.
Qed.

Lemma runEvents_sums now days evs coll :
  Forall (fun ev => eventFaults ev = healthy
                    /\ dayOf now - days <= dayOf (eventDay ev) <= dayOf now) evs ->
  Forall (fun d => dayOf now - days <= dayOf d <= dayOf now) (date <$> coll) ->
  Forall (fun d => dayOf now - days <= dayOf d <= dayOf now)
         (date <$> runEvents evs coll)
  /\ sumOver websiteVisits (runEvents evs coll)
     = sumOver websiteVisits coll + recordedVisits evs
  /\ sumOver (fun a => sumOver count (jobViews a)) (runEvents evs coll)
     = sumOver (fun a => sumOver count (jobViews a)) coll + recordedViews evs
  /\ sumOver (fun a => sumOver count (jobClicks a)) (runEvents evs coll)
     = sumOver (fun a => sumOver count (jobClicks a)) coll + recordedClicks evs.
Proof.
  unfold runEvents. intros Hevs. revert coll.
  induction Hevs as [|ev evs [Hflt Hday] _ IH]; intros coll Hcoll.
  - simpl. unfold recordedVisits, recordedViews, recordedClicks; simpl.
    repeat split; [exact Hcoll|lia|lia|lia].
  - cbn [fold_left].
    destruct (applyEvent_sums coll ev Hflt) as (Hv & Hw & Hc).
    destruct (recorded_cons ev evs) as (-> & -> & ->).
    destruct (IH (applyEvent coll ev)) as (Hd' & Hv' & Hw' & Hc').
    { destruct (applyEvent_dates coll ev) as [->|[-> _]]; [exact Hcoll|].
      apply Forall_app. split; [exact Hcoll|]. apply Forall_singleton, Hday. }
    split; [exact Hd'|]. rewrite Hv', Hw', Hc', Hv, Hw, Hc. lia.
Qed.

(** X19: when every event of a sequence was recorded on a healthy store
    within the last [days] calendar days, today included, the dashboard
    over the collection they built reports their numbers: totalVisits is
    the number of visits, totalJobViews the number of views,
    totalJobClicks the number of clicks, and totalUniqueVisitors lies
    between 0 and totalVisits. *)
Theorem dashboard_totals_are_the_recorded_events
    (percentToFixed2 : Z -> Z -> string) (now : Date) (days : Z)
    (jobs : gmap nat StoredJob) (evs : list Event) :
  Forall (fun ev => eventFaults ev = healthy
                    /\ dayOf now - days < dayOf (eventDay ev) <= dayOf now) evs ->
  exists dash,
    getDashboardAnalytics percentToFixed2 healthy (fixed now) days jobs
      (runEvents evs []) = Ok dash
    /\ totalVisits dash = recordedVisits evs
    /\ totalJobViews dash = recordedViews evs
    /\ totalJobClicks dash = recordedClicks evs
    /\ 0 <= totalUniqueVisitors dash <= totalVisits dash.
Proof.
  intros Hevs.
  assert (Hevs' : Forall (fun ev => eventFaults ev = healthy
                    /\ dayOf now - days <= dayOf (eventDay ev) <= dayOf now) evs).
  { eapply Forall_impl; [exact Hevs|]. intros ev [Hf Hd]. split; [exact Hf|lia]. }
  destruct (runEvents_sums now days evs [] Hevs') as (Hdates & Hv & Hw & Hc);
    [constructor|].
  set (coll := runEvents evs []) in *.
  unfold getDashboardAnalytics, getAnalyticsForDateRange, fixed; simpl.
  rewrite filter_all.
  2:{ rewrite Forall_fmap in Hdates. eapply Forall_impl; [exact Hdates|].
      intros a Ha. unfold inRange. apply dashboard_window. exact Ha. }
  eexists; split; [reflexivity|]. simpl.
  rewrite !fold_left_sumOver, !sumOver_fmap. simpl.
  assert (Hcounts : forall es,
            sumCounts (populateEntry jobs <$> es) = sumOver count es).
  { intros es. unfold sumCounts. rewrite fold_left_sumOver, sumOver_fmap.
    rewrite Z.add_0_l. reflexivity. }
  assert (Hext : forall (g h : Analytics -> Z) l,
            (forall a, g a = h a) -> sumOver g l = sumOver h l).
  { intros g h l Hgh. induction l as [|a l IH]; simpl; [reflexivity|].
    rewrite Hgh, IH. reflexivity. }
  rewrite !Z.add_0_l.
  rewrite (Hext (fun a => websiteVisits a) websiteVisits) by reflexivity.
  rewrite (Hext (fun a => sumCounts (populateEntry jobs <$> jobViews a))
                (fun a => sumOver count (jobViews a)))
    by (intros a; apply Hcounts).
  rewrite (Hext (fun a => sumCounts (populateEntry jobs <$> jobClicks a))
                (fun a => sumOver count (jobClicks a)))
    by (intros a; apply Hcounts).
  rewrite Hv, Hw, Hc. simpl.
  split; [lia|]. split; [lia|]. split; [lia|].
  rewrite <- (Z.add_0_l (recordedVisits evs)).
  change (0 + recordedVisits evs)
    with (sumOver websiteVisits [] + recordedVisits evs).
  rewrite <- Hv. split.
  - apply sumOver_nonneg. intros a. lia.
  - apply sumOver_le.
    eapply Forall_impl; [apply (runEvents_tidyVisitors evs)|].
    intros a [_ Hlen]. exact Hlen.
Qed.

Lemma dashboard_totals_witness :
  exists dash,
    getDashboardAnalytics (fun _ _ => ""%string) healthy (fixed Sample.day10) 7
      Sample.storedJobs (runEvents Sample.twoDaysEvents []) = Ok dash
    /\ totalVisits dash = recordedVisits Sample.twoDaysEvents
    /\ totalJobViews dash = recordedViews Sample.twoDaysEvents
    /\ totalJobClicks dash = recordedClicks Sample.twoDaysEvents
    /\ 0 <= totalUniqueVisitors dash <= totalVisits dash.
Proof.
  apply (dashboard_totals_are_the_recorded_events
           (fun _ _ => ""%string) (fixed Sample.day10 0%nat) 7
           Sample.storedJobs Sample.twoDaysEvents).
  repeat constructor; vm_compute; congruence.
Defined.

End AnalyticsFacts.

(** ** The conversion rate *)

Module ConversionFacts.

Import AnalyticsModel.
Import SpecFloat.

(** *** Digits

    [digits2_pos] is the binary size of a positive number. *)

Lemma digits2_size p : digits2_pos p = Pos.size p.
Proof. induction p; simpl; congruence. Qed.

Lemma digits2_bounds p :
  2 ^ (Z.pos (digits2_pos p) - 1) <= Z.pos p < 2 ^ Z.pos (digits2_pos p).
Proof.
  rewrite digits2_size. split.
  - pose proof (Pos.size_le p) as H.
    assert (Hp : (2 ^ Pos.size p <= p~0)%positive) by exact H.
    apply Pos2Z.pos_le_pos in Hp. rewrite Pos2Z.inj_pow in Hp.
    replace (Z.pos (Pos.size p)) with (Z.succ (Z.pos (Pos.size p) - 1)) in Hp by lia.
    rewrite Z.pow_succ_r in Hp by lia. lia.
  - pose proof (Pos.size_gt p) as H.
    apply Pos2Z.pos_lt_pos in H. rewrite Pos2Z.inj_pow in H. exact H.
Qed.

Lemma digits2_unique p d :
  2 ^ (d - 1) <= Z.pos p < 2 ^ d -> Z.pos (digits2_pos p) = d.
Proof.
  intros [Hlo Hhi]. pose proof (digits2_bounds p) as [Hlo' Hhi'].
  assert (0 < d).
  { destruct (Z.ltb_spec 0 d); [assumption|].
    exfalso. assert (2 ^ d <= 2 ^ 0) by (apply Z.pow_le_mono_r; lia).
    simpl in *. lia. }
  destruct (Z.lt_trichotomy (Z.pos (digits2_pos p)) d) as [Hlt|[Heq|Hgt]];
    [exfalso|exact Heq|exfalso].
  - assert (2 ^ Z.pos (digits2_pos p) <= 2 ^ (d - 1))
      by (apply Z.pow_le_mono_r; lia). lia.
  - assert (2 ^ d <= 2 ^ (Z.pos (digits2_pos p) - 1))
      by (apply Z.pow_le_mono_r; lia). lia.
Qed.

(** *** Shifting and rounding a mantissa

    A right shift by one bit halves the mantissa and keeps track, in the
    round and sticky bits, of where the quotient lies. *)

Lemma shr_record_of_loc_recorded m l A B :
  0 <= m -> Double.located m l A B -> Double.recorded (shr_record_of_loc m l) A B.
Proof.
  intros Hm Hl. split.
  - destruct l as [|[]]; exact Hm.
  - destruct l as [|[]]; exact Hl.
Qed.

Lemma shr_1_recorded r A B :
  0 < B -> Double.recorded r A B ->
  Double.recorded (shr_1 r) A (2 * B) /\ shr_m (shr_1 r) = shr_m r / 2.
Proof.
  intros HB [Hm Hl]. destruct r as [m rb sb]. simpl in Hm, Hl.
  destruct m as [|p|p]; [| |lia].
  - split; [|reflexivity].
    destruct rb, sb; simpl in *; unfold Double.recorded; simpl; repeat split; lia.
  - destruct p as [p|p|].
    + split.
      * rewrite Pos2Z.inj_xI in Hl.
        destruct rb, sb; simpl in *; unfold Double.recorded; simpl; repeat split; lia.
      * simpl. rewrite Pos2Z.inj_xI. apply Z.div_unique with 1; lia.
    + split.
      * rewrite Pos2Z.inj_xO in Hl.
        destruct rb, sb; simpl in *; unfold Double.recorded; simpl; repeat split; lia.
      * simpl. rewrite Pos2Z.inj_xO. apply Z.div_unique with 0; lia.
    + split; [|reflexivity].
      destruct rb, sb; simpl in *; unfold Double.recorded; simpl; repeat split; lia.
Qed.

Lemma iter_shr_1_recorded p : forall r A B,
  0 < B -> Double.recorded r A B ->
  Double.recorded (iter_pos shr_1 p r) A (2 ^ Z.pos p * B)
  /\ shr_m (iter_pos shr_1 p r) = shr_m r / 2 ^ Z.pos p.
Proof.
  induction p as [p IH|p IH|]; intros r A B HB Hr.
  - simpl iter_pos.
    destruct (shr_1_recorded r A B HB Hr) as [H1 E1].
    destruct (IH _ A (2 * B) ltac:(lia) H1) as [H2 E2].
    assert (Hpow : 0 < 2 ^ Z.pos p) by (apply Z.pow_pos_nonneg; lia).
    destruct (IH _ A (2 ^ Z.pos p * (2 * B)) ltac:(lia) H2) as [H3 E3].
    replace (Z.pos p~1) with (Z.pos p + (Z.pos p + 1)) by lia.
    rewrite !Z.pow_add_r by lia. change (2 ^ 1) with 2.
    split.
    + replace (2 ^ Z.pos p * (2 ^ Z.pos p * 2) * B)
        with (2 ^ Z.pos p * (2 ^ Z.pos p * (2 * B))) by lia.
      exact H3.
    + rewrite E3, E2, E1.
      rewrite !Z.div_div by lia. f_equal. lia.
  - simpl iter_pos.
    assert (Hpow : 0 < 2 ^ Z.pos p) by (apply Z.pow_pos_nonneg; lia).
    destruct (IH _ A B HB Hr) as [H2 E2].
    destruct (IH _ A (2 ^ Z.pos p * B) ltac:(lia) H2) as [H3 E3].
    replace (Z.pos p~0) with (Z.pos p + Z.pos p) by lia.
    rewrite !Z.pow_add_r by lia.
    split.
    + replace (2 ^ Z.pos p * 2 ^ Z.pos p * B)
        with (2 ^ Z.pos p * (2 ^ Z.pos p * B)) by lia.
      exact H3.
    + rewrite E3, E2. rewrite !Z.div_div by lia. reflexivity.
  - simpl iter_pos. change (2 ^ 1) with 2. apply shr_1_recorded; assumption.
Qed.

(** Rounding to nearest, ties to even, moves to an integer at most one
    half away. *)
Lemma round_nearest_even_near m l A B :
  0 < B -> Double.located m l A B ->
  m <= round_nearest_even m l <= m + 1
  /\ 2 * Z.abs (round_nearest_even m l * B - A) <= B.
Proof.
  intros HB Hl. destruct l as [|[]]; simpl in *.
  - split; lia.
  - destruct (Z.even m); split; lia.
  - split; lia.
  - split; lia.
Qed.

Lemma fexp_normal e : -1021 <= e -> fexp 53 1024 e = e - 53.
Proof. intros He. unfold fexp, emin. lia. Qed.

Lemma Zdigits2_unique m d :
  0 < m -> 2 ^ (d - 1) <= m < 2 ^ d -> Zdigits2 m = d.
Proof.
  intros Hm Hd. destruct m as [|p|p]; try lia. simpl.
  apply digits2_unique, Hd.
Qed.

(** The rounding of a mantissa of [53 + n] bits in the range of the
    normal doubles: [n] bits are shifted out, the result is a mantissa
    of 53 bits at most half a unit away from the quotient, and a carry
    to 2^53 moves the exponent up by one more. *)
Lemma binary_round_aux_spec sx mx ex lx A B n :
  0 < B -> 0 <= n ->
  2 ^ (52 + n) <= mx < 2 ^ (53 + n) ->
  Double.located mx lx A B ->
  -1074 <= ex + n -> ex + n + 1 <= 971 ->
  exists m' sh,
    binary_round_aux 53 1024 sx mx ex lx = S754_finite sx m' (ex + sh)
    /\ (sh = n \/ sh = n + 1)
    /\ 2 ^ 52 <= Z.pos m' < 2 ^ 53
    /\ 2 * Z.abs (Z.pos m' * (2 ^ sh * B) - A) <= 2 ^ sh * B.
Proof.
  intros HB Hn Hmx Hl Hlo Hhi.
  assert (Hpn : 0 < 2 ^ n) by (apply Z.pow_pos_nonneg; lia).
  assert (Hmx0 : 0 < mx).
  { assert (0 < 2 ^ (52 + n)) by (apply Z.pow_pos_nonneg; lia). lia. }
  (* the first shift *)
  assert (Hfirst : exists mrs,
            shr_fexp 53 1024 mx ex lx = (mrs, ex + n)
            /\ Double.recorded mrs A (2 ^ n * B)
            /\ 2 ^ 52 <= shr_m mrs < 2 ^ 53).
  { unfold shr_fexp.
    rewrite (Zdigits2_unique mx (53 + n)) by
      (try lia; replace (53 + n - 1) with (52 + n) by lia; exact Hmx).
    rewrite fexp_normal by lia.
    replace (53 + n + ex - 53 - ex) with n by lia.
    pose proof (shr_record_of_loc_recorded mx lx A B ltac:(lia) Hl) as Hrec.
    assert (Hm0 : shr_m (shr_record_of_loc mx lx) = mx)
      by (destruct lx as [|[]]; reflexivity).
    destruct n as [|p|p]; [| |lia].
    - rewrite (Z.add_0_r ex). eexists. split; [reflexivity|]. split.
      + change (2 ^ 0) with 1. rewrite Z.mul_1_l. exact Hrec.
      + rewrite Hm0. rewrite !Z.add_0_r in Hmx. exact Hmx.
    - destruct (iter_shr_1_recorded p _ A B HB Hrec) as [Hr Hm].
      eexists. split; [reflexivity|]. split; [exact Hr|].
      rewrite Hm, Hm0. rewrite !Z.pow_add_r in Hmx by lia.
      split.
      + apply Z.div_le_lower_bound; lia.
      + apply Z.div_lt_upper_bound; lia. }
  destruct Hfirst as (mrs & Hs & [Hm1 Hl1] & Hrange).
  unfold binary_round_aux. rewrite Hs.
  assert (HB' : 0 < 2 ^ n * B) by lia.
  destruct (round_nearest_even_near _ _ A _ HB' Hl1) as [Hm2 Hnear].
  set (m2 := round_nearest_even (shr_m mrs) (loc_of_shr_record mrs)) in *.
  destruct (Z.ltb_spec m2 (2 ^ 53)) as [Hlt|Hge].
  - (* no carry *)
    unfold shr_fexp.
    rewrite (Zdigits2_unique m2 53) by (simpl; lia).
    rewrite fexp_normal by lia.
    replace (53 + (ex + n) - 53 - (ex + n)) with 0 by lia.
    cbn [shr iter_pos shr_record_of_loc shr_1 shr_m round_nearest_even
         loc_of_shr_record].
    destruct m2 as [|p2|p2] eqn:E2; try (exfalso; simpl in *; lia).
    replace (ex + n <=? 1024 - 53) with true by (symmetry; apply Z.leb_le; lia).
    exists p2, n. split; [reflexivity|]. split; [left; reflexivity|].
    split; [simpl in *; lia|]. exact Hnear.
  - (* the carry: 2^53 *)
    assert (Em2 : m2 = 2 ^ 53) by lia.
    unfold shr_fexp. rewrite Em2.
    change (2 ^ 53) with 9007199254740992.
    change (Zdigits2 9007199254740992) with 54.
    rewrite fexp_normal by lia.
    replace (54 + (ex + n) - 53 - (ex + n)) with 1 by lia.
    cbn [shr iter_pos shr_record_of_loc shr_1 shr_m round_nearest_even
         loc_of_shr_record].
    replace (ex + n + 1 <=? 1024 - 53) with true by (symmetry; apply Z.leb_le; lia).
    exists 4503599627370496%positive, (n + 1).
    split; [rewrite Z.add_assoc; reflexivity|].
    split; [right; reflexivity|]. split; [simpl; lia|].
    rewrite Z.pow_add_r by lia. change (2 ^ 1) with 2.
    rewrite Em2 in Hnear. change (2 ^ 53) with 9007199254740992 in Hnear.
    lia.
Qed.

(** *** The operands and the two operations *)

Lemma binary_round_aux_exact sx p e :
  2 ^ 52 <= Z.pos p < 2 ^ 53 -> -1074 <= e <= 971 ->
  binary_round_aux 53 1024 sx (Z.pos p) e loc_Exact = S754_finite sx p e.
Proof.
  intros Hp He. unfold binary_round_aux, shr_fexp.
  rewrite (Zdigits2_unique (Z.pos p) 53) by (simpl; lia).
  rewrite fexp_normal by lia.
  replace (53 + e - 53 - e) with 0 by lia.
  cbn [shr iter_pos shr_record_of_loc shr_1 shr_m round_nearest_even
       loc_of_shr_record].
  rewrite (Zdigits2_unique (Z.pos p) 53) by (simpl; lia).
  rewrite fexp_normal by lia.
  replace (53 + e - 53 - e) with 0 by lia.
  cbn [shr iter_pos shr_record_of_loc shr_1 shr_m].
  replace (e <=? 1024 - 53) with true by (symmetry; apply Z.leb_le; lia).
  reflexivity.
Qed.

Lemma iter_xO p k : Z.pos (Pos.iter xO p k) = Z.pos p * 2 ^ Z.pos k.
Proof.
  induction k as [|k IH] using Pos.peano_ind.
  - simpl. lia.
  - rewrite Pos.iter_succ, Pos2Z.inj_xO, IH, Pos2Z.inj_succ.
    rewrite Z.pow_succ_r by lia. lia.
Qed.

(** A positive integer below 2^53 is held exactly, with a mantissa of
    53 bits. *)
Lemma ofZ_spec z :
  0 < z < 2 ^ 53 ->
  exists m k,
    Double.ofZ z = S754_finite false m (- k)
    /\ 0 <= k <= 52
    /\ Z.pos m = z * 2 ^ k
    /\ 2 ^ 52 <= Z.pos m < 2 ^ 53.
Proof.
  intros [Hz0 Hz]. destruct z as [|p|p]; try lia.
  unfold Double.ofZ, Double.prec, Double.emax, binary_normalize, binary_round.
  pose proof (digits2_bounds p) as [Hlo Hhi].
  set (d := Z.pos (digits2_pos p)) in *.
  assert (Hd : 1 <= d <= 53).
  { split; [unfold d; lia|].
    destruct (Z.leb_spec d 53) as [|Hgt]; [assumption|exfalso].
    assert (2 ^ 53 <= 2 ^ (d - 1)) by (apply Z.pow_le_mono_r; lia). lia. }
  rewrite fexp_normal by lia.
  unfold shl_align.
  replace (d + 0 - 53 - 0) with (d - 53) by lia.
  destruct (d - 53) as [|q|q] eqn:Eq; try lia.
  - assert (E53 : d = 53) by lia. rewrite E53 in Hlo, Hhi.
    change (53 - 1) with 52 in Hlo.
    rewrite binary_round_aux_exact by lia.
    exists p, 0. repeat split; lia.
  - assert (Hq : Z.pos q = 53 - d) by lia.
    assert (Hm : Z.pos (Pos.iter xO p q) = Z.pos p * 2 ^ (53 - d))
      by (rewrite iter_xO, Hq; reflexivity).
    assert (Hrange : 2 ^ 52 <= Z.pos (Pos.iter xO p q) < 2 ^ 53).
    { rewrite Hm. split.
      - replace 52 with ((d - 1) + (53 - d)) by lia.
        rewrite Z.pow_add_r by lia.
        apply Z.mul_le_mono_nonneg_r; [apply Z.pow_nonneg; lia | exact Hlo].
      - replace 53 with (d + (53 - d)) at 2 by lia.
        rewrite Z.pow_add_r by lia.
        apply Z.mul_lt_mono_pos_r; [apply Z.pow_pos_nonneg; lia | exact Hhi]. }
    rewrite binary_round_aux_exact by (try exact Hrange; lia).
    exists (Pos.iter xO p q), (53 - d).
    split; [f_equal; lia|]. split; [lia|]. split; [exact Hm|exact Hrange].
Qed.

Lemma new_location_located q r A B :
  0 < B -> 0 <= r < B -> A = q * B + r ->
  Double.located q (new_location B r) A B.
Proof.
  intros HB Hr ->. unfold new_location.
  destruct (Z.even B) eqn:Heven.
  - unfold new_location_even.
    destruct (Z.eqb_spec r 0) as [->|Hr0]; [simpl; lia|].
    destruct (Z.compare_spec (2 * r) B); simpl; lia.
  - unfold new_location_odd.
    destruct (Z.eqb_spec r 0) as [->|Hr0]; [simpl; lia|].
    assert (Hodd : Z.odd B = true) by (rewrite <- Z.negb_even, Heven; reflexivity).
    apply Z.odd_spec in Hodd as [t Ht].
    destruct (Z.compare_spec (2 * r + 1) B); simpl; lia.
Qed.

(** The quotient of two normal doubles is the nearest double. *)
Lemma div_finite_spec m1 m2 a b :
  2 ^ 52 <= Z.pos m1 < 2 ^ 53 -> 2 ^ 52 <= Z.pos m2 < 2 ^ 53 ->
  0 <= a <= 52 -> 0 <= b <= 52 ->
  exists m' sh,
    Double.div (S754_finite false m1 (- a)) (S754_finite false m2 (- b))
    = S754_finite false m' (b - a - 53 + sh)
    /\ 0 <= sh <= 2
    /\ 2 ^ 52 <= Z.pos m' < 2 ^ 53
    /\ 2 * Z.abs (Z.pos m' * (2 ^ sh * Z.pos m2) - Z.pos m1 * 2 ^ 53)
       <= 2 ^ sh * Z.pos m2.
Proof.
  intros H1 H2 Ha Hb.
  unfold Double.div, Double.prec, Double.emax, SFdiv, SFdiv_core_binary.
  rewrite (Zdigits2_unique (Z.pos m1) 53) by (simpl; lia).
  rewrite (Zdigits2_unique (Z.pos m2) 53) by (simpl; lia).
  replace (53 + - a - (53 + - b)) with (b - a) by lia.
  rewrite fexp_normal by lia.
  replace (- a - - b) with (b - a) by lia.
  rewrite Z.min_l by lia.
  replace (b - a - (b - a - 53)) with 53 by lia.
  cbv beta iota zeta.
  rewrite Z.shiftl_mul_pow2 by lia.
  pose proof (Z.div_eucl_eq (Z.pos m1 * 2 ^ 53) (Z.pos m2) ltac:(lia)) as Heq.
  pose proof (Z.mod_pos_bound (Z.pos m1 * 2 ^ 53) (Z.pos m2) ltac:(lia)) as Hmod.
  unfold Z.modulo in Hmod.
  destruct (Z.div_eucl (Z.pos m1 * 2 ^ 53) (Z.pos m2)) as [q r].
  simpl xorb.
  assert (Hq : 2 ^ 52 <= q < 2 ^ 54).
  { change (2 ^ 53) with 9007199254740992 in *.
    change (2 ^ 52) with 4503599627370496 in *.
    change (2 ^ 54) with 18014398509481984. nia. }
  assert (Hloc : Double.located q (new_location (Z.pos m2) r)
                   (Z.pos m1 * 2 ^ 53) (Z.pos m2)).
  { apply new_location_located; lia. }
  destruct (Z.ltb_spec q (2 ^ 53)) as [Hlt|Hge].
  - destruct (binary_round_aux_spec false q (b - a - 53)
                (new_location (Z.pos m2) r) (Z.pos m1 * 2 ^ 53) (Z.pos m2) 0)
      as (m' & sh & Hr & Hsh & Hm' & Hnear); try lia; try exact Hloc.
    exists m', sh. split; [exact Hr|]. split; [lia|]. split; [exact Hm'|].
    exact Hnear.
  - destruct (binary_round_aux_spec false q (b - a - 53)
                (new_location (Z.pos m2) r) (Z.pos m1 * 2 ^ 53) (Z.pos m2) 1)
      as (m' & sh & Hr & Hsh & Hm' & Hnear); try lia; try exact Hloc.
    exists m', sh. split; [exact Hr|]. split; [lia|]. split; [exact Hm'|].
    exact Hnear.
Qed.

Lemma ofZ_100 : Double.ofZ 100 = S754_finite false 7036874417766400 (-46).
Proof. reflexivity. Qed.

(** The product with 100 is the nearest double. *)
Lemma mul_100_spec mq e :
  2 ^ 52 <= Z.pos mq < 2 ^ 53 -> -900 <= e <= 900 ->
  exists m' d,
    Double.mul (S754_finite false mq e) (Double.ofZ 100)
    = S754_finite false m' (e + d)
    /\ 6 <= d <= 8
    /\ 2 ^ 52 <= Z.pos m' < 2 ^ 53
    /\ 2 * Z.abs (Z.pos m' * 2 ^ d - 100 * Z.pos mq) <= 2 ^ d.
Proof.
  intros Hmq He. rewrite ofZ_100.
  unfold Double.mul, Double.prec, Double.emax, SFmul. simpl xorb.
  rewrite Pos2Z.inj_mul.
  set (P := Z.pos mq * 7036874417766400).
  assert (HP : 2 ^ 104 <= P < 2 ^ 106).
  { unfold P. change (2 ^ 52) with 4503599627370496 in *.
    change (2 ^ 53) with 9007199254740992 in *.
    change (2 ^ 104) with 20282409603651670423947251286016.
    change (2 ^ 106) with 81129638414606681695789005144064. lia. }
  assert (Hloc : Double.located P loc_Exact P 1) by (simpl; lia).
  assert (Hcase : exists n, (n = 52 \/ n = 53) /\ 2 ^ (52 + n) <= P < 2 ^ (53 + n)).
  { destruct (Z.ltb_spec P (2 ^ 105)).
    - exists 52. split; [left; reflexivity|]. simpl (52 + 52). simpl (53 + 52). lia.
    - exists 53. split; [right; reflexivity|]. simpl (52 + 53). simpl (53 + 53). lia. }
  destruct Hcase as (n & Hn & HPn).
  destruct (binary_round_aux_spec false P (e + -46) loc_Exact P 1 n)
    as (m' & sh & Hr & Hsh & Hm' & Hnear); try lia; try exact Hloc.
  exists m', (sh - 46). split; [rewrite Hr; f_equal; lia|].
  split; [lia|]. split; [exact Hm'|].
  assert (Hsplit : 2 ^ sh = 2 ^ (sh - 46) * 2 ^ 46).
  { rewrite <- Z.pow_add_r by lia. f_equal. lia. }
  rewrite Hsplit in Hnear. unfold P in Hnear.
  change 7036874417766400 with (100 * 2 ^ 46) in Hnear.
  assert (H46 : 0 < 2 ^ 46) by reflexivity.
  set (T := 2 ^ 46) in *. set (D := 2 ^ (sh - 46)) in *.
  nia.
Qed.

(** *** Printing *)

Lemma hundredths_spec m k :
  0 < k ->
  (2 * Double.hundredths m (- k) - 1) * 2 ^ k <= 200 * Z.pos m
  /\ 200 * Z.pos m < (2 * Double.hundredths m (- k) + 1) * 2 ^ k.
Proof.
  intros Hk. unfold Double.hundredths.
  replace (0 <=? - k) with false by (symmetry; apply Z.leb_gt; lia).
  rewrite Z.opp_involutive.
  replace (1 - - k) with (k + 1) by lia.
  rewrite Z.pow_add_r by lia. change (2 ^ 1) with 2.
  assert (HT : 0 < 2 ^ k) by (apply Z.pow_pos_nonneg; lia).
  set (T := 2 ^ k) in *.
  pose proof (Z.div_mod (200 * Z.pos m + T) (T * 2) ltac:(lia)) as Hdm.
  pose proof (Z.mod_pos_bound (200 * Z.pos m + T) (T * 2) ltac:(lia)) as Hmod.
  set (n := (200 * Z.pos m + T) / (T * 2)) in *. lia.
Qed.

(** The printed percentage is at most half a hundredth away from
    [100 * c / v]. The two roundings of the doubles move the value by
    less than the distance that separates [100 * c / v] from the
    nearest point halfway between two hundredths, unless it is on such
    a point. *)
Lemma percent_near numberToString c v :
  0 <= c <= 10 ^ 11 -> 0 < v < 2 ^ 53 ->
  exists n,
    Double.percentToFixed2 numberToString c v = Double.point2 n
    /\ 2 * Z.abs (n * v - 10000 * c) <= v.
Proof.
  intros Hc Hv. unfold Double.percentToFixed2.
  destruct (ofZ_spec v Hv) as (m2 & b & -> & Hb & Em2 & Hm2).
  destruct (Z.eq_dec c 0) as [->|Hc0].
  { exists 0. split; [reflexivity|lia]. }
  assert (Hc53 : 0 < c < 2 ^ 53).
  { change (10 ^ 11) with 100000000000 in Hc.
    change (2 ^ 53) with 9007199254740992. lia. }
  destruct (ofZ_spec c Hc53) as (m1 & a & -> & Ha & Em1 & Hm1).
  assert (Ha16 : 16 <= a).
  { destruct (Z.leb_spec 16 a) as [|Hlt]; [assumption|exfalso].
    assert (2 ^ a <= 2 ^ 15) by (apply Z.pow_le_mono_r; lia).
    change (10 ^ 11) with 100000000000 in Hc.
    change (2 ^ 15) with 32768 in *.
    change (2 ^ 52) with 4503599627370496 in *. nia. }
  destruct (div_finite_spec m1 m2 a b Hm1 Hm2 Ha Hb)
    as (mq & sh & -> & Hsh & Hmq & Hdiv).
  destruct (mul_100_spec mq (b - a - 53 + sh) Hmq ltac:(lia))
    as (mp & d & -> & Hd & Hmp & Hmul).
  set (k := - (b - a - 53 + sh + d)).
  assert (Hk : 7 <= k) by (unfold k; lia).
  replace (b - a - 53 + sh + d) with (- k) by (unfold k; lia).
  assert (HT : 0 < 2 ^ k) by (apply Z.pow_pos_nonneg; lia).
  unfold Double.toFixed2.
  replace (Double.atLeast1e21 mp (- k)) with false.
  2:{ symmetry. unfold Double.atLeast1e21.
      replace (0 <=? - k) with false by (symmetry; apply Z.leb_gt; lia).
      apply Z.leb_gt. replace (- - k) with k by lia.
      change (10 ^ 21) with 1000000000000000000000.
      change (2 ^ 53) with 9007199254740992 in Hmp. nia. }
  exists (Double.hundredths mp (- k)). split; [reflexivity|].
  pose proof (hundredths_spec mp k ltac:(lia)) as Hn.
  set (n := Double.hundredths mp (- k)) in *.
  (* the quotient, without the scaling of the operands *)
  assert (Hq : 2 * Z.abs (Z.pos mq * v - c * (2 ^ k * 2 ^ d)) <= v).
  { assert (Hpow : 2 ^ a * 2 ^ 53 = 2 ^ k * 2 ^ d * (2 ^ sh * 2 ^ b)).
    { rewrite <- !Z.pow_add_r by lia. f_equal. unfold k. lia. }
    rewrite Em1, Em2 in Hdiv.
    assert (HG : 0 < 2 ^ sh * 2 ^ b).
    { apply Z.mul_pos_pos; apply Z.pow_pos_nonneg; lia. }
    set (G := 2 ^ sh * 2 ^ b) in *.
    replace (Z.pos mq * (2 ^ sh * (v * 2 ^ b)))
      with (Z.pos mq * v * G) in Hdiv by (unfold G; lia).
    replace (c * 2 ^ a * 2 ^ 53) with (c * (2 ^ k * 2 ^ d) * G) in Hdiv
      by (rewrite <- (Z.mul_assoc c (2 ^ a) (2 ^ 53)), Hpow; lia).
    replace (2 ^ sh * (v * 2 ^ b)) with (v * G) in Hdiv by (unfold G; lia).
    rewrite <- Z.mul_sub_distr_r, Z.abs_mul, (Z.abs_eq G) in Hdiv by lia.
    apply (Z.mul_le_mono_pos_r _ _ G HG). lia. }
  set (T := 2 ^ k) in *.
  destruct Hn as [Hn1 Hn2].
  change (2 ^ 52) with 4503599627370496 in *.
  change (2 ^ 53) with 9007199254740992 in *.
  change (10 ^ 11) with 100000000000 in *.
  assert (HcT : c * T <= 100000000000 * T)
    by (apply Z.mul_le_mono_nonneg_r; lia).
  assert (Hmv : 4503599627370496 * v <= Z.pos mq * v)
    by (apply Z.mul_le_mono_nonneg_r; lia).
  assert (Hmul1 : 2 * (Z.pos mp * 2 ^ d - 100 * Z.pos mq) * v <= 2 ^ d * v)
    by (apply Z.mul_le_mono_nonneg_r; lia).
  assert (Hmul2 : 2 * (100 * Z.pos mq - Z.pos mp * 2 ^ d) * v <= 2 ^ d * v)
    by (apply Z.mul_le_mono_nonneg_r; lia).
  assert (Hn1v : (2 * n - 1) * T * v <= 200 * Z.pos mp * v)
    by (apply Z.mul_le_mono_nonneg_r; lia).
  assert (Hn2v : 200 * Z.pos mp * v < (2 * n + 1) * T * v)
    by (apply Z.mul_lt_mono_pos_r; lia).
  assert (Hq1 : 2 * (Z.pos mq * v - c * (T * 2 ^ d)) <= v) by lia.
  assert (Hq2 : 2 * (c * (T * 2 ^ d) - Z.pos mq * v) <= v) by lia.
  clear Hq Hmul Hdiv Hn1 Hn2.
  destruct (Z.le_gt_cases (2 * Z.abs (n * v - 10000 * c)) v) as [Hok|Hbad];
    [exact Hok|exfalso].
  assert (Hcase : 1 <= 2 * (n * v - 10000 * c) - v
                  \/ 1 <= 2 * (10000 * c - n * v) - v) by lia.
  clear Hbad.
  assert (Hd3 : d = 6 \/ d = 7 \/ d = 8) by lia.
  destruct Hcase as [Hgap|Hgap];
    apply (Z.mul_le_mono_nonneg_r _ _ (T * 2 ^ d)) in Hgap;
    try (apply Z.mul_nonneg_nonneg; [lia | apply Z.pow_nonneg; lia]);
    destruct Hd3 as [-> | [-> | ->]];
    change (2 ^ 6) with 64 in *; change (2 ^ 7) with 128 in *;
    change (2 ^ 8) with 256 in *; lia.
Qed.

(** A number of hundredths at most one half away from [100 * c / v] is
    the rounded one, or the one below it at a tie. *)
Lemma nearest_is_rounded n c v :
  0 < v -> 2 * Z.abs (n * v - 10000 * c) <= v ->
  n = roundedPercent c v \/ (n = roundedPercent c v - 1 /\ tie c v).
Proof.
  intros Hv Hn. unfold roundedPercent, tie.
  pose proof (Z.div_mod (20000 * c + v) (2 * v) ltac:(lia)) as Hdm.
  pose proof (Z.mod_pos_bound (20000 * c + v) (2 * v) ltac:(lia)) as Hmod.
  set (h := (20000 * c + v) / (2 * v)) in *.
  set (r := (20000 * c + v) mod (2 * v)) in *.
  assert (Hle : n <= h).
  { destruct (Z.le_gt_cases n h) as [|Hgt]; [assumption|exfalso].
    assert ((h + 1) * v <= n * v) by (apply Z.mul_le_mono_nonneg_r; lia).
    lia. }
  assert (Hge : h - 1 <= n).
  { destruct (Z.le_gt_cases (h - 1) n) as [|Hlt]; [assumption|exfalso].
    assert (n * v <= (h - 2) * v) by (apply Z.mul_le_mono_nonneg_r; lia).
    lia. }
  destruct (Z.eq_dec n h) as [->|Hne]; [left; reflexivity|right].
  assert (n = h - 1) by lia. subst n. split; [reflexivity|]. lia.
Qed.

(** *** The dashboard *)

(** C9, as the claim states it, fails: with 160 views and 23 clicks,
    [100 * 23 / 160] is 14.375, which rounds to 14.38; the quotient of
    the doubles times 100 lies below 14.375 and the dashboard reports
    "14.37". (It is not that a half goes down: 1 click on 800 views,
    0.125, is printed "0.13".) *)
Lemma conversion_rate_of_23_clicks_on_160_views :
  exists dash,
    getDashboardAnalytics (Double.percentToFixed2 Sample.noExponent) healthy
      (fixed Sample.day10) 7 Sample.storedJobs Sample.popular = Ok dash
    /\ totalJobViews dash = 160
    /\ totalJobClicks dash = 23
    /\ conversionRate dash = JsString "14.37"
    /\ 1000 * (100 * 23) = 14375 * 160
    /\ roundedPercent 23 160 = 1438
    /\ Double.point2 (roundedPercent 23 160) = "14.38"%string
    /\ conversionRate dash <> JsString (Double.point2 (roundedPercent 23 160))
    /\ Double.percentToFixed2 Sample.noExponent 1 800 = "0.13"%string
    /\ roundedPercent 1 800 = 13.
Proof.
  eexists. split; [vm_compute; reflexivity|].
  repeat split; try reflexivity. vm_compute. discriminate.
Qed.

(** C9, amended: the conversion rate of a dashboard is the number 0 when
    totalJobViews is 0; otherwise, for counts that doubles hold exactly
    and up to 10^11 clicks, it is the string of a value of two decimals
    at most 0.005 away from 100 * totalJobClicks / totalJobViews: that
    quotient rounded to 2 decimals, a half going up, except that when
    the quotient lies exactly halfway between two values of 2 decimals
    the lower one may be printed. *)
Theorem conversion_rate_is_a_nearest_hundredth
    (numberToString : spec_float -> string) (flt : Faults) (clk : Clock)
    (days : Z) (jobs : gmap nat StoredJob) (coll : list Analytics)
    (dash : Dashboard) :
  getDashboardAnalytics (Double.percentToFixed2 numberToString) flt clk days
    jobs coll = Ok dash ->
  (totalJobViews dash <= 0 -> conversionRate dash = JsNumber 0)
  /\ (0 < totalJobViews dash < 2 ^ 53 ->
      0 <= totalJobClicks dash <= 10 ^ 11 ->
      exists n,
        conversionRate dash = JsString (Double.point2 n)
        /\ 2 * Z.abs (n * totalJobViews dash - 10000 * totalJobClicks dash)
           <= totalJobViews dash
        /\ (n = roundedPercent (totalJobClicks dash) (totalJobViews dash)
            \/ (n = roundedPercent (totalJobClicks dash) (totalJobViews dash) - 1
                /\ tie (totalJobClicks dash) (totalJobViews dash)))).
Proof.
  unfold getDashboardAnalytics.
  destruct (getAnalyticsForDateRange _ _ _ _ _) as [analytics|e]; simpl;
    [|discriminate].
  intros [= <-]; simpl.
  set (views := fold_left _ analytics 0).
  set (clicks := fold_left _ analytics 0).
  split.
  - intros Hviews.
    replace (0 <? views) with false by (symmetry; apply Z.ltb_ge; lia).
    reflexivity.
  - intros Hviews Hclicks.
    replace (0 <? views) with true by (symmetry; apply Z.ltb_lt; lia).
    destruct (percent_near numberToString clicks views Hclicks Hviews)
      as (n & Hprint & Hnear).
    exists n. split; [rewrite Hprint; reflexivity|]. split; [exact Hnear|].
    apply nearest_is_rounded; [lia | exact Hnear].
Qed.

Lemma conversion_rate_witness :
  exists dash n,
    getDashboardAnalytics (Double.percentToFixed2 Sample.noExponent) healthy
      (fixed Sample.day10) 7 Sample.storedJobs Sample.popular = Ok dash
    /\ totalJobViews dash = 160
    /\ totalJobClicks dash = 23
    /\ conversionRate dash = JsString (Double.point2 n)
    /\ 2 * Z.abs (n * 160 - 10000 * 23) <= 160
    /\ (n = roundedPercent 23 160
        \/ (n = roundedPercent 23 160 - 1 /\ tie 23 160)).
Proof.
  assert (Hrun : exists dash,
            getDashboardAnalytics (Double.percentToFixed2 Sample.noExponent)
              healthy (fixed Sample.day10) 7 Sample.storedJobs Sample.popular
            = Ok dash
            /\ totalJobViews dash = 160 /\ totalJobClicks dash = 23).
  { eexists. split; [vm_compute; reflexivity|]. split; reflexivity. }
  destruct Hrun as (dash & Hrun & Hviews & Hclicks).
  destruct (conversion_rate_is_a_nearest_hundredth
              Sample.noExponent healthy (fixed Sample.day10) 7
              Sample.storedJobs Sample.popular dash Hrun) as [_ Hrate].
  rewrite Hviews, Hclicks in Hrate.
  destruct Hrate as (n & Hn); [split; reflexivity | split; discriminate|].
  exists dash, n. split; [exact Hrun|]. split; [exact Hviews|].
  split; [exact Hclicks|]. exact Hn.
Defined.

End ConversionFacts.

(** ** The public routes *)

Module RouteFacts.

Import JobModel Routes.

(** A failed visit record does not reach the route: the handler runs on
    the state as it was. *)
Lemma trackAnalytics_swallows flt clk req next st e :
  AnalyticsModel.recordWebsiteVisit flt clk req (analyticsDb st) = Throw e ->
  trackAnalytics flt clk req next st = next st.
Proof. intros H. unfold trackAnalytics. rewrite H. reflexivity. Qed.

Lemma recordJobView_rejected flt clk id coll :
  AnalyticsModel.saveFails flt = true ->
  exists e, AnalyticsModel.recordJobView flt clk id coll = Throw e.
Proof.
  intros Hs. unfold AnalyticsModel.recordJobView, AnalyticsModel.findOne,
    AnalyticsModel.save.
  destruct (AnalyticsModel.findFails flt); simpl; [eauto|].
  destruct (list_find _ coll) as [[i a]|]; simpl; rewrite Hs; eauto.
Qed.

Lemma recordJobClick_rejected flt clk id coll :
  AnalyticsModel.saveFails flt = true ->
  exists e, AnalyticsModel.recordJobClick flt clk id coll = Throw e.
Proof.
  intros Hs. unfold AnalyticsModel.recordJobClick, AnalyticsModel.findOne,
    AnalyticsModel.save.
  destruct (AnalyticsModel.findFails flt); simpl; [eauto|].
  destruct (list_find _ coll) as [[i a]|]; simpl; rewrite Hs; eauto.
Qed.

(** Whenever the analytics write is rejected, a request for a job that
    is shown is answered 500, and so is a click on it. *)
Lemma getJobHandler_aborts flt clk id st job :
  jobs st !! id = Some job ->
  shown job = true ->
  AnalyticsModel.saveFails flt = true ->
  (getJobHandler flt clk id st).1
  = {| statusCode := 500; body := MessageJson "Error fetching job" |}.
Proof.
  intros Hj Hshown Hs. unfold getJobHandler, findById. rewrite Hj, Hshown.
  simpl.
  destruct (recordJobView_rejected flt (later clk) id (analyticsDb st) Hs)
    as [e ->].
  reflexivity.
Qed.

Lemma postClick_aborts flt clk id st job :
  jobs st !! id = Some job ->
  shown job = true ->
  AnalyticsModel.saveFails flt = true ->
  (postClick flt clk id st).1
  = {| statusCode := 500; body := MessageJson "Error recording click" |}.
Proof.
  intros Hj Hshown Hs. unfold postClick, findById. rewrite Hj, Hshown.
  simpl.
  destruct (recordJobClick_rejected flt (later clk) id (analyticsDb st) Hs)
    as [e ->].
  reflexivity.
Qed.

(** C3, on a site with one active job whose analytics store rejects
    writes: the failed visit record is swallowed by the middleware, but
    the failed view record turns GET /:id into a 500 and the failed
    click record turns POST /:id/click into a 500, where the same
    requests on a healthy store return the job and the hiring link. *)
Theorem analytics_failure_aborts_job_view_and_click :
  (getJob Sample.readOnly (fixed 100) (fixed 100) Sample.phone 1%nat
          Sample.site).1
    = {| statusCode := 500; body := MessageJson "Error fetching job" |}
  /\ (postClick Sample.readOnly (fixed 100) 1%nat Sample.site).1
    = {| statusCode := 500; body := MessageJson "Error recording click" |}
  /\ (getJob AnalyticsModel.healthy (fixed 100) (fixed 100) Sample.phone
             1%nat Sample.site).1
    = {| statusCode := 200;
         body := JobJson (incrementViews (fixed 100) Sample.posted) |}
  /\ (postClick AnalyticsModel.healthy (fixed 100) 1%nat Sample.site).1
    = {| statusCode := 200;
         body := ClickJson "Click recorded" "https://acme.example/apply" |}.
Proof. repeat split. Qed.

(** *** What the public handlers count *)

(** X20: GET /:id (after the middleware) and POST /:id/click answer 404
    'Job not found' and change neither the jobs nor the analytics when
    the id has no job, or a job whose status is not active, or a job
    with isActive false; this holds whatever the state of the analytics
    store. *)
Theorem public_routes_hide_jobs_that_are_not_active
    (flt : AnalyticsModel.Faults) (clk : Clock) (id : nat) (st : State) :
  (forall job, jobs st !! id = Some job ->
     status job <> active \/ isActive job = false) ->
  getJobHandler flt clk id st
    = ({| statusCode := 404; body := MessageJson "Job not found" |}, st)
  /\ postClick flt clk id st
    = ({| statusCode := 404; body := MessageJson "Job not found" |}, st).
Proof.
  intros Hhidden. unfold getJobHandler, postClick, findById.
  destruct (jobs st !! id) as [job|] eqn:Hj; [|split; reflexivity].
  assert (Hs : shown job = false).
  { unfold shown. destruct (Hhidden job eq_refl) as [Hna|Hia].
    - destruct (status job); try reflexivity. congruence.
    - rewrite Hia. apply andb_false_r. }
  rewrite Hs. split; reflexivity.
Qed.

Lemma public_routes_hide_witness :
  getJobHandler Sample.readOnly (fixed 100) 1%nat Sample.shelved
    = ({| statusCode := 404; body := MessageJson "Job not found" |},
       Sample.shelved)
  /\ postClick Sample.readOnly (fixed 100) 1%nat Sample.shelved
    = ({| statusCode := 404; body := MessageJson "Job not found" |},
       Sample.shelved).
Proof.
  apply (public_routes_hide_jobs_that_are_not_active
           Sample.readOnly (fixed 100) 1%nat Sample.shelved).
  intros job Hjob. vm_compute in Hjob. injection Hjob as <-.
  left. discriminate.
Defined.

(** X21: on a healthy store, the handler of GET /:id for a job that is
    active and has isActive true answers 200 with the job, whose views
    are one more than before; the stored job is that job, still active,
    and the count of the job among the job views of the bucket of the
    day is one more than before. *)
Theorem served_job_is_counted_once
    (clk : Clock) (id : nat) (st : State) (job : Job) :
  jobs st !! id = Some job ->
  status job = active ->
  isActive job = true ->
  exists coll' after,
    getJobHandler AnalyticsModel.healthy clk id st
    = ({| statusCode := 200; body := JobJson (incrementViews clk job) |},
       {| jobs := <[id := incrementViews clk job]> (jobs st);
          analyticsDb := coll' |})
    /\ views (analytics (incrementViews clk job)) = views (analytics job) + 1
    /\ status (incrementViews clk job) = active
    /\ AnalyticsModel.bucketOn (startOfDay (clk 1%nat)) coll' = Some after
    /\ AnalyticsModel.countFor id (AnalyticsModel.jobViews after)
       = AnalyticsModel.countFor id (AnalyticsModel.jobViews
                        (default (AnalyticsModel.newAnalytics (startOfDay (clk 1%nat)))
                                 (AnalyticsModel.bucketOn (startOfDay (clk 1%nat)) (analyticsDb st))))
         + 1.
Proof.
  intros Hj Hact Hia. unfold getJobHandler, findById, save.
  rewrite Hj. unfold shown. rewrite Hact, Hia. simpl.
  unfold AnalyticsModel.recordJobView. cbn zeta.
  change (later clk 0%nat) with (clk 1%nat).
  destruct (AnalyticsFacts.record_bucketOn (startOfDay (clk 1%nat)) (AnalyticsModel.view id)
              (analyticsDb st)) as (coll' & -> & Hb & _); [reflexivity|].
  eexists coll', _. split; [reflexivity|]. split; [reflexivity|].
  split; [exact Hact|]. split; [exact Hb|].
  apply (AnalyticsFacts.bump_counts id).
Qed.

Lemma served_job_witness :
  exists coll' after,
    getJobHandler AnalyticsModel.healthy (fixed Sample.day9) 1%nat Sample.site
    = ({| statusCode := 200;
          body := JobJson (incrementViews (fixed Sample.day9) Sample.posted) |},
       {| jobs := <[1%nat := incrementViews (fixed Sample.day9) Sample.posted]>
                    (jobs Sample.site);
          analyticsDb := coll' |})
    /\ views (analytics (incrementViews (fixed Sample.day9) Sample.posted))
       = views (analytics Sample.posted) + 1
    /\ status (incrementViews (fixed Sample.day9) Sample.posted) = active
    /\ AnalyticsModel.bucketOn (startOfDay (fixed Sample.day9 1%nat)) coll'
       = Some after
    /\ AnalyticsModel.countFor 1%nat (AnalyticsModel.jobViews after)
       = AnalyticsModel.countFor 1%nat
           (AnalyticsModel.jobViews
              (default (AnalyticsModel.newAnalytics
                          (startOfDay (fixed Sample.day9 1%nat)))
                       (AnalyticsModel.bucketOn
                          (startOfDay (fixed Sample.day9 1%nat))
                          (analyticsDb Sample.site))))
         + 1.
Proof.
  apply (served_job_is_counted_once
           (fixed Sample.day9) 1%nat Sample.site Sample.posted);
    reflexivity.
Defined.

(** X22: on a healthy store, POST /:id/click for a job that is active and
    has isActive true answers 200 with the hiring link of the job; the
    stored job has one click more and the same views, and the count of
    the job among the job clicks of the bucket of the day is one more
    than before. *)
Theorem recorded_click_is_counted_once
    (clk : Clock) (id : nat) (st : State) (job : Job) :
  jobs st !! id = Some job ->
  status job = active ->
  isActive job = true ->
  exists coll' after,
    postClick AnalyticsModel.healthy clk id st
    = ({| statusCode := 200;
          body := ClickJson "Click recorded" (hiringLink (details job)) |},
       {| jobs := <[id := incrementClicks clk job]> (jobs st);
          analyticsDb := coll' |})
    /\ clicks (analytics (incrementClicks clk job)) = clicks (analytics job) + 1
    /\ views (analytics (incrementClicks clk job)) = views (analytics job)
    /\ AnalyticsModel.bucketOn (startOfDay (clk 1%nat)) coll' = Some after
    /\ AnalyticsModel.countFor id (AnalyticsModel.jobClicks after)
       = AnalyticsModel.countFor id (AnalyticsModel.jobClicks
                        (default (AnalyticsModel.newAnalytics (startOfDay (clk 1%nat)))
                                 (AnalyticsModel.bucketOn (startOfDay (clk 1%nat)) (analyticsDb st))))
         + 1.
Proof.
  intros Hj Hact Hia. unfold postClick, findById, save.
  rewrite Hj. unfold shown. rewrite Hact, Hia. simpl.
  unfold AnalyticsModel.recordJobClick. cbn zeta.
  change (later clk 0%nat) with (clk 1%nat).
  destruct (AnalyticsFacts.record_bucketOn (startOfDay (clk 1%nat)) (AnalyticsModel.click id)
              (analyticsDb st)) as (coll' & -> & Hb & _); [reflexivity|].
  eexists coll', _. split; [reflexivity|]. split; [reflexivity|].
  split; [reflexivity|]. split; [exact Hb|].
  apply (AnalyticsFacts.bump_counts id).
Qed.

Lemma recorded_click_witness :
  exists coll' after,
    postClick AnalyticsModel.healthy (fixed Sample.day9) 1%nat Sample.site
    = ({| statusCode := 200;
          body := ClickJson "Click recorded" (hiringLink (details Sample.posted)) |},
       {| jobs := <[1%nat := incrementClicks (fixed Sample.day9) Sample.posted]>
                    (jobs Sample.site);
          analyticsDb := coll' |})
    /\ clicks (analytics (incrementClicks (fixed Sample.day9) Sample.posted))
       = clicks (analytics Sample.posted) + 1
    /\ views (analytics (incrementClicks (fixed Sample.day9) Sample.posted))
       = views (analytics Sample.posted)
    /\ AnalyticsModel.bucketOn (startOfDay (fixed Sample.day9 1%nat)) coll'
       = Some after
    /\ AnalyticsModel.countFor 1%nat (AnalyticsModel.jobClicks after)
       = AnalyticsModel.countFor 1%nat
           (AnalyticsModel.jobClicks
              (default (AnalyticsModel.newAnalytics
                          (startOfDay (fixed Sample.day9 1%nat)))
                       (AnalyticsModel.bucketOn
                          (startOfDay (fixed Sample.day9 1%nat))
                          (analyticsDb Sample.site))))
         + 1.
Proof.
  apply (recorded_click_is_counted_once
           (fixed Sample.day9) 1%nat Sample.site Sample.posted);
    reflexivity.
Defined.

End RouteFacts.

(** ** Admin accounts and the guards of the routes *)

Module AdminFacts.

Import AdminModel.

Example replaceFirst_bearer :
  replaceFirst "Bearer " "" "Bearer abc.def" = "abc.def"%string
  /\ replaceFirst "Bearer " "" "abc" = "abc"%string
  /\ replaceFirst "Bearer " "" "x Bearer y" = "x y"%string.
Proof. repeat split. Qed.

Section Password.

Variable bcryptCompare : string -> string -> bool.

Lemma comparePassword_consistent clk cand a :
  lockConsistent a ->
  lockConsistent (afterCompare a (comparePassword bcryptCompare clk cand a)).
Proof.
  intros [Hpos Hiff]. unfold comparePassword.
  destruct (isLocked clk a); [split; assumption|].
  destruct (bcryptCompare cand (password a)).
  - destruct (0 <? loginAttempts a) eqn:Hn; simpl; [|split; assumption].
    split; simpl; [lia|]. split; [congruence|lia].
  - simpl. split; simpl; [lia|].
    destruct (5 <=? loginAttempts a + 1) eqn:H5.
    + apply Z.leb_le in H5. split; [intros _; exact H5 | discriminate].
    + apply Z.leb_gt in H5. split.
      * intros Hl. apply Hiff in Hl. lia.
      * intros Hl. lia.
Qed.

Lemma comparePassword_keeps_identity clk cand a :
  let a' := afterCompare a (comparePassword bcryptCompare clk cand a) in
  username a' = username a /\ email a' = email a /\ password a' = password a
  /\ role a' = role a /\ isActive a' = isActive a
  /\ permissions a' = permissions a.
Proof.
  unfold comparePassword.
  destruct (isLocked clk a); [repeat split|].
  destruct (bcryptCompare cand (password a)); [|repeat split].
  destruct (0 <? loginAttempts a); repeat split.
Qed.

(** X23: over any sequence of password checks on an account that starts
    with no failed attempt and no lock, lockUntil is set exactly when
    loginAttempts is at least 5, loginAttempts is never negative, and
    the checks change neither the password, the role, isActive nor the
    permissions. *)
Theorem lock_is_set_exactly_from_five_failures
    (tries : list (Clock * string)) (a : Admin) :
  loginAttempts a = 0 ->
  lockUntil a = None ->
  let a' := runChecks bcryptCompare tries a in
  0 <= loginAttempts a'
  /\ (lockUntil a' <> None <-> 5 <= loginAttempts a')
  /\ password a' = password a
  /\ role a' = role a
  /\ isActive a' = isActive a
  /\ permissions a' = permissions a.
Proof.
  intros H0 Hnone. unfold runChecks.
  assert (Hgen : forall b, lockConsistent b ->
            let b' := fold_left
                        (fun a t => afterCompare a
                                      (comparePassword bcryptCompare t.1 t.2 a))
                        tries b in
            lockConsistent b' /\ password b' = password b /\ role b' = role b
            /\ isActive b' = isActive b /\ permissions b' = permissions b).
  { induction tries as [|[clk cand] tries IH]; intros b Hb; simpl; [auto|].
    destruct (IH _ (comparePassword_consistent clk cand b Hb))
      as (Hc & Hp & Hr & Hi & Hm).
    destruct (comparePassword_keeps_identity clk cand b)
      as (_ & _ & Hp' & Hr' & Hi' & Hm').
    split; [exact Hc|]. repeat split; congruence. }
  destruct (Hgen a) as ([Hpos Hiff] & Hrest).
  { split; [lia|]. rewrite H0, Hnone. split; [congruence|lia]. }
  simpl. repeat split; try tauto; apply Hiff.
Qed.

(** X24: a failed check on an unlocked account that already has at least
    four failed attempts (the fifth failure in a row, or any failure
    after a lock has expired) sets lockUntil to the time of the check
    plus 30 minutes; until then every check is refused as locked,
    whatever the candidate, the right password included. *)
Theorem failed_check_from_four_failures_locks_for_30_minutes
    (clk : Clock) (cand : string) (a : Admin) :
  4 <= loginAttempts a ->
  isLocked clk a = false ->
  bcryptCompare cand (password a) = false ->
  exists a',
    comparePassword bcryptCompare clk cand a = Mismatched a'
    /\ loginAttempts a' = loginAttempts a + 1
    /\ lockUntil a' = Some (clk 1%nat + 30 * 60 * 1000)
    /\ forall clk' cand',
         clk' 0%nat < clk 1%nat + 30 * 60 * 1000 ->
         comparePassword bcryptCompare clk' cand' a' = Locked.
Proof.
  intros H4 Hunlocked Hbad. unfold comparePassword.
  rewrite Hunlocked, Hbad. cbn zeta.
  assert (H5 : (5 <=? loginAttempts a + 1) = true) by (apply Z.leb_le; lia).
  rewrite H5. eexists; split; [reflexivity|].
  split; [reflexivity|]. split; [reflexivity|].
  intros clk' cand' Hbefore. unfold isLocked. cbn [lockUntil].
  unfold lockTime.
  rewrite (proj2 (Z.ltb_lt _ _) Hbefore). reflexivity.
Qed.

(** X25: from an account with no failed attempt and no lock, fewer than
    five failed checks in a row leave the account unlocked, with
    loginAttempts equal to their number. *)
Theorem fewer_than_five_failures_do_not_lock
    (tries : list (Clock * string)) (a : Admin) :
  loginAttempts a = 0 ->
  lockUntil a = None ->
  Forall (fun t => bcryptCompare t.2 (password a) = false) tries ->
  (length tries < 5)%nat ->
  loginAttempts (runChecks bcryptCompare tries a) = Z.of_nat (length tries)
  /\ lockUntil (runChecks bcryptCompare tries a) = None.
Proof.
  intros H0 Hnone Hbad Hlen. unfold runChecks.
  assert (Hgen : forall b n,
            password b = password a ->
            lockUntil b = None ->
            loginAttempts b = Z.of_nat n ->
            (n + length tries < 5)%nat ->
            let b' := fold_left
                        (fun a t => afterCompare a
                                      (comparePassword bcryptCompare t.1 t.2 a))
                        tries b in
            loginAttempts b' = Z.of_nat (n + length tries)
            /\ lockUntil b' = None).
  { clear Hlen.
    induction Hbad as [|[clk cand] tries Hwrong _ IH]; intros b n Hp Hl Hn Hlt.
    - simpl. rewrite Nat.add_0_r. auto.
    - simpl in Hlt. cbn [fold_left].
      assert (Hstep : comparePassword bcryptCompare clk cand b
                      = Mismatched
                          {| username := username b; email := email b;
                             password := password b; role := role b;
                             isActive := isActive b; createdBy := createdBy b;
                             lastLogin := lastLogin b;
                             loginAttempts := loginAttempts b + 1;
                             lockUntil := None;
                             permissions := permissions b |}).
      { unfold comparePassword, isLocked. rewrite Hl, Hp. simpl in Hwrong.
        rewrite Hwrong. cbn zeta.
        assert (H5 : (5 <=? loginAttempts b + 1) = false)
          by (apply Z.leb_gt; lia).
        rewrite H5. reflexivity. }
      cbn [fst snd]. rewrite Hstep. cbn [afterCompare].
      cbn [length].
      replace (n + S (length tries))%nat with (S n + length tries)%nat by lia.
      match goal with |- context [fold_left _ tries ?b0] =>
        pose proof (IH b0 (S n)) as IH' end.
      cbv zeta in IH'. apply IH'; simpl; [exact Hp | reflexivity | lia | lia]. }
  destruct (Hgen a 0%nat) as [Ha Hb]; auto; simpl; lia.
Qed.

End Password.

Lemma lock_is_set_witness :
  0 <= loginAttempts (runChecks Sample.plainCompare Sample.sixWrong Sample.editor)
  /\ (lockUntil (runChecks Sample.plainCompare Sample.sixWrong Sample.editor)
        <> None
      <-> 5 <= loginAttempts
                 (runChecks Sample.plainCompare Sample.sixWrong Sample.editor))
  /\ password (runChecks Sample.plainCompare Sample.sixWrong Sample.editor)
     = password Sample.editor
  /\ role (runChecks Sample.plainCompare Sample.sixWrong Sample.editor)
     = role Sample.editor
  /\ isActive (runChecks Sample.plainCompare Sample.sixWrong Sample.editor)
     = isActive Sample.editor
  /\ permissions (runChecks Sample.plainCompare Sample.sixWrong Sample.editor)
     = permissions Sample.editor.
Proof.
  apply (lock_is_set_exactly_from_five_failures
           Sample.plainCompare Sample.sixWrong Sample.editor);
    reflexivity.
Defined.

Lemma failed_check_locks_witness :
  exists a',
    comparePassword Sample.plainCompare (fixed 5000) "guess" Sample.shaky
    = Mismatched a'
    /\ loginAttempts a' = loginAttempts Sample.shaky + 1
    /\ lockUntil a' = Some (fixed 5000 1%nat + 30 * 60 * 1000)
    /\ forall clk' cand',
         clk' 0%nat < fixed 5000 1%nat + 30 * 60 * 1000 ->
         comparePassword Sample.plainCompare clk' cand' a' = Locked.
Proof.
  apply (failed_check_from_four_failures_locks_for_30_minutes
           Sample.plainCompare (fixed 5000) "guess" Sample.shaky).
  - vm_compute. discriminate.
  - reflexivity.
  - reflexivity.
Defined.

Lemma fewer_than_five_failures_witness :
  loginAttempts (runChecks Sample.plainCompare Sample.fourWrong Sample.editor)
  = Z.of_nat (length Sample.fourWrong)
  /\ lockUntil (runChecks Sample.plainCompare Sample.fourWrong Sample.editor)
     = None.
Proof.
  apply (fewer_than_five_failures_do_not_lock
           Sample.plainCompare Sample.fourWrong Sample.editor).
  - reflexivity.
  - reflexivity.
  - repeat constructor.
  - simpl. lia.
Defined.

Section Guard.

Variable jwtVerify : string -> Verified.

(** X26: the status route with its middlewares changes the job
    collection only when the Authorization header carries a token that
    verifies to an existing admin who is active, not locked, and is the
    main admin or has canCreateJobs; the change is then the one of the
    handler. *)
Theorem status_route_changes_jobs_only_for_an_authorised_admin
    (clkAuth clk : Clock) (header : option string) (id : nat)
    (newStatus : string) (admins : gmap nat Admin)
    (db : gmap nat JobModel.Job) :
  (putStatusRoute jwtVerify clkAuth clk header id newStatus admins db).2 <> db ->
  (exists token adminId a,
     bearerToken header = Some token
     /\ jwtVerify token = Decoded adminId
     /\ admins !! adminId = Some a
     /\ isActive a = true
     /\ isLocked clkAuth a = false
     /\ (role a = main_admin \/ canCreateJobs (permissions a) = true))
  /\ (putStatusRoute jwtVerify clkAuth clk header id newStatus admins db).2
     = (JobModel.putStatus clk id newStatus db).2.
Proof.
  unfold putStatusRoute, authenticateAdmin, requirePermission.
  destruct (bearerToken header) as [token|]; simpl; [|congruence].
  destruct (String.eqb token ""); simpl; [congruence|].
  destruct (jwtVerify token) as [adminId| | |] eqn:Hv; simpl; try congruence.
  destruct (admins !! adminId) as [a|] eqn:Ha; simpl; [|congruence].
  destruct (isActive a) eqn:Hact; simpl; [|congruence].
  destruct (isLocked clkAuth a) eqn:Hlock; simpl; [congruence|].
  destruct (role a) eqn:Hrole; simpl.
  - destruct (JobModel.putStatus clk id newStatus db) as [reply db'] eqn:Hp.
    simpl. intros _. split; [|reflexivity].
    exists token, adminId, a. repeat split; auto.
  - destruct (canCreateJobs (permissions a)) eqn:Hperm; simpl; [|congruence].
    destruct (JobModel.putStatus clk id newStatus db) as [reply db'] eqn:Hp.
    simpl. intros _. split; [|reflexivity].
    exists token, adminId, a. repeat split; auto.
Qed.

End Guard.

Lemma status_route_guard_witness :
  (exists token adminId a,
     bearerToken (Some "Bearer tok-editor"%string) = Some token
     /\ Sample.verify token = Decoded adminId
     /\ Sample.staff !! adminId = Some a
     /\ isActive a = true
     /\ isLocked (fixed 100) a = false
     /\ (role a = main_admin \/ canCreateJobs (permissions a) = true))
  /\ (putStatusRoute Sample.verify (fixed 100) (fixed 200)
        (Some "Bearer tok-editor"%string) 1%nat "dump" Sample.staff
        Sample.oneJob).2
     = (JobModel.putStatus (fixed 200) 1%nat "dump" Sample.oneJob).2.
Proof.
  apply (status_route_changes_jobs_only_for_an_authorised_admin
           Sample.verify (fixed 100) (fixed 200)
           (Some "Bearer tok-editor"%string) 1%nat "dump" Sample.staff
           Sample.oneJob).
  intros Heq. apply (f_equal (fun db => JobModel.status <$> db !! 1%nat)) in Heq.
  vm_compute in Heq. discriminate.
Defined.

Section Login.

Variable bcryptCompare : string -> string -> bool.
Variable toLowerCase : string -> string.
Variable generateToken : nat -> string.

Lemma findOneByEmail_Some e (admins : gmap nat Admin) id a :
  findOneByEmail e admins = Some (id, a) ->
  admins !! id = Some a /\ email a = e.
Proof.
  unfold findOneByEmail. intros Hf.
  apply fmap_Some in Hf as ([i [id' a']] & Hfind & Heq).
  simpl in Heq. injection Heq as -> ->.
  apply list_find_Some in Hfind as (Hi & He & _).
  split; [|exact He].
  apply elem_of_map_to_list. eapply list_elem_of_lookup_2. exact Hi.
Qed.

(** X27: the login route issues a token only when both fields are
    present, an admin has the lower-cased email, is active and not
    locked, and the password matches; the token is the one generated for
    that admin, lastLogin is stamped and the failed attempts are
    cleared. *)
Theorem login_issues_a_token_only_on_a_matching_password
    (clk : Clock) (emailField passwordField : option string)
    (admins admins' : gmap nat Admin) (token : string) (id : nat) (a' : Admin) :
  login bcryptCompare toLowerCase generateToken clk emailField passwordField admins
  = (LoggedIn token id a', admins') ->
  exists email0 password0 a,
    emailField = Some email0 /\ passwordField = Some password0
    /\ admins !! id = Some a
    /\ email a = toLowerCase email0
    /\ isActive a = true
    /\ isLocked clk a = false
    /\ bcryptCompare password0 (password a) = true
    /\ token = generateToken id
    /\ (0 <= loginAttempts a -> loginAttempts a' = 0)
    /\ lastLogin a' = Some (clk 1%nat)
    /\ admins' = <[id := a']> admins.
Proof.
  unfold login, present.
  destruct emailField as [e|]; [|discriminate].
  destruct (String.eqb e ""); [discriminate|].
  destruct passwordField as [p|]; [|discriminate].
  destruct (String.eqb p ""); [discriminate|].
  destruct (findOneByEmail (toLowerCase e) admins) as [[id0 a]|] eqn:Hf;
    [|discriminate].
  apply findOneByEmail_Some in Hf as [Ha He].
  destruct (isActive a) eqn:Hact; simpl; [|discriminate].
  unfold comparePassword.
  destruct (isLocked clk a) eqn:Hlock; [discriminate|].
  destruct (bcryptCompare p (password a)) eqn:Hm; [|discriminate].
  destruct (0 <? loginAttempts a) eqn:Hn; intros [= <- <- <- <-];
    exists e, p, a; repeat split; auto.
  simpl. apply Z.ltb_ge in Hn. lia.
Qed.

(** X28: a login that lacks a field is answered 400, one with an unknown
    email 401, one on a deactivated account 401 and one on a locked
    account 423, and each returns the admin collection as it was. A
    wrong password on the account that has the lower-cased email, when
    that account is active and not locked, is answered 401 and stores
    that account under its own id with loginAttempts one higher and,
    from the fifth failure on, a lock of 30 minutes; its other fields
    are as before. *)
Theorem refused_login_counts_only_a_wrong_password
    (clk : Clock) (emailField passwordField : option string)
    (admins : gmap nat Admin) :
  (present emailField = None \/ present passwordField = None ->
   login bcryptCompare toLowerCase generateToken clk emailField passwordField
         admins
   = (LoginRefused 400 "Email and password are required", admins))
  /\ (forall email0 password0,
        present emailField = Some email0 ->
        present passwordField = Some password0 ->
        (findOneByEmail (toLowerCase email0) admins = None ->
         login bcryptCompare toLowerCase generateToken clk emailField
               passwordField admins
         = (LoginRefused 401 "Invalid credentials", admins))
        /\ (forall id a,
              findOneByEmail (toLowerCase email0) admins = Some (id, a) ->
              admins !! id = Some a
              /\ email a = toLowerCase email0
              /\ (isActive a = false ->
                  login bcryptCompare toLowerCase generateToken clk emailField
                        passwordField admins
                  = (LoginRefused 401 "Account is deactivated", admins))
              /\ (isActive a = true -> isLocked clk a = true ->
                  login bcryptCompare toLowerCase generateToken clk emailField
                        passwordField admins
                  = (LoginRefused 423
                       "Account is temporarily locked due to multiple failed login attempts",
                     admins))
              /\ (isActive a = true -> isLocked clk a = false ->
                  bcryptCompare password0 (password a) = false ->
                  login bcryptCompare toLowerCase generateToken clk emailField
                        passwordField admins
                  = (LoginRefused 401 "Invalid credentials",
                     <[id := {| username := username a; email := email a;
                                password := password a; role := role a;
                                isActive := isActive a;
                                createdBy := createdBy a;
                                lastLogin := lastLogin a;
                                loginAttempts := loginAttempts a + 1;
                                lockUntil :=
                                  if 5 <=? loginAttempts a + 1
                                  then Some (clk 1%nat + lockTime)
                                  else lockUntil a;
                                permissions := permissions a |}]> admins)))).
Proof.
  split.
  - unfold login. intros [-> | Hp]; [reflexivity|].
    rewrite Hp. destruct (present emailField); reflexivity.
  - intros email0 password0 He Hp. unfold login. rewrite He, Hp. split.
    + intros ->. reflexivity.
    + intros id a Hf. rewrite Hf.
      apply findOneByEmail_Some in Hf as [Ha Hmail].
      split; [exact Ha|]. split; [exact Hmail|].
      unfold comparePassword. repeat split.
      * intros ->. reflexivity.
      * intros -> ->. reflexivity.
      * intros -> -> ->. reflexivity.
Qed.

End Login.

Lemma login_issues_a_token_witness :
  exists email0 password0 a,
    Some "ed@acme.example"%string = Some email0
    /\ Some "secret"%string = Some password0
    /\ Sample.staff !! 2%nat = Some a
    /\ email a = Sample.asIs email0
    /\ isActive a = true
    /\ isLocked (fixed 100) a = false
    /\ Sample.plainCompare password0 (password a) = true
    /\ Sample.token 2%nat = Sample.token 2%nat
    /\ (0 <= loginAttempts a ->
        loginAttempts (updateLastLogin (fun k => fixed 100 (S k)) Sample.editor)
        = 0)
    /\ lastLogin (updateLastLogin (fun k => fixed 100 (S k)) Sample.editor)
       = Some (fixed 100 1%nat)
    /\ <[2%nat := updateLastLogin (fun k => fixed 100 (S k)) Sample.editor]>
         Sample.staff
       = <[2%nat := updateLastLogin (fun k => fixed 100 (S k)) Sample.editor]>
           Sample.staff.
Proof.
  apply (login_issues_a_token_only_on_a_matching_password
           Sample.plainCompare Sample.asIs Sample.token (fixed 100)
           (Some "ed@acme.example"%string) (Some "secret"%string)
           Sample.staff
           (<[2%nat := updateLastLogin (fun k => fixed 100 (S k)) Sample.editor]>
              Sample.staff)
           (Sample.token 2%nat) 2%nat
           (updateLastLogin (fun k => fixed 100 (S k)) Sample.editor)).
  reflexivity.
Defined.

Lemma refused_login_witness :
  login Sample.plainCompare Sample.asIs Sample.token (fixed 100)
        (Some "ed@acme.example"%string) (Some "guess"%string) Sample.staff
  = (LoginRefused 401 "Invalid credentials",
     <[2%nat := {| username := username Sample.editor;
                   email := email Sample.editor;
                   password := password Sample.editor;
                   role := role Sample.editor;
                   isActive := isActive Sample.editor;
                   createdBy := createdBy Sample.editor;
                   lastLogin := lastLogin Sample.editor;
                   loginAttempts := loginAttempts Sample.editor + 1;
                   lockUntil :=
                     if 5 <=? loginAttempts Sample.editor + 1
                     then Some (fixed 100 1%nat + lockTime)
                     else lockUntil Sample.editor;
                   permissions := permissions Sample.editor |}]> Sample.staff).
Proof.
  destruct (refused_login_counts_only_a_wrong_password
              Sample.plainCompare Sample.asIs Sample.token (fixed 100)
              (Some "ed@acme.example"%string) (Some "guess"%string)
              Sample.staff) as [_ Hfields].
  destruct (Hfields "ed@acme.example"%string "guess"%string eq_refl eq_refl)
    as [_ Hfound].
  destruct (Hfound 2%nat Sample.editor eq_refl) as (_ & _ & _ & _ & Hwrong).
  apply Hwrong; reflexivity.
Defined.

End AdminFacts.
